(** * Xenia APU: XMA context pool, register interface, decoder loop and
      client worker of [xenia/apu/audio_system.cc], the guest record of
      [xenia/apu/xma_context.h], and the file shims [NtCreateFile],
      [NtOpenFile], [NtReadFile], [NtWriteFile], [NtQueryDirectoryFile]
      and [NtQueryVolumeInformationFile] of [xenia/kernel/xboxkrnl_io.cc],
      as a shallow embedding.

    Conventions.
    - A C++ [uint32_t] is a [Z] in [0, 2^32); wrap-around is written out.
    - Guest memory is a byte store indexed by host location; the address
      translations ([TranslateVirtual], [TranslatePhysical]) and the system
      heap belong to the memory object and are not interpreted.
    - [assert_true] / [assert_zero] / [assert] are debug checks: an operation
      whose assertion does not hold [Faults]; so does one that would
      dereference a null reference or read the front of an empty queue.
    - Each operation is one atomic step: it runs to completion under the
      locks it takes.  The outcome of [try_lock] in the decoder scan is an
      input of the scan.
    - [registers_] overlays the register file: its three words are words
      of [register_file_], and guest accesses to them go through
      [ReadRegister] and [WriteRegister] like any other register.
    - The decoder collaborator writes guest memory: [DecodePacket] is
      handed guest memory and leaves it changed. *)

From Stdlib Require Import ZArith List Lia Bool Arith FinFun.
From coqutil Require Import Byte Word.LittleEndianList Z.bitblast.
Import ListNotations.
Local Open Scope Z_scope.

(* ===================================================================== *)
(** ** Bytes, words and guest memory *)
(* ===================================================================== *)

Definition uint32 (z : Z) : Z := z mod 2 ^ 32.

(** Modelled from the spec: [xe::byte_swap] (xenia/base/byte_order.h) is not
    among the sources.  The spec calls it the byte swap between big-endian
    guest order and host order of a 32-bit word: the four bytes of the word,
    reversed. *)
Definition byte_swap (v : Z) : Z := le_combine (rev (le_split 4 v)).

Definition Memory : Type := Z -> byte.

Definition read_bytes (m : Memory) (p : Z) (n : nat) : list byte :=
  map (fun i => m (p + Z.of_nat i)) (seq 0 n).

Definition write_bytes (m : Memory) (p : Z) (bs : list byte) : Memory :=
  fun a =>
    if (p <=? a) && (a <? p + Z.of_nat (length bs))
    then nth (Z.to_nat (a - p)) bs Byte.x00
    else m a.

(** [std::memset(ptr, 0, n)]. *)
Definition memset0 (m : Memory) (p : Z) (n : nat) : Memory :=
  write_bytes m p (repeat Byte.x00 n).

(** Modelled from the spec: [xe::copy_and_swap] (xenia/base/memory.h) is not
    among the sources; it copies [count] 32-bit words, byte-swapping each.
    The host is little-endian (the file is Win32 code): the host word at a
    location is [le_combine] of its four bytes.  [copy_and_swap_in] is the
    direction guest bytes -> host words, [copy_and_swap_out] the direction
    host words -> guest bytes. *)
Fixpoint copy_and_swap_in (src : list byte) : list Z :=
  match src with
  | b0 :: b1 :: b2 :: b3 :: rest =>
      byte_swap (le_combine [b0; b1; b2; b3]) :: copy_and_swap_in rest
  | _ => []
  end.

Definition copy_and_swap_out (src : list Z) : list byte :=
  flat_map (fun w => le_split 4 (byte_swap w)) src.

(** The transform on the bytes themselves: host words in, host words out. *)
Definition copy_and_swap (src : list byte) : list byte :=
  flat_map (le_split 4) (copy_and_swap_in src).

(* ===================================================================== *)
(** ** The guest context record, [struct XMA_CONTEXT_DATA] *)
(* ===================================================================== *)

Module XMA_CONTEXT_DATA.

Definition kBytesPerPacket : Z := 2048.
Definition kSamplesPerFrame : Z := 512.
Definition kSamplesPerSubframe : Z := 128.
Definition kOutputBytesPerBlock : Z := 256.
Definition kOutputMaxSizeBytes : Z := 31 * kOutputBytesPerBlock.

(** [sizeof(XMA_CONTEXT_DATA)], fixed by [static_assert_size]. *)
Definition size : nat := 64.

(** The host struct: sixteen 32-bit words ([sizeof / 4]). *)
Definition t : Type := list Z.

(** A bit-field of the struct: the DWORD it lives in, its first bit (the
    [+Nbit] of the source comments, counted from the low end) and its
    width. *)
Record bitfield : Type := { dword : nat; shift : Z; width : Z }.

(* DWORD 0 *)
Definition input_buffer_0_packet_count := {| dword := 0; shift := 0; width := 12 |}.
Definition loop_count := {| dword := 0; shift := 12; width := 8 |}.
Definition input_buffer_0_valid := {| dword := 0; shift := 20; width := 1 |}.
Definition input_buffer_1_valid := {| dword := 0; shift := 21; width := 1 |}.
Definition output_buffer_block_count := {| dword := 0; shift := 22; width := 5 |}.
Definition output_buffer_write_offset := {| dword := 0; shift := 27; width := 5 |}.
(* DWORD 1 *)
Definition input_buffer_1_packet_count := {| dword := 1; shift := 0; width := 12 |}.
Definition loop_subframe_end := {| dword := 1; shift := 12; width := 2 |}.
Definition unk_dword_1_a := {| dword := 1; shift := 14; width := 3 |}.
Definition loop_subframe_skip := {| dword := 1; shift := 17; width := 3 |}.
Definition subframe_decode_count := {| dword := 1; shift := 20; width := 4 |}.
Definition unk_dword_1_b := {| dword := 1; shift := 24; width := 3 |}.
Definition sample_rate := {| dword := 1; shift := 27; width := 2 |}.
Definition is_stereo := {| dword := 1; shift := 29; width := 1 |}.
Definition unk_dword_1_c := {| dword := 1; shift := 30; width := 1 |}.
Definition output_buffer_valid := {| dword := 1; shift := 31; width := 1 |}.
(* DWORD 2 *)
Definition input_buffer_read_offset := {| dword := 2; shift := 0; width := 26 |}.
Definition unk_dword_2 := {| dword := 2; shift := 26; width := 6 |}.
(* DWORD 3 *)
Definition loop_start := {| dword := 3; shift := 0; width := 26 |}.
Definition unk_dword_3 := {| dword := 3; shift := 26; width := 6 |}.
(* DWORD 4 *)
Definition loop_end := {| dword := 4; shift := 0; width := 26 |}.
Definition packet_metadata := {| dword := 4; shift := 26; width := 5 |}.
Definition current_buffer := {| dword := 4; shift := 31; width := 1 |}.
(* DWORD 5 .. 8 *)
Definition input_buffer_0_ptr := {| dword := 5; shift := 0; width := 32 |}.
Definition input_buffer_1_ptr := {| dword := 6; shift := 0; width := 32 |}.
Definition output_buffer_ptr := {| dword := 7; shift := 0; width := 32 |}.
Definition overlap_add_ptr := {| dword := 8; shift := 0; width := 32 |}.
(* DWORD 9 *)
Definition output_buffer_read_offset := {| dword := 9; shift := 0; width := 5 |}.
Definition unk_dword_9 := {| dword := 9; shift := 5; width := 27 |}.
(* DWORD 10-15 *)
Definition unk_dwords_10_15 (i : nat) := {| dword := 10 + i; shift := 0; width := 32 |}.

Definition fields : list bitfield :=
  [ input_buffer_0_packet_count; loop_count; input_buffer_0_valid;
    input_buffer_1_valid; output_buffer_block_count;
    output_buffer_write_offset;
    input_buffer_1_packet_count; loop_subframe_end; unk_dword_1_a;
    loop_subframe_skip; subframe_decode_count; unk_dword_1_b; sample_rate;
    is_stereo; unk_dword_1_c; output_buffer_valid;
    input_buffer_read_offset; unk_dword_2;
    loop_start; unk_dword_3;
    loop_end; packet_metadata; current_buffer;
    input_buffer_0_ptr; input_buffer_1_ptr; output_buffer_ptr;
    overlap_add_ptr;
    output_buffer_read_offset; unk_dword_9 ]
  ++ map unk_dwords_10_15 [0; 1; 2; 3; 4; 5]%nat.

(** Reading a bit-field. *)
Definition get (f : bitfield) (d : t) : Z :=
  Z.land (Z.shiftr (nth (dword f) d 0) (shift f)) (Z.ones (width f)).

Definition set_bits (f : bitfield) (v w : Z) : Z :=
  Z.lor (Z.land w (Z.lnot (Z.shiftl (Z.ones (width f)) (shift f))))
        (Z.shiftl (Z.land v (Z.ones (width f))) (shift f)).

Fixpoint update (i : nat) (g : Z -> Z) (d : t) : t :=
  match d, i with
  | [], _ => []
  | w :: d', O => g w :: d'
  | w :: d', S i' => w :: update i' g d'
  end.

(** Assigning to a bit-field: the value is truncated to the width. *)
Definition set (f : bitfield) (v : Z) (d : t) : t :=
  update (dword f) (set_bits f v) d.

(** The constructor [XMA_CONTEXT_DATA(const void* ptr)]:
    [copy_and_swap(this, ptr, sizeof / 4)]. *)
Definition load (m : Memory) (ptr : Z) : t :=
  copy_and_swap_in (read_bytes m ptr size).

(** [void Store(void* ptr)]: [copy_and_swap(ptr, this, sizeof / 4)]. *)
Definition Store (d : t) (m : Memory) (ptr : Z) : Memory :=
  write_bytes m ptr (copy_and_swap_out (firstn 16 d)).

Definition wf (d : t) : Prop :=
  length d = 16%nat /\ Forall (fun w => 0 <= w < 2 ^ 32) d.

(** A bit-field that lies inside its 32-bit word. *)
Definition bitfield_ok (f : bitfield) : bool :=
  (0 <=? shift f) && (0 <=? width f) && (shift f + width f <=? 32)
  && (dword f <? 16)%nat.

(** Two bit-fields that share no bit. *)
Definition independent (f g : bitfield) : bool :=
  negb (dword f =? dword g)%nat
  || (shift f + width f <=? shift g) || (shift g + width g <=? shift f).

Definition bitfield_eqb (f g : bitfield) : bool :=
  (dword f =? dword g)%nat && (shift f =? shift g) && (width f =? width g).

End XMA_CONTEXT_DATA.

(* ===================================================================== *)
(** ** Outcomes of an operation *)
(* ===================================================================== *)

(** An operation either returns, or faults: an assertion of the source does
    not hold, or the code would go on to undefined behaviour. *)
Inductive outcome (A : Type) : Type :=
| Returns (a : A)
| Faults.
Arguments Returns {A} a.
Arguments Faults {A}.

Definition bind {A B : Type} (o : outcome A) (k : A -> outcome B) : outcome B :=
  match o with
  | Returns a => k a
  | Faults => Faults
  end.

Notation "x <- c1 ;; c2" := (bind c1 (fun x => c2))
  (at level 61, c1 at next level, right associativity).

Definition assert_true (b : bool) : outcome unit :=
  if b then Returns tt else Faults.

(** [size_t] arithmetic of the 64-bit host. *)
Definition size_t (z : Z) : Z := z mod 2 ^ 64.

(* ===================================================================== *)
(** ** The decoder collaborator ([AudioDecoder], xenia/apu/audio_decoder.h) *)
(* ===================================================================== *)

(** The codec is outside the sources and opaque to the audio system: an
    interface.  [DecodePacket d m out offset size] is handed the host
    location [out] of the output buffer in guest memory [m]; it copies
    audio samples into the buffer and answers the [int] result (bytes
    written at [out + offset], at most [size] of them, or a negative
    error).  What it wrote is the decoder's business: the call leaves
    guest memory [decode_memory] and the decoder [decode_state].
    [PreparePacket d m packet size sample_rate channels] stages the packet
    at host location [packet] of guest memory [m]. *)
Record Decoded (D : Type) : Type := {
  decode_result : Z;
  decode_memory : Memory;
  decode_state : D
}.
Arguments decode_result {D} _.
Arguments decode_memory {D} _.
Arguments decode_state {D} _.

Class AudioDecoder (D : Type) : Type := {
  DecodePacket : D -> Memory -> Z -> Z -> Z -> Decoded D;
  PreparePacket : D -> Memory -> Z -> Z -> Z -> Z -> D;
  DiscardPacket : D -> D
}.

(** What the decoder thread does with the collaborator and the log, in
    program order. *)
Inductive event : Type :=
| EvDecodePacket (out offset size read : Z)
| EvLogDecodeFailed (code : Z)
| EvDiscardPacket
| EvPreparePacket (packet size sample_rate channels : Z).

(* ===================================================================== *)
(** ** State of [AudioSystem] *)
(* ===================================================================== *)

(** Size of a hardware XMA context. *)
Definition kXmaContextSize : Z := 64.
(** Total number of XMA contexts available. *)
Definition kXmaContextCount : Z := 320.

(** The [Memory] object behind [memory()]: the bytes, the two address
    translations, and the system heap, whose [k]-th allocation returns
    [heap_results k] (the allocator itself is outside the sources). *)
Record MemoryObject : Type := {
  bytes : Memory;
  TranslateVirtual : Z -> Z;
  TranslatePhysical : Z -> Z;
  heap_results : nat -> Z;
  heap_allocs : nat
}.

Definition with_bytes (mo : MemoryObject) (b : Memory) : MemoryObject :=
  {| bytes := b;
     TranslateVirtual := TranslateVirtual mo;
     TranslatePhysical := TranslatePhysical mo;
     heap_results := heap_results mo;
     heap_allocs := heap_allocs mo |}.

Definition SystemHeapAlloc (mo : MemoryObject) : Z * MemoryObject :=
  (heap_results mo (heap_allocs mo),
   {| bytes := bytes mo;
      TranslateVirtual := TranslateVirtual mo;
      TranslatePhysical := TranslatePhysical mo;
      heap_results := heap_results mo;
      heap_allocs := S (heap_allocs mo) |}).

(** The struct of [registers_]. *)
Record Registers : Type := {
  xma_context_array_ptr : Z;
  current_context : Z;
  next_context : Z
}.

(** One slot of [xma_context_array_].  The slot's [lock] is taken and
    released inside each atomic step and has no field here. *)
Record XMAContext (D : Type) : Type := {
  guest_ptr : Z;
  in_use : bool;
  decoder : D
}.
Arguments guest_ptr {D} _.
Arguments in_use {D} _.
Arguments decoder {D} _.

(** One entry of [clients_]: [{driver, callback, callback_arg,
    wrapped_callback_arg}]; [driver = 0] is the null driver. *)
Record Client : Type := {
  driver : Z;
  callback : Z;
  callback_arg : Z;
  wrapped_callback_arg : Z
}.

Record AudioSystem (D : Type) : Type := {
  memory_ : MemoryObject;
  register_file_ : Z -> Z;
  xma_context_array_ : list (XMAContext D);
  decoder_fence_ : nat;                 (* number of Signal() calls so far *)
  clients_ : list Client;               (* maximum_client_count_ entries *)
  unused_clients_ : list nat;           (* the queue, front first *)
  client_wait_handles_ : list bool;     (* manual-reset events: signaled? *)
  submitted_frames_ : list (nat * Z);   (* driver->SubmitFrame calls *)
  worker_running_ : bool
}.
Arguments memory_ {D} _.
Arguments register_file_ {D} _.
Arguments xma_context_array_ {D} _.
Arguments decoder_fence_ {D} _.
Arguments clients_ {D} _.
Arguments unused_clients_ {D} _.
Arguments client_wait_handles_ {D} _.
Arguments submitted_frames_ {D} _.
Arguments worker_running_ {D} _.

(** [maximum_client_count_] is declared in audio_system.h (not among the
    sources); [clients_] has that many entries and [client_wait_handles_]
    one more. *)
Definition maximum_client_count_ {D} (s : AudioSystem D) : nat := length (clients_ s).

Section StateUpdates.
Context {D : Type}.
Implicit Type s : AudioSystem D.

Definition with_memory s (mo : MemoryObject) : AudioSystem D :=
  {| memory_ := mo; register_file_ := register_file_ s;
     xma_context_array_ := xma_context_array_ s;
     decoder_fence_ := decoder_fence_ s; clients_ := clients_ s;
     unused_clients_ := unused_clients_ s;
     client_wait_handles_ := client_wait_handles_ s;
     submitted_frames_ := submitted_frames_ s;
     worker_running_ := worker_running_ s |}.

Definition with_register_file s (rf : Z -> Z) : AudioSystem D :=
  {| memory_ := memory_ s; register_file_ := rf;
     xma_context_array_ := xma_context_array_ s;
     decoder_fence_ := decoder_fence_ s; clients_ := clients_ s;
     unused_clients_ := unused_clients_ s;
     client_wait_handles_ := client_wait_handles_ s;
     submitted_frames_ := submitted_frames_ s;
     worker_running_ := worker_running_ s |}.

(** [registers_] and [register_file_] are the two members of one union
    (audio_system.h, not among the sources): the struct [registers_] names
    three words of the register file, [xma_context_array_ptr] at byte
    0x1800, [current_context] at 0x1818 and [next_context] at 0x181C.  The
    state holds the register file; [registers_ s] reads the three words out
    of it, and assigning the struct stores them into it. *)
Definition registers_ s : Registers :=
  {| xma_context_array_ptr := register_file_ s (0x1800 / 4);
     current_context := register_file_ s (0x1818 / 4);
     next_context := register_file_ s (0x181C / 4) |}.

Definition with_registers s (r : Registers) : AudioSystem D :=
  with_register_file s
    (fun k => if k =? 0x1800 / 4 then xma_context_array_ptr r
              else if k =? 0x1818 / 4 then current_context r
              else if k =? 0x181C / 4 then next_context r
              else register_file_ s k).

Definition with_contexts s (l : list (XMAContext D)) : AudioSystem D :=
  {| memory_ := memory_ s; register_file_ := register_file_ s;
     xma_context_array_ := l;
     decoder_fence_ := decoder_fence_ s; clients_ := clients_ s;
     unused_clients_ := unused_clients_ s;
     client_wait_handles_ := client_wait_handles_ s;
     submitted_frames_ := submitted_frames_ s;
     worker_running_ := worker_running_ s |}.

Definition with_fence s (n : nat) : AudioSystem D :=
  {| memory_ := memory_ s; register_file_ := register_file_ s;
     xma_context_array_ := xma_context_array_ s;
     decoder_fence_ := n; clients_ := clients_ s;
     unused_clients_ := unused_clients_ s;
     client_wait_handles_ := client_wait_handles_ s;
     submitted_frames_ := submitted_frames_ s;
     worker_running_ := worker_running_ s |}.

Definition with_clients s (cs : list Client) (q : list nat) : AudioSystem D :=
  {| memory_ := memory_ s; register_file_ := register_file_ s;
     xma_context_array_ := xma_context_array_ s;
     decoder_fence_ := decoder_fence_ s; clients_ := cs;
     unused_clients_ := q;
     client_wait_handles_ := client_wait_handles_ s;
     submitted_frames_ := submitted_frames_ s;
     worker_running_ := worker_running_ s |}.

Definition with_wait_handles s (hs : list bool) : AudioSystem D :=
  {| memory_ := memory_ s; register_file_ := register_file_ s;
     xma_context_array_ := xma_context_array_ s;
     decoder_fence_ := decoder_fence_ s; clients_ := clients_ s;
     unused_clients_ := unused_clients_ s;
     client_wait_handles_ := hs;
     submitted_frames_ := submitted_frames_ s;
     worker_running_ := worker_running_ s |}.

Definition with_submitted s (fr : list (nat * Z)) : AudioSystem D :=
  {| memory_ := memory_ s; register_file_ := register_file_ s;
     xma_context_array_ := xma_context_array_ s;
     decoder_fence_ := decoder_fence_ s; clients_ := clients_ s;
     unused_clients_ := unused_clients_ s;
     client_wait_handles_ := client_wait_handles_ s;
     submitted_frames_ := fr;
     worker_running_ := worker_running_ s |}.

Definition set_in_use (b : bool) (c : XMAContext D) : XMAContext D :=
  {| guest_ptr := guest_ptr c; in_use := b; decoder := decoder c |}.

Definition set_decoder (d : D) (c : XMAContext D) : XMAContext D :=
  {| guest_ptr := guest_ptr c; in_use := in_use c; decoder := d |}.

(** Assignment to an array element; out of range the list is unchanged. *)
Fixpoint list_set {A : Type} (i : nat) (x : A) (l : list A) : list A :=
  match l, i with
  | [], _ => []
  | _ :: l', O => x :: l'
  | y :: l', S i' => y :: list_set i' x l'
  end.

End StateUpdates.

Import XMA_CONTEXT_DATA.

(** audio_system.cc reads the record through [XMAContextData]
    (audio_system.h, not among the sources): the same struct under its
    earlier name, where the two packet counts are called block counts. *)
Definition input_buffer_0_block_count : bitfield := input_buffer_0_packet_count.
Definition input_buffer_1_block_count : bitfield := input_buffer_1_packet_count.

(** A C++ condition on an integer: non-zero. *)
Definition nonzero (z : Z) : bool := negb (z =? 0).
(** A C++ [bool] assigned to an integer field. *)
Definition of_bool (b : bool) : Z := if b then 1 else 0.

(* ===================================================================== *)
(** ** The decoder thread: [AudioSystem::DecoderThreadMain] *)
(* ===================================================================== *)

Inductive loop_step (A : Type) : Type :=
| Break (a : A)
| Continue (a : A).
Arguments Break {A} a.
Arguments Continue {A} a.

Section DecoderThread.
Context {D : Type} {AD : AudioDecoder D}.

(** "Select sample rate." *)
Definition select_sample_rate (data : XMA_CONTEXT_DATA.t) : Z :=
  if get sample_rate data =? 0 then 24000
  else if get sample_rate data =? 1 then 32000
  else if get sample_rate data =? 2 then 44100
  else if get sample_rate data =? 3 then 48000
  else 0.

(** "Channels". *)
Definition select_channels (data : XMA_CONTEXT_DATA.t) : Z :=
  if get is_stereo data =? 1 then 2 else 1.

(** The quantities the loop computes from the record at the top of each
    trip. *)
Definition input_size (data : XMA_CONTEXT_DATA.t) : Z :=
  size_t ((get input_buffer_0_block_count data +
           get input_buffer_1_block_count data) * 2048).
Definition input_offset (data : XMA_CONTEXT_DATA.t) : Z :=
  size_t (get input_buffer_read_offset data / 8 - 4).
Definition input_remaining (data : XMA_CONTEXT_DATA.t) : Z :=
  size_t (input_size data - input_offset data).
Definition output_size (data : XMA_CONTEXT_DATA.t) : Z :=
  size_t (get output_buffer_block_count data * 256).
Definition output_offset (data : XMA_CONTEXT_DATA.t) : Z :=
  size_t (get output_buffer_write_offset data * 256).
Definition output_remaining (data : XMA_CONTEXT_DATA.t) : Z :=
  size_t (output_size data - output_offset data).

(** One trip through the body of the [while (true)] loop, in guest
    memory [m]: the trip leaves the loop state, the calls it made, and
    guest memory as [DecodePacket] left it. *)
Definition decode_iteration (in0 out : Z) (m : Memory)
    (st : XMA_CONTEXT_DATA.t * D)
  : loop_step (XMA_CONTEXT_DATA.t * D) * list event * Memory :=
  let '(data, dec) := st in
  if input_remaining data =? 0 then (Break st, [], m)  (* We're finished! *)
  else if output_remaining data =? 0 then (Break st, [], m)
  else
    let decoded :=
      DecodePacket dec m out (output_offset data) (output_remaining data) in
    let read := decode_result decoded in
    let m1 := decode_memory decoded in
    let dec1 := decode_state decoded in
    let call :=
      EvDecodePacket out (output_offset data) (output_remaining data) read in
    if read <? 0 then
      (Break (data, DiscardPacket dec1),
       [call; EvLogDecodeFailed (- read); EvDiscardPacket],
       m1)
    else
      let '(input_offset', dec2, prepared) :=
        if read =? 0 then
          (* New packet time. *)
          let packet := size_t (in0 + input_offset data) in
          (size_t (input_offset data + 2048),
           PreparePacket dec1 m1 packet 2048
             (select_sample_rate data) (select_channels data),
           [EvPreparePacket packet 2048
              (select_sample_rate data) (select_channels data)])
        else (input_offset data, dec1, []) in
      let output_offset' := size_t (output_offset data + read) in
      let data := set input_buffer_read_offset
                      (size_t ((input_offset' + 4) * 8)) data in
      let data := set output_buffer_write_offset (output_offset' / 256) data in
      (Continue (data, dec2), call :: prepared, m1).

(** The [while (true)] loop; [None] when [fuel] trips through the body do
    not reach a [break]. *)
Fixpoint decode_loop (fuel : nat) (in0 out : Z) (m : Memory)
    (st : XMA_CONTEXT_DATA.t * D)
  : option (XMA_CONTEXT_DATA.t * D * list event * Memory) :=
  match fuel with
  | O => None
  | S fuel' =>
      match decode_iteration in0 out m st with
      | (Break st', evs, m') => Some (st', evs, m')
      | (Continue st', evs, m') =>
          match decode_loop fuel' in0 out m' st' with
          | Some (st'', evs', m'') => Some (st'', evs ++ evs', m'')
          | None => None
          end
      end
  end.

(** The body of the [for] loop over the contexts, for one context.
    [contended] says that [try_lock] failed.  The record is stored last,
    over whatever the decoder has written. *)
Definition process_context (fuel : nat) (contended : bool)
    (mo : MemoryObject) (context : XMAContext D)
  : option (outcome (XMAContext D * MemoryObject * list event)) :=
  if contended then Some (Returns (context, mo, []))
  else if negb (in_use context) then Some (Returns (context, mo, []))
  else
    let ptr := TranslatePhysical mo (guest_ptr context) in
    let data := load (bytes mo) ptr in
    if nonzero (get input_buffer_0_valid data)
       || nonzero (get input_buffer_1_valid data)
    then
      let data := set input_buffer_0_valid 0 data in
      let data := set input_buffer_1_valid 0 data in
      let data := set output_buffer_valid 0 data in
      let in0 := TranslatePhysical mo (get input_buffer_0_ptr data) in
      let out := TranslatePhysical mo (get output_buffer_ptr data) in
      if nonzero (get input_buffer_1_block_count data) then Some Faults
      else
        match decode_loop fuel in0 out (bytes mo) (data, decoder context) with
        | None => None
        | Some (data', dec', evs, m') =>
            Some (Returns (set_decoder dec' context,
                           with_bytes mo (Store data' m' ptr),
                           evs))
        end
    else Some (Returns (context, mo, [])).

(** The [for (n = 0; n < kXmaContextCount; n++)] scan, from slot [n] on. *)
Fixpoint decoder_scan (fuel : nat) (contended : nat -> bool) (n : nat)
    (mo : MemoryObject) (contexts : list (XMAContext D))
  : option (outcome (list (XMAContext D) * MemoryObject * list event)) :=
  match contexts with
  | [] => Some (Returns ([], mo, []))
  | context :: rest =>
      match process_context fuel (contended n) mo context with
      | None => None
      | Some Faults => Some Faults
      | Some (Returns (context', mo', evs)) =>
          match decoder_scan fuel contended (S n) mo' rest with
          | None => None
          | Some Faults => Some Faults
          | Some (Returns (rest', mo'', evs')) =>
              Some (Returns (context' :: rest', mo'', evs ++ evs'))
          end
      end
  end.

(** One wake-up of the decoder thread: a scan of the whole array. *)
Definition DecoderThreadMain_pass (fuel : nat) (contended : nat -> bool)
    (s : AudioSystem D) : option (outcome (AudioSystem D * list event)) :=
  match decoder_scan fuel contended 0 (memory_ s) (xma_context_array_ s) with
  | None => None
  | Some Faults => Some Faults
  | Some (Returns (contexts, mo, evs)) =>
      Some (Returns (with_contexts (with_memory s mo) contexts, evs))
  end.

End DecoderThread.

(* ===================================================================== *)
(** ** Construction and [AudioSystem::Setup] *)
(* ===================================================================== *)

Section Pool.
Context {D : Type} {AD : AudioDecoder D}.

Definition null_client : Client :=
  {| driver := 0; callback := 0; callback_arg := 0; wrapped_callback_arg := 0 |}.

(** The constructor: [clients_] zeroed, every index in [unused_clients_],
    one unsignaled manual-reset event per client and one more.  The
    constructor leaves [registers_] and the context array to [Setup]; the
    register file starts as zeros. *)
Definition AudioSystem_new (max_clients : nat) (mo : MemoryObject)
  : AudioSystem D :=
  {| memory_ := mo;
     register_file_ := fun _ => 0;
     xma_context_array_ := [];
     decoder_fence_ := 0%nat;
     clients_ := repeat null_client max_clients;
     unused_clients_ := seq 0 max_clients;
     client_wait_handles_ := repeat false (S max_clients);
     submitted_frames_ := [];
     worker_running_ := false |}.

(** "Add all contexts to the free list": slot [i] gets
    [xma_context_array_ptr + i * kXmaContextSize] and a decoder of its own
    ([fresh] is [new AudioDecoder()] after [Initialize(16)]). *)
Definition Setup (fresh : D) (s : AudioSystem D) : AudioSystem D :=
  let '(array_ptr, mo) := SystemHeapAlloc (memory_ s) in
  let contexts :=
    map (fun i => {| guest_ptr := uint32 (array_ptr + Z.of_nat i * kXmaContextSize);
                     in_use := false;
                     decoder := fresh |})
        (seq 0 (Z.to_nat kXmaContextCount)) in
  {| memory_ := mo;
     register_file_ :=
       register_file_
         (with_registers s
            {| xma_context_array_ptr := array_ptr;
               current_context := current_context (registers_ s);
               next_context := 1 |});
     xma_context_array_ := contexts;
     decoder_fence_ := decoder_fence_ s;
     clients_ := clients_ s;
     unused_clients_ := unused_clients_ s;
     client_wait_handles_ := client_wait_handles_ s;
     submitted_frames_ := submitted_frames_ s;
     worker_running_ := true |}.

(* =================================================================== *)
(** ** [AllocateXmaContext] and [ReleaseXmaContext] *)
(* =================================================================== *)

(** The [for] loop of [AllocateXmaContext] over the slots that remain:
    the first slot not in use is taken and its guest address returned. *)
Fixpoint allocate_scan (contexts : list (XMAContext D))
  : option (Z * list (XMAContext D)) :=
  match contexts with
  | [] => None
  | context :: rest =>
      if negb (in_use context)
      then Some (guest_ptr context, set_in_use true context :: rest)
      else match allocate_scan rest with
           | Some (p, rest') => Some (p, context :: rest')
           | None => None
           end
  end.

Definition AllocateXmaContext (s : AudioSystem D) : Z * AudioSystem D :=
  match allocate_scan (xma_context_array_ s) with
  | Some (p, contexts) => (p, with_contexts s contexts)
  | None => (0, s)
  end.

(** The [for] loop of [ReleaseXmaContext]: every slot whose address
    matches is marked free, its guest record zeroed and its decoder's
    packet discarded; the loop has no [break]. *)
Fixpoint release_scan (guest_ptr0 : Z) (mo : MemoryObject)
    (contexts : list (XMAContext D)) : list (XMAContext D) * MemoryObject :=
  match contexts with
  | [] => ([], mo)
  | context :: rest =>
      if guest_ptr context =? guest_ptr0 then
        let context_ptr := TranslateVirtual mo guest_ptr0 in
        let mo1 := with_bytes mo (memset0 (bytes mo) context_ptr
                                          (Z.to_nat kXmaContextSize)) in
        let context1 :=
          {| guest_ptr := guest_ptr context; in_use := false;
             decoder := DiscardPacket (decoder context) |} in
        let '(rest', mo2) := release_scan guest_ptr0 mo1 rest in
        (context1 :: rest', mo2)
      else
        let '(rest', mo') := release_scan guest_ptr0 mo rest in
        (context :: rest', mo')
  end.

Definition ReleaseXmaContext (guest_ptr0 : Z) (s : AudioSystem D)
  : AudioSystem D :=
  let '(contexts, mo) :=
    release_scan guest_ptr0 (memory_ s) (xma_context_array_ s) in
  with_contexts (with_memory s mo) contexts.

(* =================================================================== *)
(** ** [ReadRegister] and [WriteRegister] *)
(* =================================================================== *)

Definition ReadRegister (addr : Z) (s : AudioSystem D)
  : outcome (Z * AudioSystem D) :=
  let r := Z.land addr 0xFFFF in
  _ <- assert_true (r mod 4 =? 0) ;;
  let value := register_file_ s (r / 4) in
  let '(value, s) :=
    if r =? 0x1818 then
      let next := next_context (registers_ s) in
      let regs := {| xma_context_array_ptr := xma_context_array_ptr (registers_ s);
                     current_context := next;
                     next_context := uint32 (next + 1) mod kXmaContextCount |} in
      (next, with_registers s regs)
    else (value, s) in
  Returns (byte_swap value, s).

(** The body of [if (value & 1)] in the kick range, for one context. *)
Definition kick_context (context_id : Z) (s : AudioSystem D)
  : outcome (AudioSystem D) :=
  match nth_error (xma_context_array_ s) (Z.to_nat context_id) with
  | None => Faults
  | Some context =>
      let mo := memory_ s in
      let context_ptr := TranslateVirtual mo (guest_ptr context) in
      let data := load (bytes mo) context_ptr in
      let data := set input_buffer_0_valid
                      (of_bool (nonzero (get input_buffer_0_ptr data))) data in
      let data := set input_buffer_1_valid
                      (of_bool (nonzero (get input_buffer_1_ptr data))) data in
      let data := set output_buffer_write_offset 0 data in
      let mo := with_bytes mo (Store data (bytes mo) context_ptr) in
      Returns (with_fence (with_memory s mo) (S (decoder_fence_ s)))
  end.

(** [for (int i = 0; value && i < 32; ++i)] of the kick range, with
    [n = 32 - i] trips left. *)
Fixpoint kick_loop (n : nat) (i : Z) (value r : Z) (s : AudioSystem D)
  : outcome (AudioSystem D) :=
  match n with
  | O => Returns s
  | S n' =>
      if value =? 0 then Returns s
      else
        s' <- (if nonzero (Z.land value 1)
               then kick_context (uint32 (i + (r - 0x1940) / 4 * 32)) s
               else Returns s) ;;
        kick_loop n' (i + 1) (Z.shiftr value 1) r s'
  end.

Definition WriteRegister (addr value : Z) (s : AudioSystem D)
  : outcome (AudioSystem D) :=
  let r := Z.land addr 0xFFFF in
  let value := byte_swap (uint32 value) in
  _ <- assert_true (r mod 4 =? 0) ;;
  let s := with_register_file s
             (fun k => if k =? r / 4 then uint32 value else register_file_ s k) in
  if (0x1940 <=? r) && (r <=? 0x1940 + 9 * 4) then
    (* Context kick command. *)
    kick_loop 32 0 value r s
  else if (0x1A40 <=? r) && (r <=? 0x1A40 + 9 * 4) then
    (* Context lock command: the loop only names the context. *)
    Returns s
  else if (0x1A80 <=? r) && (r <=? 0x1A80 + 9 * 4) then
    (* Context clear command: the loop only computes the pointer. *)
    Returns s
  else Returns s.

End Pool.

(* ===================================================================== *)
(** ** Status codes (xenia/xbox.h, not among the sources) *)
(* ===================================================================== *)

(** The status constants and the success test are taken as parameters,
    with the two facts the code relies on. *)
Class XStatus : Type := {
  X_STATUS_SUCCESS : Z;
  X_STATUS_PENDING : Z;
  X_STATUS_INVALID_HANDLE : Z;
  XSUCCEEDED : Z -> bool;
  XSUCCEEDED_SUCCESS : XSUCCEEDED X_STATUS_SUCCESS = true;
  XSUCCEEDED_INVALID_HANDLE : XSUCCEEDED X_STATUS_INVALID_HANDLE = false
}.

Definition XFAILED {XS : XStatus} (s : Z) : bool := negb (XSUCCEEDED s).

(* ===================================================================== *)
(** ** Clients: [RegisterClient], [SubmitFrame], [UnregisterClient] *)
(* ===================================================================== *)

Section Clients.
Context {D : Type} {XS : XStatus}.

(** [ResetEvent(client_wait_handles_[index])]. *)
Definition ResetEvent (index : nat) (s : AudioSystem D) : AudioSystem D :=
  with_wait_handles s (list_set index false (client_wait_handles_ s)).

(** [SetEvent(client_wait_handles_[index])]: what a driver does when it
    wants a frame. *)
Definition SetEvent (index : nat) (s : AudioSystem D) : AudioSystem D :=
  with_wait_handles s (list_set index true (client_wait_handles_ s)).

(** [xe::store_and_swap<uint32_t>(p, v)]: the word in guest order. *)
Definition store_and_swap (m : Memory) (p : Z) (v : Z) : Memory :=
  write_bytes m p (le_split 4 (byte_swap v)).

(** What [CreateDriver(index, wait_handle, &driver)] answers: its status,
    the driver it stores through the out parameter, and the state in which
    it leaves the event it was handed. *)
Record CreatedDriver : Type := {
  create_result : Z;
  created_driver : Z;
  wait_handle_signaled : bool
}.

(** [CreateDriver] is the pure virtual of the platform subclass: it is
    handed the index and the client's wait handle, just reset, which it
    keeps for the driver and may signal. *)
Definition RegisterClient (CreateDriver : nat -> bool -> CreatedDriver)
    (callback0 callback_arg0 : Z) (s : AudioSystem D)
  : outcome (Z * option nat * AudioSystem D) :=
  match unused_clients_ s with
  | [] => Faults                    (* assert_true(unused_clients_.size()) *)
  | index :: unused =>
      let s := ResetEvent index s in
      let wait_handle := nth index (client_wait_handles_ s) false in
      let created := CreateDriver index wait_handle in
      let s := with_wait_handles s
                 (list_set index (wait_handle_signaled created)
                    (client_wait_handles_ s)) in
      let result := create_result created in
      let driver0 := created_driver created in
      if XFAILED result then Returns (result, None, s)
      else
        _ <- assert_true (nonzero driver0) ;;
        let '(ptr, mo) := SystemHeapAlloc (memory_ s) in
        let mo := with_bytes mo
                    (store_and_swap (bytes mo) (TranslateVirtual mo ptr)
                                    callback_arg0) in
        let client := {| driver := driver0; callback := callback0;
                         callback_arg := callback_arg0;
                         wrapped_callback_arg := ptr |} in
        let s := with_clients (with_memory s mo)
                   (list_set index client (clients_ s)) unused in
        Returns (X_STATUS_SUCCESS, Some index, s)
  end.

Definition SubmitFrame (index : nat) (samples_ptr : Z) (s : AudioSystem D)
  : outcome (AudioSystem D) :=
  _ <- assert_true (index <? maximum_client_count_ s)%nat ;;
  _ <- assert_true (nonzero (driver (nth index (clients_ s) null_client))) ;;
  let s := with_submitted s (submitted_frames_ s ++ [(index, samples_ptr)]) in
  Returns (ResetEvent index s).

Definition UnregisterClient (index : nat) (s : AudioSystem D)
  : outcome (AudioSystem D) :=
  _ <- assert_true (index <? maximum_client_count_ s)%nat ;;
  let s := with_clients s (list_set index null_client (clients_ s))
                        (unused_clients_ s ++ [index]) in
  Returns (ResetEvent index s).

End Clients.

(* ===================================================================== *)
(** ** The client worker: [AudioSystem::WorkerThreadMain] *)
(* ===================================================================== *)

(** A guest callback run by the worker: (client index, callback, argument). *)
Definition invocation : Type := (nat * Z * Z)%type.

(** [WaitForMultipleObjectsEx(count, handles, FALSE, INFINITE, FALSE)] on
    manual-reset events: the lowest signaled index, [None] while no handle
    is signaled (the wait does not return). *)
Fixpoint WaitForMultipleObjectsEx (handles : list bool) : option nat :=
  match handles with
  | [] => None
  | true :: _ => Some 0%nat
  | false :: rest => option_map S (WaitForMultipleObjectsEx rest)
  end.

(** [WaitForSingleObject(handle, 0) == WAIT_OBJECT_0]. *)
Definition WaitForSingleObject (handles : list bool) (index : nat) : bool :=
  nth index handles false.

Section Worker.
Context {D : Type}.

(** [processor->Execute(thread_state, callback, args, 1)]: guest code, run
    to completion on the worker; it may call back into the audio system. *)
Variable Execute : Z -> Z -> AudioSystem D -> AudioSystem D.

(** The [do ... while] pump, entered at [index] with at most [fuel] clients
    left ([fuel = max - index]). *)
Fixpoint pump (max fuel index : nat) (s : AudioSystem D)
  : AudioSystem D * list invocation :=
  match fuel with
  | O => (s, [])
  | S fuel' =>
      let client := nth index (clients_ s) null_client in
      let client_callback := callback client in
      let client_callback_arg := wrapped_callback_arg client in
      let '(s1, invoked) :=
        if nonzero client_callback
        then (Execute client_callback client_callback_arg s,
              [(index, client_callback, client_callback_arg)])
        else (s, []) in
      if (S index <? max)%nat
         && WaitForSingleObject (client_wait_handles_ s1) (S index)
      then let '(s2, more) := pump max fuel' (S index) s1 in
           (s2, invoked ++ more)
      else (s1, invoked)
  end.

(** One trip through the main run loop after the wait returned; [None]
    while the wait does not return. *)
Definition worker_iteration (s : AudioSystem D)
  : option (AudioSystem D * list invocation) :=
  let max := maximum_client_count_ s in
  match WaitForMultipleObjectsEx (firstn (S max) (client_wait_handles_ s)) with
  | None => None
  | Some result =>
      if (result =? max)%nat then Some (s, [])
      else Some (pump max (max - result) result s)
  end.

(** The main run loop, for at most [wakes] returns of the wait. *)
Fixpoint WorkerThreadMain (wakes : nat) (s : AudioSystem D)
  : AudioSystem D * list invocation :=
  match wakes with
  | O => (s, [])
  | S wakes' =>
      if worker_running_ s then
        match worker_iteration s with
        | None => (s, [])
        | Some (s1, invoked) =>
            if worker_running_ s1 then
              let '(s2, more) := WorkerThreadMain wakes' s1 in
              (s2, invoked ++ more)
            else (s1, invoked)
        end
      else (s, [])
  end.

End Worker.

(* ===================================================================== *)
(** ** [NtWriteFile_shim] (xenia/kernel/xboxkrnl_io.cc) *)
(* ===================================================================== *)

Module xboxkrnl_io.
Section NtWriteFile.
Context {XS : XStatus}.

(** The state of an [XFile] and its virtual [Write(buffer, length,
    byte_offset, &bytes_written)]: status, bytes written, next state. *)
Variable F : Type.
Variable XFile_Write : F -> Z -> Z -> Z -> Z * Z * F.

(** What the shim can see of [KernelState] and the guest: the object
    table, by kind of object ([LookupObject<XEvent>] and
    [LookupObject<XFile>]; an event is its signaled state), guest memory,
    and the [Write] calls made so far as (file handle, buffer, length,
    byte offset). *)
Record KernelState : Type := {
  events : Z -> option bool;
  files : Z -> option F;
  guest_memory : Memory;
  writes : list (Z * Z * Z * Z)
}.

(** An [object_ref] tested as a condition: non-null. *)
Definition is_ref {A : Type} (r : option A) : bool :=
  match r with Some _ => true | None => false end.

Definition with_event (ks : KernelState) (h : Z) (signaled : bool) : KernelState :=
  {| events := fun k => if k =? h then Some signaled else events ks k;
     files := files ks; guest_memory := guest_memory ks; writes := writes ks |}.

(** [SHIM_MEM_64(a)]: a big-endian 64-bit guest load. *)
Definition SHIM_MEM_64 (ks : KernelState) (a : Z) : Z :=
  le_combine (rev (read_bytes (guest_memory ks) a 8)).

(** [SHIM_SET_MEM_32(a, v)]: a big-endian 32-bit guest store. *)
Definition SHIM_SET_MEM_32 (ks : KernelState) (a v : Z) : KernelState :=
  {| events := events ks; files := files ks;
     guest_memory := write_bytes (guest_memory ks) a (rev (le_split 4 v));
     writes := writes ks |}.

Definition NtWriteFile
    (file_handle event_handle apc_routine_ptr apc_context
     io_status_block_ptr buffer buffer_length byte_offset_ptr : Z)
    (ks : KernelState) : outcome (Z * KernelState) :=
  let byte_offset :=
    if nonzero byte_offset_ptr then SHIM_MEM_64 ks byte_offset_ptr else 0 in
  (* Async not supported yet. *)
  _ <- assert_true (apc_routine_ptr =? 0) ;;
  let result := X_STATUS_SUCCESS in
  let info := 0 in
  (* Grab event to signal. *)
  let ev := if nonzero event_handle then events ks event_handle else None in
  let result :=
    if nonzero event_handle && negb (is_ref ev)
    then X_STATUS_INVALID_HANDLE else result in
  (* Grab file. *)
  let file := files ks file_handle in
  let result := if negb (is_ref ev) then X_STATUS_INVALID_HANDLE else result in
  (* Execute write. *)
  executed <-
    (if XSUCCEEDED result then
       (* Reset event before we begin. *)
       let ks := if is_ref ev then with_event ks event_handle false else ks in
       (* Synchronous request. *)
       let byte_offset :=
         if negb (nonzero byte_offset_ptr) || (byte_offset =? 0xFFFFFFFFfffffffe)
         then size_t (-1) else byte_offset in
       match file with
       | None => Faults               (* file->Write on a null reference *)
       | Some f =>
           let '(result, bytes_written, f') :=
             XFile_Write f buffer buffer_length byte_offset in
           let info := if XSUCCEEDED result then uint32 bytes_written else info in
           let ks := {| events := events ks;
                        files := fun k => if k =? file_handle then Some f'
                                          else files ks k;
                        guest_memory := guest_memory ks;
                        writes := writes ks ++
                                  [(file_handle, buffer, buffer_length, byte_offset)] |} in
           Returns (result, info, true, ks)
       end
     else Returns (result, info, false, ks)) ;;
  let '(result, info, signal_event, ks) := executed in
  let ks :=
    if nonzero io_status_block_ptr then
      SHIM_SET_MEM_32 (SHIM_SET_MEM_32 ks io_status_block_ptr result)
                      (io_status_block_ptr + 4) info
    else ks in
  let ks :=
    if is_ref ev && signal_event
    then with_event ks event_handle true else ks in
  Returns (result, ks).

End NtWriteFile.
End xboxkrnl_io.

(* ===================================================================== *)
(** ** Observations and runs used to state the properties *)
(* ===================================================================== *)

Section Runs.
Context {D : Type} {AD : AudioDecoder D}.

(** The allocation state of the pool: address and [in_use] of every slot. *)
Definition pool_state (s : AudioSystem D) : list (Z * bool) :=
  map (fun c => (guest_ptr c, in_use c)) (xma_context_array_ s).

(** A state as [Setup] leaves it: all [kXmaContextCount] slots present,
    the rotating counter inside the pool.  Every operation keeps it but a
    guest write to register 0x181C, which replaces the counter. *)
Definition state_ok (s : AudioSystem D) : Prop :=
  length (xma_context_array_ s) = Z.to_nat kXmaContextCount
  /\ 0 <= next_context (registers_ s) < kXmaContextCount.

(** [n] calls of [AllocateXmaContext] in a row, with their results. *)
Fixpoint allocate_many (n : nat) (s : AudioSystem D) : list Z * AudioSystem D :=
  match n with
  | O => ([], s)
  | S n' =>
      let '(p, s1) := AllocateXmaContext s in
      let '(ps, s2) := allocate_many n' s1 in
      (p :: ps, s2)
  end.





(** Every slot of a list of slots is in use. *)
Definition all_in_use (l : list (XMAContext D)) : Prop :=
  Forall (fun c => in_use c = true) l.

(** An address is taken when some slot with that address is in use. *)
Definition taken (p : Z) (l : list (XMAContext D)) : Prop :=
  exists c, In c l /\ guest_ptr c = p /\ in_use c = true.

(** The guest records of distinct slots do not overlap in host memory. *)
Definition records_disjoint (s : AudioSystem D) : Prop :=
  forall n m c d,
    n <> m ->
    nth_error (xma_context_array_ s) n = Some c ->
    nth_error (xma_context_array_ s) m = Some d ->
    TranslateVirtual (memory_ s) (guest_ptr c) + kXmaContextSize
      <= TranslateVirtual (memory_ s) (guest_ptr d)
    \/ TranslateVirtual (memory_ s) (guest_ptr d) + kXmaContextSize
      <= TranslateVirtual (memory_ s) (guest_ptr c).

(** The guest record of a slot, as the host reads it. *)
Definition context_data (s : AudioSystem D) (c : XMAContext D) : XMA_CONTEXT_DATA.t :=
  load (bytes (memory_ s)) (TranslateVirtual (memory_ s) (guest_ptr c)).

(** Slot [n] is addressed by a set bit of [value] written to kick
    register [r]: [n = b + ((r - 0x1940) / 4) * 32] with bit [b] set. *)
Definition kicked (r value : Z) (n : nat) : bool :=
  let first := (r - 0x1940) / 4 * 32 in
  (first <=? Z.of_nat n) && (Z.of_nat n <? first + 32)
  && Z.testbit value (Z.of_nat n - first).

(** The set bits among the low [n] bits of [value]. *)
Fixpoint count_set_bits (n : nat) (value : Z) : nat :=
  match n with
  | O => O
  | S n' => ((if Z.testbit value 0 then 1 else 0)
             + count_set_bits n' (Z.shiftr value 1))%nat
  end.

(** The fields a kick assigns. *)
Definition kick_fields : list bitfield :=
  [input_buffer_0_valid; input_buffer_1_valid; output_buffer_write_offset].

(** What a kick does to a record: each input-valid flag says whether its
    buffer pointer is non-zero, the output write offset is zero, and the
    other fields are as before. *)
Definition kick_effect (before after : XMA_CONTEXT_DATA.t) : Prop :=
  get input_buffer_0_valid after
    = of_bool (nonzero (get input_buffer_0_ptr before))
  /\ get input_buffer_1_valid after
     = of_bool (nonzero (get input_buffer_1_ptr before))
  /\ get output_buffer_write_offset after = 0
  /\ forall f, In f fields -> ~ In f kick_fields -> get f after = get f before.

(** Host location [a] lies in the guest record of slot [c]. *)
Definition in_record (s : AudioSystem D) (c : XMAContext D) (a : Z) : Prop :=
  TranslateVirtual (memory_ s) (guest_ptr c) <= a
  < TranslateVirtual (memory_ s) (guest_ptr c) + kXmaContextSize.

(** The number of [DecodePacket] calls in a trace: the trips through the
    loop body that got past the two checks at its top. *)
Definition decode_calls (evs : list event) : Z :=
  Z.of_nat (length (filter (fun ev => match ev with
                                      | EvDecodePacket _ _ _ _ => true
                                      | _ => false
                                      end) evs)).

(** A [DecodePacket] call whose window ends at output offset [limit], and
    which wrote inside the window. *)
Definition call_within (limit : Z) (ev : event) : Prop :=
  match ev with
  | EvDecodePacket _ offset size read =>
      0 <= offset /\ 0 < size /\ offset + size = limit /\ 0 <= read <= size
  | _ => True
  end.

(** A decoder that keeps to the window it is handed: a [DecodePacket]
    call changes no byte of guest memory outside
    [out + offset, out + offset + size). *)
Definition writes_in_window : Prop :=
  forall (dec : D) m out offset size a,
    a < out + offset \/ out + offset + size <= a ->
    decode_memory (DecodePacket dec m out offset size) a = m a.

(** Host location [a] lies outside the window of a [DecodePacket] call. *)
Definition outside_window (a : Z) (ev : event) : Prop :=
  match ev with
  | EvDecodePacket out offset size _ =>
      a < out + offset \/ out + offset + size <= a
  | _ => True
  end.

(** The iteration bound as the specification words it:
    [ceil(min(S, O) / packet_size)]. *)
Definition claimed_iteration_bound (S O : Z) : Z :=
  (Z.min S O + kBytesPerPacket - 1) / kBytesPerPacket.

(** The fields the decoder thread assigns. *)
Definition decoder_fields : list bitfield :=
  [input_buffer_0_valid; input_buffer_1_valid; output_buffer_valid;
   input_buffer_read_offset; output_buffer_write_offset].

(** The buffer descriptors of a record, in the units of the loop: input
    buffer 0 of [packets] packets with [consumed] of them read, no input
    buffer 1, an output buffer of [blocks] blocks with [written] of them
    written. *)
Definition buffer_state (packets blocks consumed written : Z)
    (data : XMA_CONTEXT_DATA.t) : Prop :=
  length data = 16%nat
  /\ get input_buffer_0_block_count data = packets
  /\ get input_buffer_1_block_count data = 0
  /\ get input_buffer_read_offset data = (2048 * consumed + 4) * 8
  /\ get output_buffer_block_count data = blocks
  /\ get output_buffer_write_offset data = written.

(** A record with input buffer 0 of [packets] packets, read from its
    start (bit offset 32, behind the 4-byte header), and an output buffer
    of [blocks] blocks, nothing written; every other field zero. *)
Definition fresh_record (packets blocks : Z) : XMA_CONTEXT_DATA.t :=
  set input_buffer_read_offset 32
    (set output_buffer_block_count blocks
       (set input_buffer_0_block_count packets (repeat 0 16))).

End Runs.

(* ===================================================================== *)
(** ** Concrete collaborators *)
(* ===================================================================== *)

(** Modelled from the spec: the decoder collaborator "always consumes input
    and produces output at a fixed ratio".  The state is the number of PCM
    bytes decoded and not yet handed out.  [PreparePacket] consumes a
    packet, which yields [yield] bytes; [DecodePacket] hands out what is
    pending, at most [size] bytes, which it writes at [out + offset]
    (as zero bytes: the samples have no content here), and reports zero
    when nothing is pending; [DiscardPacket] abandons what is pending. *)
Definition ratio_decoder (yield : Z) : AudioDecoder Z :=
  {| DecodePacket := fun pending m out offset size =>
       {| decode_result := Z.min size pending;
          decode_memory :=
            memset0 m (out + offset) (Z.to_nat (Z.min size pending));
          decode_state := pending - Z.min size pending |};
     PreparePacket := fun pending m packet size sample_rate channels => yield;
     DiscardPacket := fun pending => 0 |}.

(** A decoder that fails on every packet, after it has put one byte into
    the window it was given; the decoder of the concrete states below. *)
#[export] Instance failing_decoder : AudioDecoder unit :=
  {| DecodePacket := fun d m out offset size =>
       {| decode_result := -1;
          decode_memory :=
            if 0 <? size then write_bytes m (out + offset) [Byte.xff] else m;
          decode_state := d |};
     PreparePacket := fun d m packet size sample_rate channels => d;
     DiscardPacket := fun d => d |}.

(** The NT values of the status codes. *)
Definition nt_status : XStatus :=
  {| X_STATUS_SUCCESS := 0;
     X_STATUS_PENDING := 0x103;
     X_STATUS_INVALID_HANDLE := 0xC0000008;
     XSUCCEEDED := fun s => Z.land s 0xC0000000 =? 0;
     XSUCCEEDED_SUCCESS := eq_refl;
     XSUCCEEDED_INVALID_HANDLE := eq_refl |}.

(** A memory object with all bytes zero, both translations the identity,
    and a heap that hands out [base], [base + 0x10000], ... *)
Definition flat_memory (base : Z) : MemoryObject :=
  {| bytes := fun _ => Byte.x00;
     TranslateVirtual := fun a => a;
     TranslatePhysical := fun a => a;
     heap_results := fun k => base + 0x10000 * Z.of_nat k;
     heap_allocs := 0 |}.

(* ===================================================================== *)
(** ** Concrete states *)
(* ===================================================================== *)

(** A system after the constructor and [Setup]: eight client slots, the
    context array at guest address 0x10000 of a flat memory. *)
Definition example_system : AudioSystem unit :=
  Setup tt (AudioSystem_new 8 (flat_memory 0x10000)).

(** The guest address of slot [i] of [example_system]. *)
Definition example_slot (i : Z) : Z := 0x10000 + i * kXmaContextSize.

(** [example_system] with a record written for context 33: one input
    packet at 0x200000, two output blocks at 0x300000; the record of every
    other context is zero. *)
Definition example_kick_system : AudioSystem unit :=
  with_memory example_system
    (with_bytes (memory_ example_system)
       (Store (set output_buffer_ptr 0x300000
                 (set input_buffer_0_ptr 0x200000 (fresh_record 1 2)))
              (bytes (memory_ example_system)) (example_slot 33))).

(** [example_system] with all 320 contexts allocated. *)
Definition example_exhausted_system : AudioSystem unit :=
  snd (allocate_many 320 example_system).

(** [example_kick_system] with contexts 0 to 33 allocated; none of them
    has been kicked. *)
Definition example_allocated_system : AudioSystem unit :=
  snd (allocate_many 34 example_kick_system).

(** [example_kick_system] with context 33 allocated and kicked, and a
    decoder that fails in every slot. *)
Definition example_failing_context : XMAContext unit :=
  {| guest_ptr := example_slot 33; in_use := true; decoder := tt |}.

Definition example_kicked_memory : MemoryObject :=
  with_bytes (memory_ example_system)
    (Store (set input_buffer_0_valid 1
              (set output_buffer_ptr 0x300000
                 (set input_buffer_0_ptr 0x200000 (fresh_record 1 2))))
           (bytes (memory_ example_system)) (example_slot 33)).

(** A pool of one slot, in use. *)
Definition example_full_pool : AudioSystem unit :=
  with_contexts example_system
    [{| guest_ptr := example_slot 0; in_use := true; decoder := tt |}].

(** A driver factory that always succeeds and leaves the wait handle as
    it was handed over, one that succeeds and signals the handle for a
    first frame, and one that always fails. *)
Definition example_CreateDriver (index : nat) (wait_handle : bool)
  : CreatedDriver :=
  {| create_result := 0; created_driver := 0x1234;
     wait_handle_signaled := wait_handle |}.
Definition signaling_CreateDriver (index : nat) (wait_handle : bool)
  : CreatedDriver :=
  {| create_result := 0; created_driver := 0x1234;
     wait_handle_signaled := true |}.
Definition failing_CreateDriver (index : nat) (wait_handle : bool)
  : CreatedDriver :=
  {| create_result := 0xC0000001; created_driver := 0;
     wait_handle_signaled := wait_handle |}.


(** [example_system] with no client slot left: eight clients registered. *)
Fixpoint register_many (n : nat) (s : AudioSystem unit) : AudioSystem unit :=
  match n with
  | O => s
  | S n' =>
      match @RegisterClient unit nt_status example_CreateDriver 0x82000000 0x55 s with
      | Returns (_, _, s') => register_many n' s'
      | Faults => s
      end
  end.

Definition example_no_client_slot : AudioSystem unit :=
  register_many 8 example_system.

(** A guest callback that returns without submitting a frame, and one that
    submits a frame for client 0. *)
Definition idle_callback (cb arg : Z) (s : AudioSystem unit) : AudioSystem unit := s.

Definition submitting_callback (cb arg : Z) (s : AudioSystem unit)
  : AudioSystem unit :=
  match SubmitFrame 0 0x400000 s with
  | Returns s' => s'
  | Faults => s
  end.

(** A kernel state with an event at handle 0x20 and a file at handle 0x10,
    whose [Write] accepts every byte. *)
Definition example_Write (f : unit) (buffer buffer_length byte_offset : Z)
  : Z * Z * unit := (0, buffer_length, f).

Definition example_kernel : xboxkrnl_io.KernelState unit :=
  {| xboxkrnl_io.events := fun h => if h =? 0x20 then Some false else None;
     xboxkrnl_io.files := fun h => if h =? 0x10 then Some tt else None;
     xboxkrnl_io.guest_memory := fun _ => Byte.x00;
     xboxkrnl_io.writes := [] |}.

(* ===================================================================== *)
(** ** Further observations *)
(* ===================================================================== *)

(** The client table and the free queue agree: the queue holds an index at
    most once, and an index is in the queue exactly when it is a client
    index whose entry has no driver. *)
Definition clients_ok {D : Type} (s : AudioSystem D) : Prop :=
  NoDup (unused_clients_ s)
  /\ forall i, In i (unused_clients_ s)
               <-> (i < maximum_client_count_ s)%nat
                   /\ driver (nth i (clients_ s) null_client) = 0.

(** [xe::load_and_swap<uint32_t>(p)] (xenia/base/memory.h, not among the
    sources): the guest word at a host location, the reading counterpart
    of [store_and_swap]. *)
Definition load_and_swap (m : Memory) (p : Z) : Z :=
  byte_swap (le_combine (read_bytes m p 4)).

(** A [DecodePacket] call on output buffer [out] whose window ends at
    output offset [limit]. *)
Definition window_ends_at (out limit : Z) (ev : event) : Prop :=
  match ev with
  | EvDecodePacket o offset size _ =>
      o = out /\ 0 <= offset /\ 0 < size /\ offset + size = limit
  | _ => True
  end.

(* ===================================================================== *)
(** ** [NtReadFile_shim] (xenia/kernel/xboxkrnl_io.cc) *)
(* ===================================================================== *)

Module xboxkrnl_io_read.
Import xboxkrnl_io.
Section NtReadFile.
Context {XS : XStatus}.

(** The state of an [XFile] and its virtual [Read(buffer, length,
    byte_offset, &bytes_read)], which fills guest memory at [buffer]:
    status, bytes read, guest memory afterwards, next state. *)
Variable F : Type.
Variable XFile_Read : F -> Memory -> Z -> Z -> Z -> Z * Z * Memory * F.

(** What the read shim can see: the kernel state of the write shim, the
    [Read] calls made so far as (file handle, buffer, length, byte offset),
    and the APC queue of the current thread, an [EnqueueApc(routine,
    context, arg1, arg2)] call per entry. *)
Record IoState : Type := {
  kernel : KernelState F;
  reads : list (Z * Z * Z * Z);
  apc_queue : list (Z * Z * Z * Z)
}.

Definition NtReadFile
    (file_handle event_handle apc_routine_ptr apc_context
     io_status_block_ptr buffer buffer_length byte_offset_ptr : Z)
    (st : IoState) : outcome (Z * IoState) :=
  let ks := kernel st in
  let byte_offset :=
    if nonzero byte_offset_ptr then SHIM_MEM_64 F ks byte_offset_ptr else 0 in
  let result := X_STATUS_SUCCESS in
  let info := 0 in
  (* Grab event to signal. *)
  let ev := if nonzero event_handle then events F ks event_handle else None in
  let result :=
    if nonzero event_handle && negb (is_ref ev)
    then X_STATUS_INVALID_HANDLE else result in
  (* Grab file. *)
  let file := files F ks file_handle in
  let result := if negb (is_ref file) then X_STATUS_INVALID_HANDLE else result in
  (* Execute read. *)
  executed <-
    (if XSUCCEEDED result then
       (* Reset event before we begin. *)
       let ks := if is_ref ev then with_event F ks event_handle false else ks in
       (* Synchronous request. *)
       let byte_offset :=
         if negb (nonzero byte_offset_ptr) || (byte_offset =? 0xFFFFFFFFfffffffe)
         then size_t (-1) else byte_offset in
       match file with
       | None => Faults                (* file->Read on a null reference *)
       | Some f =>
           (* Read now. *)
           let '(result, bytes_read, m, f') :=
             XFile_Read f (guest_memory F ks) buffer buffer_length byte_offset in
           let info := if XSUCCEEDED result then uint32 bytes_read else info in
           let ks := {| events := events F ks;
                        files := fun k => if k =? file_handle then Some f'
                                          else files F ks k;
                        guest_memory := m;
                        writes := writes F ks |} in
           (* Queue the APC callback. *)
           let apcs :=
             if nonzero (Z.land apc_routine_ptr 0xFFFFFFFE)
             then apc_queue st ++ [(Z.land apc_routine_ptr 0xFFFFFFFE,
                                    apc_context, io_status_block_ptr, 0)]
             else apc_queue st in
           Returns (result, info, true,
                    {| kernel := ks;
                       reads := reads st ++
                                [(file_handle, buffer, buffer_length, byte_offset)];
                       apc_queue := apcs |})
       end
     else Returns (result, info, false, st)) ;;
  let '(result, info, signal_event, st) := executed in
  let ks := kernel st in
  let ks :=
    if nonzero io_status_block_ptr then
      SHIM_SET_MEM_32 F (SHIM_SET_MEM_32 F ks io_status_block_ptr result)
                      (io_status_block_ptr + 4) info
    else ks in
  let ks :=
    if is_ref ev && signal_event
    then with_event F ks event_handle true else ks in
  Returns (result, {| kernel := ks; reads := reads st;
                      apc_queue := apc_queue st |}).

End NtReadFile.
End xboxkrnl_io_read.

(** A file whose [Read] fills the buffer with zero bytes and reports the
    whole length read, and an I/O state around [example_kernel]. *)
Definition example_Read (f : unit) (m : Memory) (buffer buffer_length byte_offset : Z)
  : Z * Z * Memory * unit :=
  (0, buffer_length, memset0 m buffer (Z.to_nat buffer_length), f).

Definition example_io : xboxkrnl_io_read.IoState unit :=
  {| xboxkrnl_io_read.kernel := example_kernel;
     xboxkrnl_io_read.reads := [];
     xboxkrnl_io_read.apc_queue := [] |}.

(* ===================================================================== *)
(** ** [NtCreateFile], [NtOpenFile_shim], [NtQueryDirectoryFile_shim]
       (xenia/kernel/xboxkrnl_io.cc) *)
(* ===================================================================== *)

(** More of xenia/xbox.h (not among the sources): the status codes and
    I/O status informations these shims use, with the one fact the code
    relies on. *)
Class XFileStatus {XS : XStatus} : Type := {
  X_STATUS_NO_SUCH_FILE : Z;
  X_STATUS_UNSUCCESSFUL : Z;
  X_STATUS_INFO_LENGTH_MISMATCH : Z;
  X_FILE_OPENED : Z;
  X_FILE_DOES_NOT_EXIST : Z;
  XSUCCEEDED_NO_SUCH_FILE : XSUCCEEDED X_STATUS_NO_SUCH_FILE = false
}.

Module FileAccess.
Definition X_GENERIC_READ : Z := 0x80000000.
Definition X_GENERIC_WRITE : Z := 0x40000000.
Definition X_GENERIC_EXECUTE : Z := 0x20000000.
Definition X_GENERIC_ALL : Z := 0x10000000.
Definition X_FILE_READ_DATA : Z := 0x00000001.
Definition X_FILE_WRITE_DATA : Z := 0x00000002.
Definition X_FILE_APPEND_DATA : Z := 0x00000004.
End FileAccess.

Module FileDisposition.
Definition X_FILE_SUPERSEDE : Z := 0x00000000.
Definition X_FILE_OPEN : Z := 0x00000001.
Definition X_FILE_CREATE : Z := 0x00000002.
Definition X_FILE_OPEN_IF : Z := 0x00000003.
Definition X_FILE_OVERWRITE : Z := 0x00000004.
Definition X_FILE_OVERWRITE_IF : Z := 0x00000005.
End FileDisposition.

(** [fs::Mode], as far as this file names it. *)
Inductive Mode : Type := READ | READ_WRITE | READ_APPEND.

Module xboxkrnl_io_fs.
Import xboxkrnl_io.
Section FileSystem.
Context {XS : XStatus} {XFS : XFileStatus}.

(** [F] is the state of an [XFile], [E] a file system [Entry], [N] an
    object name ([X_ANSI_STRING] after [Duplicate]), [I] a directory
    information block.  The file system, the devices and the string
    reader are outside the sources:
    - [FileSystem_ResolvePath name] is [fs->ResolvePath(object_name)];
    - [Device_ResolvePath root name] is
      [root_file->device()->ResolvePath(join_paths(root_file->path(), name))];
    - [FileSystem_Open entry mode ks] is [fs->Open(entry, kernel_state,
      mode, false, &file_ptr)]: the status, the handle of the file object
      it made ([None] for a null [file_ptr]) and the kernel state with
      that object;
    - [X_ANSI_STRING_Read m p] is the string at guest address [p],
      [X_ANSI_STRING_Zero] the empty one;
    - [XFile_QueryDirectory f length name restart] fills a directory
      information block, and [DirInfo_Write i m p] writes it to guest
      memory at [p]. *)
Variables F E N I : Type.
Variable FileSystem_ResolvePath : N -> option E.
Variable Device_ResolvePath : F -> N -> option E.
Variable is_read_only : E -> bool.
Variable FileSystem_Open
  : E -> Mode -> KernelState F -> Z * option Z * KernelState F.
Variable X_ANSI_STRING_Read : Memory -> Z -> N.
Variable X_ANSI_STRING_Zero : N.
Variable XFile_QueryDirectory : F -> Z -> option N -> bool -> Z * I * F.
Variable DirInfo_Write : I -> Memory -> Z -> Memory.

(** The kernel state, and the [fs->Open] calls made so far. *)
Record FsState : Type := {
  kernel : KernelState F;
  opens : list (E * Mode)
}.

(** [class X_OBJECT_ATTRIBUTES] and its [Read(base, p)]. *)
Record X_OBJECT_ATTRIBUTES : Type := {
  root_directory : Z;
  object_name_ptr : Z;
  object_name : N;
  attributes : Z
}.

Definition X_OBJECT_ATTRIBUTES_Read (base : Memory) (p : Z) : X_OBJECT_ATTRIBUTES :=
  let root_directory0 := load_and_swap base p in
  let object_name_ptr0 := load_and_swap base (p + 4) in
  {| root_directory := root_directory0;
     object_name_ptr := object_name_ptr0;
     object_name := if nonzero object_name_ptr0
                    then X_ANSI_STRING_Read base object_name_ptr0
                    else X_ANSI_STRING_Zero;
     attributes := load_and_swap base (p + 8) |}.

Definition NtCreateFile
    (handle_ptr desired_access : Z) (object_attrs : X_OBJECT_ATTRIBUTES)
    (object_name0 : N)
    (io_status_block_ptr allocation_size_ptr file_attributes share_access
     creation_disposition : Z)
    (st : FsState) : outcome (Z * FsState) :=
  let ks := kernel st in
  let allocation_size :=
    if nonzero allocation_size_ptr then SHIM_MEM_64 F ks allocation_size_ptr
    else 0 in
  let result := X_STATUS_NO_SUCH_FILE in
  let info := X_FILE_DOES_NOT_EXIST in
  entry <-
    (if negb (root_directory object_attrs =? 0xFFFFFFFD)       (* ObDosDevices *)
        && negb (root_directory object_attrs =? 0) then
       match files F ks (root_directory object_attrs) with
       | None => Faults                      (* assert_not_null(root_file) *)
       | Some root_file =>
           (* assert_true(root_file->type() == kTypeFile): the lookup is
              [LookupObject<XFile>], and an XFile has that type. *)
           (* Resolve the file using the device the root directory is
              part of. *)
           Returns (Device_ResolvePath root_file object_name0)
       end
     else
       (* Resolve the file using the virtual file system. *)
       Returns (FileSystem_ResolvePath object_name0)) ;;
  let wants_write :=
    nonzero (Z.land desired_access FileAccess.X_GENERIC_WRITE)
    || nonzero (Z.land desired_access FileAccess.X_GENERIC_ALL)
    || nonzero (Z.land desired_access FileAccess.X_FILE_WRITE_DATA)
    || nonzero (Z.land desired_access FileAccess.X_FILE_APPEND_DATA) in
  let desired_access :=
    if wants_write
       && match entry with Some e => is_read_only e | None => false end
    then FileAccess.X_GENERIC_READ    (* We don't support any write modes. *)
    else desired_access in
  let '(result, info, file, st) :=
    match entry with
    | None => (X_STATUS_NO_SUCH_FILE, X_FILE_DOES_NOT_EXIST, None, st)
    | Some e =>
        (* Open the file/directory. *)
        let mode :=
          if nonzero (Z.land desired_access FileAccess.X_FILE_APPEND_DATA)
          then READ_APPEND
          else if wants_write then READ_WRITE else READ in
        let '(result, file, ks') := FileSystem_Open e mode ks in
        (result, info, file,
         {| kernel := ks'; opens := opens st ++ [(e, mode)] |})
    end in
  opened <-
    (if XSUCCEEDED result then
       match file with
       | None => Faults              (* file->handle() on a null reference *)
       | Some handle => Returns (Some handle, X_STATUS_SUCCESS, X_FILE_OPENED)
       end
     else Returns (None, result, info)) ;;
  let '(handle, result, info) := opened in
  let ks := kernel st in
  let ks :=
    if nonzero io_status_block_ptr then
      SHIM_SET_MEM_32 F (SHIM_SET_MEM_32 F ks io_status_block_ptr result)
                      (io_status_block_ptr + 4) info
    else ks in
  ks <-
    (if XSUCCEEDED result && nonzero handle_ptr then
       match handle with
       | None => Faults                       (* [handle] is not initialised *)
       | Some h => Returns (SHIM_SET_MEM_32 F ks handle_ptr h)
       end
     else Returns ks) ;;
  Returns (result, {| kernel := ks; opens := opens st |}).

Definition NtCreateFile_shim
    (handle_ptr desired_access object_attributes_ptr io_status_block_ptr
     allocation_size_ptr file_attributes share_access creation_disposition : Z)
    (st : FsState) : outcome (Z * FsState) :=
  let object_attrs :=
    X_OBJECT_ATTRIBUTES_Read (guest_memory F (kernel st)) object_attributes_ptr in
  NtCreateFile handle_ptr desired_access object_attrs (object_name object_attrs)
    io_status_block_ptr allocation_size_ptr file_attributes share_access
    creation_disposition st.

Definition NtOpenFile_shim
    (handle_ptr desired_access object_attributes_ptr io_status_block_ptr
     open_options : Z)
    (st : FsState) : outcome (Z * FsState) :=
  let object_attrs :=
    X_OBJECT_ATTRIBUTES_Read (guest_memory F (kernel st)) object_attributes_ptr in
  NtCreateFile handle_ptr desired_access object_attrs (object_name object_attrs)
    io_status_block_ptr 0 0 0 FileDisposition.X_FILE_OPEN st.

Definition NtQueryDirectoryFile
    (file_handle event_handle apc_routine apc_context io_status_block_ptr
     file_info_ptr length file_name_ptr restart_scan : Z)
    (ks : KernelState F) : Z * KernelState F :=
  let file_name :=
    if nonzero file_name_ptr
    then Some (X_ANSI_STRING_Read (guest_memory F ks) file_name_ptr)
    else None in
  if length <? 72 then (X_STATUS_INFO_LENGTH_MISMATCH, ks)
  else
    let result := X_STATUS_UNSUCCESSFUL in
    let info := 0 in
    let '(result, info, ks) :=
      match files F ks file_handle with
      | Some f =>
          let '(result, dir_info, f') :=
            XFile_QueryDirectory f length file_name (nonzero restart_scan) in
          let ks := {| events := events F ks;
                       files := fun k => if k =? file_handle then Some f'
                                         else files F ks k;
                       guest_memory := guest_memory F ks;
                       writes := writes F ks |} in
          if XSUCCEEDED result then
            (result, length,
             {| events := events F ks; files := files F ks;
                guest_memory := DirInfo_Write dir_info (guest_memory F ks)
                                              file_info_ptr;
                writes := writes F ks |})
          else (result, info, ks)
      | None => (X_STATUS_NO_SUCH_FILE, info, ks)
      end in
    let info := if XFAILED result then 0 else info in
    let ks :=
      if nonzero io_status_block_ptr then
        SHIM_SET_MEM_32 F (SHIM_SET_MEM_32 F ks io_status_block_ptr result)
                        (io_status_block_ptr + 4) info
      else ks in
    (result, ks).

End FileSystem.
End xboxkrnl_io_fs.

(** The NT values of these codes. *)
Definition nt_file_status : @XFileStatus nt_status :=
  {| X_STATUS_NO_SUCH_FILE := 0xC000000F;
     X_STATUS_UNSUCCESSFUL := 0xC0000001;
     X_STATUS_INFO_LENGTH_MISMATCH := 0xC0000004;
     X_FILE_OPENED := 1;
     X_FILE_DOES_NOT_EXIST := 5;
     XSUCCEEDED_NO_SUCH_FILE :=
       (eq_refl : @XSUCCEEDED nt_status 0xC000000F = false) |}.

(** A file system with one entry, "game.xex" as name 1, read-only; [Open]
    makes a file object at handle 0x30. *)
Definition example_ResolvePath (name : nat) : option nat :=
  if (name =? 1)%nat then Some 7%nat else None.

Definition example_Open (e : nat) (mode : Mode)
    (ks : xboxkrnl_io.KernelState unit)
  : Z * option Z * xboxkrnl_io.KernelState unit :=
  (0, Some 0x30,
   {| xboxkrnl_io.events := xboxkrnl_io.events unit ks;
      xboxkrnl_io.files := fun k => if k =? 0x30 then Some tt
                                    else xboxkrnl_io.files unit ks k;
      xboxkrnl_io.guest_memory := xboxkrnl_io.guest_memory unit ks;
      xboxkrnl_io.writes := xboxkrnl_io.writes unit ks |}).

Definition example_fs : xboxkrnl_io_fs.FsState unit nat :=
  {| xboxkrnl_io_fs.kernel := example_kernel; xboxkrnl_io_fs.opens := [] |}.

(* ===================================================================== *)
(** ** [NtQueryVolumeInformationFile_shim] (xenia/kernel/xboxkrnl_io.cc) *)
(* ===================================================================== *)

Module xboxkrnl_io_volume.
Import xboxkrnl_io.
Section NtQueryVolumeInformationFile.
Context {XS : XStatus} {XFS : XFileStatus}.

(** The three queries of the device a file lives on
    ([file->device()->QueryVolumeInfo(info, length)] and its two
    siblings), each answering a status and the information block it
    filled, and the [Write(base, p)] of each kind of block. *)
Variables F V S A : Type.
Variable Device_QueryVolumeInfo : F -> Z -> Z * V.
Variable VolumeInfo_Write : V -> Memory -> Z -> Memory.
Variable Device_QuerySizeInfo : F -> Z -> Z * S.
Variable SizeInfo_Write : S -> Memory -> Z -> Memory.
Variable Device_QueryAttributeInfo : F -> Z -> Z * A.
Variable AttributeInfo_Write : A -> Memory -> Z -> Memory.

Definition with_guest_memory (ks : KernelState F) (m : Memory) : KernelState F :=
  {| events := events F ks; files := files F ks; guest_memory := m;
     writes := writes F ks |}.

Definition NtQueryVolumeInformationFile
    (file_handle io_status_block_ptr fs_info_ptr length fs_info_class : Z)
    (ks : KernelState F) : outcome (Z * KernelState F) :=
  let result := X_STATUS_SUCCESS in
  let info := 0 in
  queried <-
    match files F ks file_handle with
    | Some file =>
        if fs_info_class =? 1 then            (* FileFsVolumeInformation *)
          let '(result, volume_info) := Device_QueryVolumeInfo file length in
          if XSUCCEEDED result then
            Returns (result, length,
                     with_guest_memory ks
                       (VolumeInfo_Write volume_info (guest_memory F ks) fs_info_ptr))
          else Returns (result, info, ks)
        else if fs_info_class =? 3 then       (* FileFsSizeInformation *)
          let '(result, fs_attribute_info) := Device_QuerySizeInfo file length in
          if XSUCCEEDED result then
            Returns (result, length,
                     with_guest_memory ks
                       (SizeInfo_Write fs_attribute_info (guest_memory F ks)
                                       fs_info_ptr))
          else Returns (result, info, ks)
        else if fs_info_class =? 5 then       (* FileFsAttributeInformation *)
          let '(result, fs_attribute_info) :=
            Device_QueryAttributeInfo file length in
          if XSUCCEEDED result then
            Returns (result, length,
                     with_guest_memory ks
                       (AttributeInfo_Write fs_attribute_info (guest_memory F ks)
                                            fs_info_ptr))
          else Returns (result, info, ks)
        else Faults                           (* Unsupported: assert_always() *)
    | None => Returns (X_STATUS_NO_SUCH_FILE, info, ks)
    end ;;
  let '(result, info, ks) := queried in
  let info := if XFAILED result then 0 else info in
  let ks :=
    if nonzero io_status_block_ptr then
      SHIM_SET_MEM_32 F (SHIM_SET_MEM_32 F ks io_status_block_ptr result)
                      (io_status_block_ptr + 4) info
    else ks in
  Returns (result, ks).

End NtQueryVolumeInformationFile.
End xboxkrnl_io_volume.

(** A device that answers the volume query with a 0x20-byte block of
    zeros and refuses the other two. *)
Definition example_QueryVolumeInfo (f : unit) (length : Z) : Z * nat := (0, 32%nat).
Definition example_QueryRefused (f : unit) (length : Z) : Z * nat := (0xC0000001, 0%nat).
Definition example_InfoWrite (n : nat) (m : Memory) (p : Z) : Memory := memset0 m p n.

(** The rest of the example file system: every entry is read-only, no
    device resolves a path, and a directory query answers an empty
    block. *)
Definition example_read_only (e : nat) : bool := true.
Definition example_Device_ResolvePath (root : unit) (name : nat) : option nat := None.
Definition example_QueryDirectory (f : unit) (length : Z) (name : option nat)
    (restart : bool) : Z * nat * unit := (0, 0%nat, f).

(** [example_kicked_memory] with a block count for input buffer 1 in the
    record of context 33. *)
Definition example_buffer_1_memory : MemoryObject :=
  with_bytes (memory_ example_system)
    (Store (set input_buffer_1_block_count 1
              (set input_buffer_0_valid 1
                 (set output_buffer_ptr 0x300000
                    (set input_buffer_0_ptr 0x200000 (fresh_record 1 2)))))
           (bytes (memory_ example_system)) (example_slot 33)).

(* ===================================================================== *)
(** * Properties *)
(* ===================================================================== *)

(** ** Byte swapping *)

Lemma le_split4_byte_swap v : le_split 4 (byte_swap v) = rev (le_split 4 v).
Proof.
  unfold byte_swap.
  replace 4%nat with (length (rev (le_split 4 v))) at 1
    by (rewrite length_rev, length_le_split; reflexivity).
  apply split_le_combine.
Qed.

Lemma byte_swap_involutive v : byte_swap (byte_swap v) = uint32 v.
Proof.
  unfold byte_swap at 1. rewrite le_split4_byte_swap, rev_involutive.
  rewrite le_combine_split. reflexivity.
Qed.

Lemma byte_swap_le_combine bs :
  length bs = 4%nat -> byte_swap (le_combine bs) = le_combine (rev bs).
Proof.
  intros H. unfold byte_swap. rewrite <- H, split_le_combine. reflexivity.
Qed.

Lemma byte_swap_range v : 0 <= byte_swap v < 2 ^ 32.
Proof.
  unfold byte_swap.
  pose proof (le_combine_bound (rev (le_split 4 v))) as H.
  rewrite length_rev, length_le_split in H. exact H.
Qed.

Lemma byte_swap_uint32 v : byte_swap (uint32 v) = byte_swap v.
Proof.
  unfold byte_swap, uint32. f_equal. f_equal.
  change (2 ^ 32) with (2 ^ (Z.of_nat 4 * 8)). symmetry. apply le_split_mod.
Qed.

Lemma byte_swap_inj v w :
  0 <= v < 2 ^ 32 -> 0 <= w < 2 ^ 32 -> byte_swap v = byte_swap w -> v = w.
Proof.
  intros Hv Hw H. apply (f_equal byte_swap) in H.
  rewrite !byte_swap_involutive in H. unfold uint32 in H.
  rewrite !Z.mod_small in H by assumption. exact H.
Qed.

(** ** Guest memory *)

Lemma length_read_bytes m p n : length (read_bytes m p n) = n.
Proof. unfold read_bytes. rewrite length_map, length_seq. reflexivity. Qed.

Lemma nth_read_bytes m p n i :
  (i < n)%nat -> nth i (read_bytes m p n) Byte.x00 = m (p + Z.of_nat i).
Proof.
  intros H. unfold read_bytes.
  rewrite nth_indep with (d' := (fun i => m (p + Z.of_nat i)) 0%nat)
    by (rewrite length_map, length_seq; exact H).
  rewrite (map_nth (fun i => m (p + Z.of_nat i))), seq_nth by exact H.
  reflexivity.
Qed.

Lemma write_bytes_outside m p bs a :
  a < p \/ p + Z.of_nat (length bs) <= a -> write_bytes m p bs a = m a.
Proof.
  intros H. unfold write_bytes.
  destruct (p <=? a) eqn:E1; destruct (a <? p + Z.of_nat (length bs)) eqn:E2;
    simpl; auto.
  apply Z.leb_le in E1. apply Z.ltb_lt in E2. lia.
Qed.

Lemma write_bytes_inside m p bs a :
  p <= a < p + Z.of_nat (length bs) ->
  write_bytes m p bs a = nth (Z.to_nat (a - p)) bs Byte.x00.
Proof.
  intros H. unfold write_bytes.
  destruct (p <=? a) eqn:E1; destruct (a <? p + Z.of_nat (length bs)) eqn:E2;
    simpl; auto.
  - apply Z.ltb_ge in E2. lia.
  - apply Z.leb_gt in E1. lia.
  - apply Z.leb_gt in E1. lia.
Qed.

Lemma read_write_bytes m p bs :
  read_bytes (write_bytes m p bs) p (length bs) = bs.
Proof.
  apply nth_ext with (d := Byte.x00) (d' := Byte.x00).
  - apply length_read_bytes.
  - intros i Hi. rewrite length_read_bytes in Hi.
    rewrite nth_read_bytes by exact Hi.
    rewrite write_bytes_inside by lia. f_equal. lia.
Qed.

Lemma write_read_bytes m p n a :
  write_bytes m p (read_bytes m p n) a = m a.
Proof.
  destruct (Z_lt_ge_dec a p) as [H|H].
  { apply write_bytes_outside. left. exact H. }
  destruct (Z_lt_ge_dec a (p + Z.of_nat n)) as [H'|H'].
  - rewrite write_bytes_inside by (rewrite length_read_bytes; lia).
    rewrite nth_read_bytes by lia. f_equal. lia.
  - apply write_bytes_outside. right. rewrite length_read_bytes. lia.
Qed.

Lemma read_bytes_ext m1 m2 p n :
  (forall a, p <= a < p + Z.of_nat n -> m1 a = m2 a) ->
  read_bytes m1 p n = read_bytes m2 p n.
Proof.
  intros H. unfold read_bytes. apply map_ext_in. intros i Hi.
  apply in_seq in Hi. apply H. lia.
Qed.

(** ** [copy_and_swap] *)

Lemma copy_and_swap_in_app4 bs rest :
  length bs = 4%nat ->
  copy_and_swap_in (bs ++ rest) = byte_swap (le_combine bs) :: copy_and_swap_in rest.
Proof.
  destruct bs as [|b0 [|b1 [|b2 [|b3 [|b4 tl]]]]]; simpl; intros H;
    try discriminate. reflexivity.
Qed.

Lemma copy_and_swap_in_out ws :
  copy_and_swap_in (copy_and_swap_out ws) = map uint32 ws.
Proof.
  induction ws as [|w ws IH]; [reflexivity|].
  unfold copy_and_swap_out in *. cbn [flat_map map].
  rewrite copy_and_swap_in_app4 by apply length_le_split.
  rewrite IH. f_equal.
  rewrite le_combine_split. change (2 ^ (Z.of_nat 4 * 8)) with (2 ^ 32).
  fold (uint32 (byte_swap w)). rewrite byte_swap_uint32. apply byte_swap_involutive.
Qed.

Lemma length_copy_and_swap_out ws :
  length (copy_and_swap_out ws) = (4 * length ws)%nat.
Proof.
  induction ws as [|w ws IH]; [reflexivity|].
  unfold copy_and_swap_out in *. cbn [flat_map]. rewrite length_app, IH.
  rewrite length_le_split. simpl. lia.
Qed.

Lemma copy_and_swap_out_in k : forall bs,
  length bs = (4 * k)%nat -> copy_and_swap_out (copy_and_swap_in bs) = bs.
Proof.
  induction k as [|k IH]; intros bs Hl.
  - destruct bs; [reflexivity|discriminate].
  - destruct bs as [|b0 [|b1 [|b2 [|b3 rest]]]]; simpl in Hl; try lia.
    cbn [copy_and_swap_in]. unfold copy_and_swap_out in *. cbn [flat_map].
    rewrite IH by lia.
    rewrite byte_swap_involutive. unfold uint32.
    change (2 ^ 32) with (2 ^ (Z.of_nat 4 * 8)). rewrite <- le_split_mod.
    change 4%nat with (length [b0; b1; b2; b3]) at 1.
    rewrite (split_le_combine [b0; b1; b2; b3]). reflexivity.
Qed.

Lemma length_copy_and_swap_in k : forall bs,
  length bs = (4 * k)%nat -> length (copy_and_swap_in bs) = k.
Proof.
  induction k as [|k IH]; intros bs Hl.
  - destruct bs; [reflexivity|discriminate].
  - destruct bs as [|b0 [|b1 [|b2 [|b3 rest]]]]; simpl in Hl; try lia.
    cbn [copy_and_swap_in length]. f_equal. apply IH. lia.
Qed.

Lemma copy_and_swap_in_range bs :
  Forall (fun w => 0 <= w < 2 ^ 32) (copy_and_swap_in bs).
Proof.
  remember (length bs) as n eqn:Hn. revert bs Hn.
  induction n as [n IH] using lt_wf_ind. intros bs Hn.
  destruct bs as [|b0 [|b1 [|b2 [|b3 rest]]]]; cbn [copy_and_swap_in]; try constructor.
  - apply byte_swap_range.
  - apply (IH (length rest)); [simpl in Hn; lia|reflexivity].
Qed.

(** Swapping a block of whole words twice gives the block back. *)
Lemma copy_and_swap_involutive k : forall bs,
  length bs = (4 * k)%nat -> copy_and_swap (copy_and_swap bs) = bs.
Proof.
  induction k as [|k IH]; intros bs Hl.
  - destruct bs; [reflexivity|discriminate].
  - destruct bs as [|b0 [|b1 [|b2 [|b3 rest]]]]; simpl in Hl; try lia.
    unfold copy_and_swap in *. cbn [copy_and_swap_in flat_map].
    rewrite le_split4_byte_swap.
    rewrite (split_le_combine [b0; b1; b2; b3] : le_split 4 _ = _).
    cbn [rev app copy_and_swap_in flat_map].
    rewrite IH by lia.
    rewrite le_split4_byte_swap.
    rewrite (split_le_combine [b3; b2; b1; b0] : le_split 4 _ = _).
    reflexivity.
Qed.

(** ** Bit-fields of the record *)

Lemma length_update i g d : length (update i g d) = length d.
Proof. revert i; induction d; intros [|i]; simpl; auto. Qed.

Lemma nth_update_same i g d :
  (i < length d)%nat -> nth i (update i g d) 0 = g (nth i d 0).
Proof.
  revert i. induction d; intros [|i] Hi; simpl in *; try lia; auto.
  apply IHd. lia.
Qed.

Lemma nth_update_other i j g d :
  i <> j -> nth i (update j g d) 0 = nth i d 0.
Proof.
  revert i j. induction d; intros [|i] [|j] Hij; simpl; auto; try congruence.
Qed.

Lemma update_beyond i g (d : XMA_CONTEXT_DATA.t) :
  (length d <= i)%nat -> update i g d = d.
Proof.
  revert i. induction d; intros [|i] Hl; simpl in *; auto; try lia.
  f_equal. apply IHd. lia.
Qed.

Lemma bitfield_ok_spec f :
  bitfield_ok f = true ->
  0 <= shift f /\ 0 <= width f /\ shift f + width f <= 32 /\ (dword f < 16)%nat.
Proof.
  unfold bitfield_ok. rewrite !andb_true_iff, !Z.leb_le, Nat.ltb_lt. tauto.
Qed.

Lemma get_set_same f v d :
  bitfield_ok f = true -> length d = 16%nat ->
  get f (set f v d) = Z.land v (Z.ones (width f)).
Proof.
  intros Hf Hl. apply bitfield_ok_spec in Hf. destruct Hf as (Hs & Hw & _ & Hd).
  unfold get, set. rewrite nth_update_same by lia. unfold set_bits.
  Z.bitblast.
Qed.

Lemma get_set_other f g v d :
  bitfield_ok f = true -> bitfield_ok g = true -> independent f g = true ->
  get f (set g v d) = get f d.
Proof.
  intros Hf Hg Hi.
  apply bitfield_ok_spec in Hf. apply bitfield_ok_spec in Hg.
  unfold independent in Hi.
  rewrite !orb_true_iff, negb_true_iff, Nat.eqb_neq, !Z.leb_le in Hi.
  unfold get, set.
  destruct (Nat.eq_dec (dword f) (dword g)) as [E|E].
  2: { rewrite nth_update_other by assumption. reflexivity. }
  destruct (Nat.lt_ge_cases (dword g) (length d)) as [L|L].
  2: { rewrite update_beyond by assumption. reflexivity. }
  rewrite E, nth_update_same by assumption. unfold set_bits.
  destruct Hi as [[Hi|Hi]|Hi]; [congruence| |]; Z.bitblast.
Qed.

Lemma ones_nonneg w : 0 <= w -> 0 <= Z.ones w.
Proof.
  intros H. rewrite Z.ones_equiv. pose proof (Z.pow_pos_nonneg 2 w). lia.
Qed.

Lemma land_ones_small v w : 0 <= v < 2 ^ w -> Z.land v (Z.ones w) = v.
Proof.
  intros H. destruct (Z_lt_ge_dec w 0) as [Hn|Hn].
  - rewrite Z.pow_neg_r in H by lia. lia.
  - rewrite Z.land_ones by lia. apply Z.mod_small. exact H.
Qed.

Lemma below_pow2_of_bits x n :
  0 <= n -> 0 <= x -> (forall k, n <= k -> Z.testbit x k = false) -> x < 2 ^ n.
Proof.
  intros Hn Hx Hk. destruct (Z.eq_dec x 0) as [->|Hz].
  { apply Z.pow_pos_nonneg; lia. }
  destruct (Z.lt_ge_cases x (2 ^ n)) as [|Hge]; [assumption|].
  assert (Hlog : n <= Z.log2 x) by (apply Z.log2_le_pow2; lia).
  specialize (Hk _ Hlog). rewrite Z.bit_log2 in Hk by lia. discriminate.
Qed.

Lemma bits_above_range x n k :
  0 <= n -> 0 <= x < 2 ^ n -> n <= k -> Z.testbit x k = false.
Proof.
  intros Hn Hx Hk. destruct (Z.eq_dec x 0) as [->|Hz].
  { apply Z.bits_0. }
  apply Z.bits_above_log2; [lia|].
  apply Z.lt_le_trans with n; [|lia]. apply Z.log2_lt_pow2; lia.
Qed.

Lemma set_bits_range f v w :
  bitfield_ok f = true -> 0 <= w < 2 ^ 32 -> 0 <= set_bits f v w < 2 ^ 32.
Proof.
  intros Hf Hw. apply bitfield_ok_spec in Hf. destruct Hf as (Hs & Hwd & H32 & _).
  unfold set_bits.
  assert (Hnn : 0 <= Z.lor (Z.land w (Z.lnot (Z.shiftl (Z.ones (width f)) (shift f))))
                       (Z.shiftl (Z.land v (Z.ones (width f))) (shift f))).
  { apply Z.lor_nonneg. split.
    - apply Z.land_nonneg. left. lia.
    - apply Z.shiftl_nonneg. apply Z.land_nonneg. right. apply ones_nonneg; lia. }
  split; [exact Hnn|].
  apply below_pow2_of_bits; [lia|exact Hnn|].
  intros k Hk. rewrite Z.lor_spec, Z.land_spec.
  rewrite (bits_above_range w 32 k) by lia.
  rewrite Z.shiftl_spec by lia. rewrite Z.land_spec.
  rewrite Z.testbit_ones_nonneg by lia.
  simpl. apply andb_false_iff. right. apply Z.ltb_ge. lia.
Qed.

Lemma set_wf f v d : bitfield_ok f = true -> wf d -> wf (set f v d).
Proof.
  unfold wf, set. intros Hf [Hl Hr].
  split. { rewrite length_update. exact Hl. }
  clear Hl. revert Hr. generalize (dword f) as i.
  induction d; intros [|i] Hr; simpl; auto; inversion Hr; subst; constructor; auto.
  apply set_bits_range; assumption.
Qed.

Lemma get_range f d : bitfield_ok f = true -> 0 <= get f d < 2 ^ width f.
Proof.
  intros Hf. apply bitfield_ok_spec in Hf. destruct Hf as (Hs & Hw & _).
  unfold get. rewrite Z.land_ones by lia. apply Z.mod_pos_bound.
  apply Z.pow_pos_nonneg; lia.
Qed.

Lemma bitfield_eqb_eq f g : bitfield_eqb f g = true -> f = g.
Proof.
  unfold bitfield_eqb. rewrite !andb_true_iff, Nat.eqb_eq, !Z.eqb_eq.
  destruct f, g; simpl. intros [[-> ->] ->]. reflexivity.
Qed.

Lemma fields_ok f : In f fields -> bitfield_ok f = true.
Proof.
  assert (H : forallb bitfield_ok fields = true) by reflexivity.
  rewrite forallb_forall in H. apply H.
Qed.

Lemma fields_independent f g :
  In f fields -> In g fields -> f <> g -> independent f g = true.
Proof.
  assert (H : forallb (fun f => forallb (fun g => bitfield_eqb f g || independent f g)
                                        fields) fields = true) by reflexivity.
  rewrite forallb_forall in H. intros Hf Hg Hne.
  specialize (H f Hf). rewrite forallb_forall in H. specialize (H g Hg).
  apply orb_true_iff in H. destruct H as [H|H]; [|exact H].
  apply bitfield_eqb_eq in H. contradiction.
Qed.

(** ** Loading and storing the record *)

Lemma load_wf m p : wf (load m p).
Proof.
  split.
  - unfold load. apply length_copy_and_swap_in. rewrite length_read_bytes. reflexivity.
  - apply copy_and_swap_in_range.
Qed.

Lemma map_uint32_id d :
  Forall (fun w => 0 <= w < 2 ^ 32) d -> map uint32 d = d.
Proof.
  induction 1; simpl; [reflexivity|]. f_equal; auto. apply Z.mod_small. assumption.
Qed.

Lemma load_Store d m p : wf d -> load (Store d m p) p = d.
Proof.
  intros [Hl Hr]. unfold load, Store.
  rewrite firstn_all2 by lia.
  replace size with (length (copy_and_swap_out d))
    by (rewrite length_copy_and_swap_out, Hl; reflexivity).
  rewrite read_write_bytes, copy_and_swap_in_out. apply map_uint32_id. exact Hr.
Qed.

Lemma Store_load m p a : Store (load m p) m p a = m a.
Proof.
  unfold Store, load.
  rewrite firstn_all2
    by (rewrite (length_copy_and_swap_in 16); [lia|rewrite length_read_bytes; reflexivity]).
  rewrite (copy_and_swap_out_in 16) by (rewrite length_read_bytes; reflexivity).
  apply write_read_bytes.
Qed.

Lemma Store_outside d m p a :
  length d = 16%nat -> a < p \/ p + 64 <= a -> Store d m p a = m a.
Proof.
  intros Hl H. unfold Store. apply write_bytes_outside.
  rewrite length_copy_and_swap_out, length_firstn, Hl. simpl. lia.
Qed.

Lemma load_ext m1 m2 p :
  (forall a, p <= a < p + 64 -> m1 a = m2 a) -> load m1 p = load m2 p.
Proof.
  intros H. unfold load. f_equal. apply read_bytes_ext. exact H.
Qed.

(** C3. Loading the 64-byte record (sixteen words, each byte-swapped) and
    storing it back leaves guest memory as it was, bit for bit; storing a
    host record and loading it again gives the same record; the byte-level
    transform is its own inverse on 64 bytes; and a field assigned a value
    of its range reads back as that value after a store and a load, with
    every other field of the record as before. *)
Theorem XMA_CONTEXT_DATA_round_trip :
  (forall m ptr a, Store (load m ptr) m ptr a = m a)
  /\ (forall bs, length bs = size -> copy_and_swap (copy_and_swap bs) = bs)
  /\ (forall d m ptr, wf d -> load (Store d m ptr) ptr = d)
  /\ (forall f v d m ptr,
        In f fields -> wf d -> 0 <= v < 2 ^ width f ->
        get f (load (Store (set f v d) m ptr) ptr) = v
        /\ forall g, In g fields -> g <> f ->
             get g (load (Store (set f v d) m ptr) ptr) = get g d).
Proof.
  split; [exact Store_load|].
  split; [intros bs H; apply (copy_and_swap_involutive 16); exact H|].
  split; [exact load_Store|].
  intros f v d m ptr Hf Hd Hv.
  pose proof (fields_ok f Hf) as Hok.
  rewrite load_Store by (apply set_wf; assumption).
  split.
  - rewrite get_set_same by (try assumption; apply Hd).
    apply land_ones_small. exact Hv.
  - intros g Hg Hne. apply get_set_other; auto using fields_ok, fields_independent.
Qed.

(** ** The context pool *)

Section PoolProperties.
Context {D : Type} {AD : AudioDecoder D}.
Implicit Type s : AudioSystem D.
Implicit Type l pre post : list (XMAContext D).
Implicit Type c : XMAContext D.

Lemma allocate_scan_found pre : forall c post,
  all_in_use pre -> in_use c = false ->
  allocate_scan (pre ++ c :: post)
  = Some (guest_ptr c, pre ++ set_in_use true c :: post).
Proof.
  induction pre as [|x pre IH]; intros c post Hpre Hc; simpl.
  - rewrite Hc. reflexivity.
  - inversion Hpre as [|? ? Hx Hpre']; subst. rewrite Hx. simpl.
    rewrite IH by assumption. reflexivity.
Qed.

Lemma allocate_scan_exhausted l :
  all_in_use l -> allocate_scan l = None.
Proof.
  induction 1 as [|x l Hx _ IH]; simpl; [reflexivity|].
  rewrite Hx, IH. reflexivity.
Qed.

Lemma allocate_scan_inv l :
  match allocate_scan l with
  | Some (p, l') =>
      exists pre c post,
        l = pre ++ c :: post /\ all_in_use pre /\ in_use c = false
        /\ p = guest_ptr c /\ l' = pre ++ set_in_use true c :: post
  | None => all_in_use l
  end.
Proof.
  induction l as [|x l IH]; simpl.
  - constructor.
  - destruct (in_use x) eqn:Hx; simpl.
    + destruct (allocate_scan l) as [[p l']|].
      * destruct IH as (pre & c & post & -> & Hpre & Hc & -> & ->).
        exists (x :: pre), c, post. repeat split; auto.
        constructor; assumption.
      * constructor; assumption.
    + exists [], x, l. repeat split; auto. constructor.
Qed.

Lemma AllocateXmaContext_guest_ptrs s :
  map guest_ptr (xma_context_array_ (snd (AllocateXmaContext s)))
  = map guest_ptr (xma_context_array_ s).
Proof.
  unfold AllocateXmaContext.
  pose proof (allocate_scan_inv (xma_context_array_ s)) as H.
  destruct (allocate_scan (xma_context_array_ s)) as [[p l']|]; simpl; auto.
  destruct H as (pre & c & post & -> & _ & _ & _ & ->).
  rewrite !map_app. reflexivity.
Qed.

Lemma AllocateXmaContext_keeps_taken s q :
  taken q (xma_context_array_ s) ->
  taken q (xma_context_array_ (snd (AllocateXmaContext s))).
Proof.
  unfold AllocateXmaContext.
  pose proof (allocate_scan_inv (xma_context_array_ s)) as H.
  destruct (allocate_scan (xma_context_array_ s)) as [[p l']|]; simpl; auto.
  destruct H as (pre & c & post & E & _ & Hc & _ & ->). rewrite E.
  intros (x & Hin & Hp & Hu). exists x. repeat split; auto.
  apply in_app_or in Hin. apply in_or_app.
  destruct Hin as [Hin|[<-|Hin]]; auto.
  - congruence.
  - right. right. exact Hin.
Qed.

Lemma AllocateXmaContext_takes s :
  fst (AllocateXmaContext s) <> 0 ->
  taken (fst (AllocateXmaContext s))
        (xma_context_array_ (snd (AllocateXmaContext s))).
Proof.
  unfold AllocateXmaContext.
  pose proof (allocate_scan_inv (xma_context_array_ s)) as H.
  destruct (allocate_scan (xma_context_array_ s)) as [[p l']|]; simpl;
    [|congruence].
  destruct H as (pre & c & post & E & _ & Hc & -> & ->). intros _.
  exists (set_in_use true c). repeat split.
  apply in_or_app. right. left. reflexivity.
Qed.

Lemma NoDup_map_app_middle {A B} (f : A -> B) (pre : list A) (c : A)
    (post : list A) (x : A) :
  NoDup (map f (pre ++ c :: post)) -> In x (pre ++ c :: post) ->
  f x = f c -> x = c.
Proof.
  rewrite map_app. simpl. intros Hnd Hin Hf.
  apply NoDup_remove_2 in Hnd.
  apply in_app_or in Hin. destruct Hin as [Hin|[Hin|Hin]]; auto.
  - exfalso. apply Hnd. apply in_or_app. left. rewrite <- Hf.
    apply in_map. exact Hin.
  - exfalso. apply Hnd. apply in_or_app. right. rewrite <- Hf.
    apply in_map. exact Hin.
Qed.

Lemma AllocateXmaContext_fresh s :
  NoDup (map guest_ptr (xma_context_array_ s)) ->
  taken (fst (AllocateXmaContext s)) (xma_context_array_ s) ->
  fst (AllocateXmaContext s) = 0.
Proof.
  unfold AllocateXmaContext.
  pose proof (allocate_scan_inv (xma_context_array_ s)) as H.
  destruct (allocate_scan (xma_context_array_ s)) as [[p l']|]; simpl; auto.
  destruct H as (pre & c & post & E & _ & Hc & -> & ->). rewrite E.
  intros Hnd (x & Hin & Hp & Hu).
  rewrite (NoDup_map_app_middle guest_ptr pre c post x Hnd Hin Hp) in Hu.
  congruence.
Qed.

Lemma allocate_many_fresh n : forall s q,
  NoDup (map guest_ptr (xma_context_array_ s)) ->
  taken q (xma_context_array_ s) -> q <> 0 ->
  ~ In q (fst (allocate_many n s)).
Proof.
  induction n as [|n IH]; intros s q Hnd Hq Hq0; simpl; [tauto|].
  pose proof (AllocateXmaContext_fresh s Hnd) as Hf.
  pose proof (AllocateXmaContext_keeps_taken s q Hq) as Hk.
  pose proof (AllocateXmaContext_guest_ptrs s) as Hg.
  destruct (AllocateXmaContext s) as [p s1]; simpl in *.
  specialize (IH s1 q). rewrite Hg in IH. specialize (IH Hnd Hk Hq0).
  destruct (allocate_many n s1) as [ps s2]; simpl in *.
  intros [->|Hin]; [|tauto].
  apply Hq0. apply Hf. exact Hq.
Qed.

Lemma allocate_many_distinct n : forall s,
  NoDup (map guest_ptr (xma_context_array_ s)) ->
  NoDup (filter nonzero (fst (allocate_many n s))).
Proof.
  induction n as [|n IH]; intros s Hnd; simpl; [constructor|].
  pose proof (AllocateXmaContext_takes s) as Ht.
  pose proof (AllocateXmaContext_guest_ptrs s) as Hg.
  destruct (AllocateXmaContext s) as [p s1]; simpl in *.
  rewrite <- Hg in Hnd.
  pose proof (allocate_many_fresh n s1 p Hnd) as Hfresh.
  specialize (IH s1 Hnd).
  destruct (allocate_many n s1) as [ps s2]; simpl in *.
  unfold nonzero at 1. destruct (p =? 0) eqn:Hp; simpl; [exact IH|].
  apply Z.eqb_neq in Hp. constructor; [|exact IH].
  intros Hin. apply filter_In in Hin. destruct Hin as [Hin _].
  apply (Hfresh (Ht Hp) Hp). exact Hin.
Qed.

(** C5. [AllocateXmaContext] returns the guest address of the first slot,
    in slot order, that is not in use and marks that slot used, changing
    no other slot and nothing else; it returns zero, changing nothing,
    when every slot is in use; and, the slots having distinct addresses,
    the non-zero results of any number of calls in a row are pairwise
    distinct. *)
Theorem AllocateXmaContext_first_free s :
  (forall pre c post,
      xma_context_array_ s = pre ++ c :: post ->
      all_in_use pre -> in_use c = false ->
      AllocateXmaContext s
      = (guest_ptr c, with_contexts s (pre ++ set_in_use true c :: post)))
  /\ (all_in_use (xma_context_array_ s) -> AllocateXmaContext s = (0, s))
  /\ (NoDup (map guest_ptr (xma_context_array_ s)) ->
      forall n, NoDup (filter nonzero (fst (allocate_many n s)))).
Proof.
  split; [|split].
  - intros pre c post E Hpre Hc. unfold AllocateXmaContext.
    rewrite E, allocate_scan_found by assumption. reflexivity.
  - intros H. unfold AllocateXmaContext.
    rewrite allocate_scan_exhausted by assumption. reflexivity.
  - intros Hnd n. apply allocate_many_distinct. exact Hnd.
Qed.

End PoolProperties.

Section ReleaseProperties.
Context {D : Type} {AD : AudioDecoder D}.
Implicit Type s : AudioSystem D.
Implicit Type l : list (XMAContext D).
Implicit Type c : XMAContext D.

Lemma release_scan_no_match p mo l :
  (forall c, In c l -> guest_ptr c <> p) -> release_scan p mo l = (l, mo).
Proof.
  induction l as [|x l IH]; intros H; simpl; [reflexivity|].
  destruct (guest_ptr x =? p) eqn:E.
  - apply Z.eqb_eq in E. exfalso. apply (H x); [left; reflexivity|exact E].
  - rewrite IH by (intros c Hc; apply H; right; exact Hc). reflexivity.
Qed.

Lemma release_scan_slots p : forall l mo,
  map (fun c => (guest_ptr c, in_use c)) (fst (release_scan p mo l))
  = map (fun c => (guest_ptr c, in_use c && negb (guest_ptr c =? p))) l.
Proof.
  induction l as [|x l IH]; intros mo; simpl; [reflexivity|].
  destruct (guest_ptr x =? p) eqn:E.
  - specialize (IH (with_bytes mo (memset0 (bytes mo) (TranslateVirtual mo p)
                                           (Z.to_nat kXmaContextSize)))).
    destruct (release_scan p _ l) as [l' mo']. simpl in *.
    rewrite IH, andb_false_r. reflexivity.
  - specialize (IH mo). destruct (release_scan p mo l) as [l' mo']. simpl in *.
    rewrite IH, andb_true_r. reflexivity.
Qed.

Lemma memset0_spec (m : Memory) p n a :
  memset0 m p n a
  = if (p <=? a) && (a <? p + Z.of_nat n) then Byte.x00 else m a.
Proof.
  unfold memset0, write_bytes. rewrite repeat_length.
  destruct ((p <=? a) && (a <? p + Z.of_nat n)) eqn:E; [|reflexivity].
  apply andb_true_iff in E. destruct E as [E1 E2].
  apply Z.leb_le in E1. apply Z.ltb_lt in E2.
  apply nth_repeat_lt. lia.
Qed.

Lemma release_scan_memory p : forall l mo,
  TranslateVirtual (snd (release_scan p mo l)) = TranslateVirtual mo
  /\ forall a,
       bytes (snd (release_scan p mo l)) a
       = if existsb (fun c => guest_ptr c =? p) l
            && (TranslateVirtual mo p <=? a)
            && (a <? TranslateVirtual mo p + kXmaContextSize)
         then Byte.x00 else bytes mo a.
Proof.
  induction l as [|x l IH]; intros mo; simpl; [auto|].
  destruct (guest_ptr x =? p) eqn:E.
  - specialize (IH (with_bytes mo (memset0 (bytes mo) (TranslateVirtual mo p)
                                           (Z.to_nat kXmaContextSize)))).
    destruct (release_scan p _ l) as [l' mo']. simpl in *.
    destruct IH as [IHt IHb]. split; [exact IHt|]. intros a. rewrite IHb.
    rewrite memset0_spec. unfold kXmaContextSize.
    change (Z.of_nat (Pos.to_nat 64)) with 64.
    destruct (existsb _ l); destruct (TranslateVirtual mo p <=? a);
      destruct (a <? TranslateVirtual mo p + 64); reflexivity.
  - specialize (IH mo). destruct (release_scan p mo l) as [l' mo']. simpl in *.
    exact IH.
Qed.

Lemma release_scan_guest_ptrs p : forall l mo,
  map guest_ptr (fst (release_scan p mo l)) = map guest_ptr l.
Proof.
  intros l mo.
  pose proof (f_equal (map fst) (release_scan_slots p l mo)) as H.
  rewrite !map_map in H. exact H.
Qed.

Lemma release_scan_decoders p : forall l mo,
  map decoder (fst (release_scan p mo l))
  = map (fun c => if guest_ptr c =? p then DiscardPacket (decoder c)
                  else decoder c) l.
Proof.
  induction l as [|x l IH]; intros mo; cbn [release_scan]; [reflexivity|].
  destruct (guest_ptr x =? p) eqn:E.
  - specialize (IH (with_bytes mo (memset0 (bytes mo) (TranslateVirtual mo p)
                                           (Z.to_nat kXmaContextSize)))).
    destruct (release_scan p _ l) as [l' mo'].
    cbn [fst map decoder] in *. rewrite IH, E. reflexivity.
  - specialize (IH mo). destruct (release_scan p mo l) as [l' mo'].
    cbn [fst map] in *. rewrite IH, E. reflexivity.
Qed.

Lemma existsb_guest_ptr p l :
  existsb (fun c => guest_ptr c =? p) l
  = existsb (fun g => g =? p) (map guest_ptr l).
Proof.
  induction l as [|x l IH]; cbn [existsb map]; [reflexivity|].
  rewrite IH. reflexivity.
Qed.

(** C6 (as amended). [ReleaseXmaContext] with an address that matches no
    slot leaves the whole state as it was (and has no way to report an
    error: it returns nothing).  With an address whose slots are not in
    use it leaves the allocation state of the pool as it was, also when
    called twice, and leaves the registers and the clients alone; but the
    call is carried out as for a context in use: the 64 bytes of the
    guest record at the address are zeroed, whatever they held, and
    [DiscardPacket] is called on the decoder of every slot with that
    address.  A second release changes no further byte of guest
    memory. *)
Theorem ReleaseXmaContext_no_match_or_free p s :
  ((forall c, In c (xma_context_array_ s) -> guest_ptr c <> p) ->
   ReleaseXmaContext p s = s)
  /\ ((forall c, In c (xma_context_array_ s) -> guest_ptr c = p ->
                 in_use c = false) ->
      pool_state (ReleaseXmaContext p s) = pool_state s
      /\ pool_state (ReleaseXmaContext p (ReleaseXmaContext p s)) = pool_state s
      /\ registers_ (ReleaseXmaContext p s) = registers_ s
      /\ clients_ (ReleaseXmaContext p s) = clients_ s
      /\ map decoder (xma_context_array_ (ReleaseXmaContext p s))
         = map (fun c => if guest_ptr c =? p then DiscardPacket (decoder c)
                         else decoder c)
               (xma_context_array_ s)
      /\ (forall a,
            bytes (memory_ (ReleaseXmaContext p s)) a
            = if existsb (fun c => guest_ptr c =? p) (xma_context_array_ s)
                 && (TranslateVirtual (memory_ s) p <=? a)
                 && (a <? TranslateVirtual (memory_ s) p + kXmaContextSize)
              then Byte.x00 else bytes (memory_ s) a)
      /\ (forall a,
            bytes (memory_ (ReleaseXmaContext p (ReleaseXmaContext p s))) a
            = bytes (memory_ (ReleaseXmaContext p s)) a)).
Proof.
  assert (Hpool : forall s0 : AudioSystem D,
             (forall c, In c (xma_context_array_ s0) -> guest_ptr c = p ->
                        in_use c = false) ->
             pool_state (ReleaseXmaContext p s0) = pool_state s0).
  { intros s0 H. unfold pool_state, ReleaseXmaContext.
    pose proof (release_scan_slots p (xma_context_array_ s0) (memory_ s0)) as E.
    destruct (release_scan p (memory_ s0) (xma_context_array_ s0)) as [l' mo'].
    simpl in *. rewrite E. apply map_ext_in. intros c Hc.
    cbv beta. f_equal. destruct (guest_ptr c =? p) eqn:Ep.
    - apply Z.eqb_eq in Ep. rewrite (H c Hc Ep). reflexivity.
    - apply andb_true_r. }
  assert (Hmem : forall s0 : AudioSystem D,
             TranslateVirtual (memory_ (ReleaseXmaContext p s0))
             = TranslateVirtual (memory_ s0)
             /\ map guest_ptr (xma_context_array_ (ReleaseXmaContext p s0))
                = map guest_ptr (xma_context_array_ s0)
             /\ forall a,
                  bytes (memory_ (ReleaseXmaContext p s0)) a
                  = if existsb (fun c => guest_ptr c =? p) (xma_context_array_ s0)
                       && (TranslateVirtual (memory_ s0) p <=? a)
                       && (a <? TranslateVirtual (memory_ s0) p + kXmaContextSize)
                    then Byte.x00 else bytes (memory_ s0) a).
  { intros s0. unfold ReleaseXmaContext.
    pose proof (release_scan_memory p (xma_context_array_ s0) (memory_ s0))
      as [Ht Hb].
    pose proof (release_scan_guest_ptrs p (xma_context_array_ s0) (memory_ s0))
      as Hg.
    destruct (release_scan p (memory_ s0) (xma_context_array_ s0)) as [l' mo'].
    cbn [fst snd with_contexts with_memory memory_ xma_context_array_] in *.
    split; [exact Ht|]. split; [exact Hg|exact Hb]. }
  split.
  - intros H. unfold ReleaseXmaContext.
    rewrite release_scan_no_match by exact H. destruct s; reflexivity.
  - intros H. split; [apply Hpool; exact H|]. split.
    { rewrite Hpool; [apply Hpool; exact H|].
      intros c Hc Hp.
      assert (Hin : In (guest_ptr c, in_use c) (pool_state (ReleaseXmaContext p s))).
      { unfold pool_state.
        apply (in_map (fun c => (guest_ptr c, in_use c))). exact Hc. }
      rewrite (Hpool s H) in Hin. unfold pool_state in Hin.
      apply in_map_iff in Hin. destruct Hin as (c0 & E0 & Hc0).
      injection E0 as Eg Eu. rewrite <- Eu. apply H; congruence. }
    split.
    { unfold ReleaseXmaContext.
      destruct (release_scan p (memory_ s) (xma_context_array_ s)) as [l' mo'].
      reflexivity. }
    split.
    { unfold ReleaseXmaContext.
      destruct (release_scan p (memory_ s) (xma_context_array_ s)) as [l' mo'].
      reflexivity. }
    split.
    { unfold ReleaseXmaContext.
      pose proof (release_scan_decoders p (xma_context_array_ s) (memory_ s)) as Hd.
      destruct (release_scan p (memory_ s) (xma_context_array_ s)) as [l' mo'].
      exact Hd. }
    destruct (Hmem s) as (Ht & Hg & Hb).
    split; [exact Hb|].
    intros a. destruct (Hmem (ReleaseXmaContext p s)) as (_ & _ & Hb2).
    rewrite Hb2, Ht, !existsb_guest_ptr, Hg, <- existsb_guest_ptr, Hb.
    destruct (existsb _ _ && _ && _); reflexivity.
Qed.

End ReleaseProperties.

(** ** [Setup] *)

Section SetupProperties.
Context {D : Type} {AD : AudioDecoder D}.
Implicit Type s : AudioSystem D.

Lemma Setup_contexts fresh s :
  xma_context_array_ (Setup fresh s)
  = map (fun i => {| guest_ptr := uint32 (heap_results (memory_ s) (heap_allocs (memory_ s))
                                          + Z.of_nat i * kXmaContextSize);
                     in_use := false; decoder := fresh |})
        (seq 0 (Z.to_nat kXmaContextCount)).
Proof. reflexivity. Qed.

Lemma Setup_state_ok fresh s : state_ok (Setup fresh s).
Proof.
  split.
  - rewrite Setup_contexts, length_map, length_seq. reflexivity.
  - simpl. unfold kXmaContextCount. lia.
Qed.

Lemma slot_address_inj base i j :
  (i < 320)%nat -> (j < 320)%nat ->
  uint32 (base + Z.of_nat i * kXmaContextSize)
  = uint32 (base + Z.of_nat j * kXmaContextSize) -> i = j.
Proof.
  unfold uint32, kXmaContextSize. intros Hi Hj H.
  assert (E : (Z.of_nat i * 64 - Z.of_nat j * 64) mod 2 ^ 32 = 0).
  { replace (Z.of_nat i * 64 - Z.of_nat j * 64)
      with ((base + Z.of_nat i * 64) - (base + Z.of_nat j * 64)) by lia.
    rewrite Zminus_mod, H, Z.sub_diag. reflexivity. }
  apply Z.mod_divide in E; [|lia]. destruct E as [q E].
  assert (q = 0) by lia. lia.
Qed.

Lemma Setup_addresses_distinct fresh s :
  NoDup (map guest_ptr (xma_context_array_ (Setup fresh s))).
Proof.
  rewrite Setup_contexts, map_map. cbn [guest_ptr].
  apply Injective_map_NoDup_in; [|apply seq_NoDup].
  intros i j Hi Hj. apply in_seq in Hi. apply in_seq in Hj.
  apply slot_address_inj; unfold kXmaContextCount in *; lia.
Qed.

End SetupProperties.

(** ** The register window *)

Section RegisterProperties.
Context {D : Type} {AD : AudioDecoder D}.
Implicit Type s : AudioSystem D.

Lemma registers_of_register_file s s' :
  (forall k, k = 0x1800 / 4 \/ k = 0x1818 / 4 \/ k = 0x181C / 4 ->
             register_file_ s' k = register_file_ s k) ->
  registers_ s' = registers_ s.
Proof.
  intros H. unfold registers_. rewrite !H by auto. reflexivity.
Qed.

Lemma registers_store_other s k0 v :
  k0 <> 0x1800 / 4 -> k0 <> 0x1818 / 4 -> k0 <> 0x181C / 4 ->
  registers_ (with_register_file s
                (fun k => if k =? k0 then v else register_file_ s k))
  = registers_ s.
Proof.
  intros H1 H2 H3. apply registers_of_register_file.
  intros k Hk. cbn [with_register_file register_file_].
  destruct (Z.eqb_spec k k0) as [->|_]; [|reflexivity].
  destruct Hk as [Hk|[Hk|Hk]]; contradiction.
Qed.

Lemma kick_context_returns id s :
  0 <= id < Z.of_nat (length (xma_context_array_ s)) ->
  exists s', kick_context id s = Returns s'
             /\ register_file_ s' = register_file_ s
             /\ xma_context_array_ s' = xma_context_array_ s
             /\ decoder_fence_ s' = S (decoder_fence_ s).
Proof.
  intros H. unfold kick_context.
  destruct (nth_error (xma_context_array_ s) (Z.to_nat id)) as [c|] eqn:E.
  - eexists. split; [reflexivity|].
    cbn [register_file_ xma_context_array_ decoder_fence_ with_fence with_memory].
    auto.
  - apply nth_error_None in E. lia.
Qed.

Lemma kick_loop_returns n : forall i value r s,
  0 <= i -> i + Z.of_nat n <= 32 -> 0x1940 <= r <= 0x1940 + 9 * 4 ->
  length (xma_context_array_ s) = Z.to_nat kXmaContextCount ->
  exists s', kick_loop n i value r s = Returns s'
             /\ register_file_ s' = register_file_ s
             /\ xma_context_array_ s' = xma_context_array_ s.
Proof.
  induction n as [|n IH]; intros i value r s Hi Hn Hr Hl; cbn [kick_loop].
  - eauto.
  - destruct (value =? 0); [eauto|].
    assert (Hid : 0 <= i + (r - 0x1940) / 4 * 32 < 320).
    { assert (0 <= (r - 0x1940) / 4 <= 9)
        by (split; [apply Z.div_pos|apply Z.div_le_upper_bound]; lia).
      lia. }
    destruct (nonzero (Z.land value 1)).
    + destruct (kick_context_returns (uint32 (i + (r - 0x1940) / 4 * 32)) s)
        as (s1 & E1 & Hr1 & Hc1 & _).
      { unfold uint32. rewrite Z.mod_small by lia. rewrite Hl.
        unfold kXmaContextCount. lia. }
      rewrite E1. cbn [bind].
      destruct (IH (i + 1) (Z.shiftr value 1) r s1) as (s2 & E2 & Hr2 & Hc2);
        try lia; try congruence.
      exists s2. repeat split; congruence.
    + cbn [bind]. apply IH; auto; lia.
Qed.

(** A word-aligned write returns, and stores the word: the register file
    changes at [r / 4] and nowhere else, also in the kick range. *)
Lemma WriteRegister_returns addr value s :
  Z.land addr 0xFFFF mod 4 = 0 ->
  length (xma_context_array_ s) = Z.to_nat kXmaContextCount ->
  exists s', WriteRegister addr value s = Returns s'
             /\ (forall k,
                   register_file_ s' k
                   = if k =? Z.land addr 0xFFFF / 4
                     then uint32 (byte_swap (uint32 value))
                     else register_file_ s k)
             /\ xma_context_array_ s' = xma_context_array_ s.
Proof.
  intros Ha Hl. unfold WriteRegister. rewrite Ha.
  change (assert_true (0 =? 0)) with (Returns tt). cbn [bind].
  destruct ((0x1940 <=? Z.land addr 0xFFFF) && (Z.land addr 0xFFFF <=? 0x1940 + 9 * 4)) eqn:K.
  - apply andb_true_iff in K. destruct K as [K1 K2].
    apply Z.leb_le in K1. apply Z.leb_le in K2.
    set (s0 := with_register_file s _).
    destruct (kick_loop_returns 32 0 (byte_swap (uint32 value))
                (Z.land addr 0xFFFF) s0) as (s' & E & H1 & H2);
      try lia; auto.
    exists s'. split; [exact E|]. split; [|exact H2].
    intros k. rewrite H1. reflexivity.
  - clear K. destruct (_ && _); [|destruct (_ && _)];
      (eexists; split; [reflexivity|split; [intros k|]; reflexivity]).
Qed.




End RegisterProperties.

(** ** The kick command *)

Section KickProperties.
Context {D : Type} {AD : AudioDecoder D}.
Implicit Type s : AudioSystem D.
Implicit Type c : XMAContext D.

Lemma of_bool_bit b : Z.land (of_bool b) (Z.ones 1) = of_bool b.
Proof. destruct b; reflexivity. Qed.

Lemma in_fields_dec f : In f fields -> forall g, In g fields ->
  f = g \/ independent g f = true.
Proof.
  intros Hf g Hg.
  destruct (bitfield_eqb f g) eqn:E.
  - left. apply bitfield_eqb_eq. exact E.
  - right. apply fields_independent; auto. intros ->.
    unfold bitfield_eqb in E. rewrite Nat.eqb_refl, !Z.eqb_refl in E. discriminate.
Qed.

Lemma kick_effect_sets (data : XMA_CONTEXT_DATA.t) :
  length data = 16%nat ->
  kick_effect data
    (set output_buffer_write_offset 0
       (set input_buffer_1_valid
          (of_bool (nonzero (get input_buffer_1_ptr
                               (set input_buffer_0_valid
                                  (of_bool (nonzero (get input_buffer_0_ptr data)))
                                  data))))
          (set input_buffer_0_valid
             (of_bool (nonzero (get input_buffer_0_ptr data))) data))).
Proof.
  intros Hl. unfold kick_effect.
  assert (Hl1 : forall f v (d : XMA_CONTEXT_DATA.t),
             length d = 16%nat -> length (set f v d) = 16%nat).
  { intros f v d H. unfold set. rewrite length_update. exact H. }
  repeat split.
  - rewrite !get_set_other by reflexivity.
    rewrite get_set_same by auto. apply of_bool_bit.
  - rewrite get_set_other by reflexivity.
    rewrite get_set_same by auto. rewrite of_bool_bit.
    rewrite get_set_other by reflexivity. reflexivity.
  - rewrite get_set_same by auto. reflexivity.
  - intros f Hf Hn.
    assert (Hi : forall g, In g kick_fields -> independent f g = true).
    { intros g Hg. apply fields_independent; auto.
      - simpl in Hg. unfold fields.
        destruct Hg as [<-|[<-|[<-|[]]]]; simpl; tauto.
      - intros ->. contradiction. }
    rewrite !get_set_other; auto using fields_ok;
      try reflexivity; apply Hi; simpl; tauto.
Qed.

Lemma kick_context_spec n c s :
  nth_error (xma_context_array_ s) n = Some c ->
  exists s',
    kick_context (Z.of_nat n) s = Returns s'
    /\ xma_context_array_ s' = xma_context_array_ s
    /\ TranslateVirtual (memory_ s') = TranslateVirtual (memory_ s)
    /\ registers_ s' = registers_ s
    /\ decoder_fence_ s' = S (decoder_fence_ s)
    /\ (forall a, ~ in_record s c a ->
                  bytes (memory_ s') a = bytes (memory_ s) a)
    /\ kick_effect (context_data s c) (context_data s' c).
Proof.
  intros Hc. unfold kick_context. rewrite Nat2Z.id, Hc.
  eexists. split; [reflexivity|].
  cbn [xma_context_array_ memory_ registers_ decoder_fence_ with_fence
       with_memory with_bytes TranslateVirtual bytes].
  split; [reflexivity|]. split; [reflexivity|]. split; [reflexivity|].
  split; [reflexivity|]. split.
  - intros a Ha. apply Store_outside.
    + unfold set. rewrite !length_update. apply load_wf.
    + unfold in_record, kXmaContextSize in Ha. lia.
  - unfold context_data.
    cbn [xma_context_array_ memory_ registers_ decoder_fence_ with_fence
         with_memory with_bytes TranslateVirtual bytes].
    rewrite load_Store.
    + apply kick_effect_sets. apply load_wf.
    + repeat apply set_wf; try reflexivity. apply load_wf.
Qed.
End KickProperties.

Section KickLoop.
Context {D : Type} {AD : AudioDecoder D}.
Implicit Type s : AudioSystem D.
Implicit Type c : XMAContext D.

Lemma nonzero_land_1 value : nonzero (Z.land value 1) = Z.testbit value 0.
Proof.
  unfold nonzero. change 1 with (Z.ones 1). rewrite Z.land_ones by lia.
  change (2 ^ 1) with 2. rewrite <- Z.bit0_mod.
  destruct (Z.testbit value 0); reflexivity.
Qed.

Lemma count_set_bits_0 n : count_set_bits n 0 = 0%nat.
Proof. induction n; simpl; auto. Qed.

Lemma context_data_frame s s' c :
  TranslateVirtual (memory_ s') = TranslateVirtual (memory_ s) ->
  (forall a, in_record s c a -> bytes (memory_ s') a = bytes (memory_ s) a) ->
  context_data s' c = context_data s c.
Proof.
  intros Ht Hb. unfold context_data. rewrite Ht. apply load_ext.
  intros a Ha. apply Hb. exact Ha.
Qed.

Lemma records_disjoint_frame s s' :
  xma_context_array_ s' = xma_context_array_ s ->
  TranslateVirtual (memory_ s') = TranslateVirtual (memory_ s) ->
  records_disjoint s -> records_disjoint s'.
Proof. unfold records_disjoint. intros -> ->. auto. Qed.

Lemma kick_loop_spec r n : forall i value s,
  0x1940 <= r <= 0x1940 + 9 * 4 ->
  0 <= value -> 0 <= i -> i + Z.of_nat n <= 32 ->
  length (xma_context_array_ s) = Z.to_nat kXmaContextCount ->
  records_disjoint s ->
  exists s',
    kick_loop n i value r s = Returns s'
    /\ xma_context_array_ s' = xma_context_array_ s
    /\ TranslateVirtual (memory_ s') = TranslateVirtual (memory_ s)
    /\ registers_ s' = registers_ s
    /\ decoder_fence_ s' = (decoder_fence_ s + count_set_bits n value)%nat
    /\ forall m c,
         nth_error (xma_context_array_ s) m = Some c ->
         if ((r - 0x1940) / 4 * 32 + i <=? Z.of_nat m)
            && (Z.of_nat m <? (r - 0x1940) / 4 * 32 + i + Z.of_nat n)
            && Z.testbit value (Z.of_nat m - (r - 0x1940) / 4 * 32 - i)
         then kick_effect (context_data s c) (context_data s' c)
         else forall a, in_record s c a ->
                        bytes (memory_ s') a = bytes (memory_ s) a.
Proof.
  intros i value s Hr. revert i value s.
  assert (Hfirst : 0 <= (r - 0x1940) / 4 * 32 <= 288).
  { assert (0 <= (r - 0x1940) / 4 <= 9)
      by (split; [apply Z.div_pos|apply Z.div_le_upper_bound]; lia).
    lia. }
  remember ((r - 0x1940) / 4 * 32) as first eqn:Efirst.
  induction n as [|n IH]; intros i value s Hv Hi Hn Hl Hd.
  - exists s. cbn [kick_loop count_set_bits]. rewrite Nat.add_0_r.
    repeat split; auto. intros m c Hc.
    replace (Z.of_nat m <? first + i + Z.of_nat 0) with (Z.of_nat m <? first + i)
      by (f_equal; lia).
    destruct (first + i <=? Z.of_nat m) eqn:E1;
      destruct (Z.of_nat m <? first + i) eqn:E2; simpl; auto.
    apply Z.leb_le in E1. apply Z.ltb_lt in E2. lia.
  - cbn [kick_loop count_set_bits]. rewrite <- Efirst.
    destruct (value =? 0) eqn:Ez.
    { apply Z.eqb_eq in Ez. subst value. exists s.
      rewrite Z.bits_0, Z.shiftr_0_l, count_set_bits_0, Nat.add_0_r.
      repeat split; auto. intros m c Hc. rewrite Z.bits_0, andb_false_r. auto. }
    rewrite nonzero_land_1.
    assert (Hid : uint32 (i + first) = Z.of_nat (Z.to_nat (first + i))).
    { unfold uint32. rewrite Z.mod_small by lia. lia. }
    rewrite Hid.
    assert (Hshift : 0 <= Z.shiftr value 1) by (apply Z.shiftr_nonneg; exact Hv).
    assert (Hin : (Z.to_nat (first + i) < length (xma_context_array_ s))%nat).
    { rewrite Hl. unfold kXmaContextCount. lia. }
    destruct (nth_error (xma_context_array_ s) (Z.to_nat (first + i)))
      as [c0|] eqn:Ec0; [|apply nth_error_None in Ec0; lia].
    destruct (Z.testbit value 0) eqn:Eb.
    + destruct (kick_context_spec _ _ _ Ec0)
        as (s1 & E1 & Ha1 & Ht1 & Hr1 & Hf1 & Hb1 & Hk1).
      rewrite E1. cbn [bind].
      destruct (IH (i + 1) (Z.shiftr value 1) s1) as (s2 & E2 & Ha2 & Ht2 & Hr2 & Hf2 & H2);
        try lia; try congruence.
      { apply (records_disjoint_frame s); assumption. }
      exists s2. rewrite E2.
      split; [reflexivity|]. split; [congruence|]. split; [congruence|].
      split; [congruence|]. split; [lia|].
      intros m c Hc. specialize (H2 m c). rewrite Ha1 in H2. specialize (H2 Hc).
      destruct (Nat.eq_dec m (Z.to_nat (first + i))) as [->|Hne].
      * (* the context kicked in this trip *)
        assert (c = c0) by congruence. subst c0.
        rewrite Z2Nat.id in * by lia.
        replace (first + i - first - i) with 0 by lia. rewrite Eb.
        rewrite Z.leb_refl.
        replace (first + i <? first + i + Z.of_nat (S n)) with true
          by (symmetry; apply Z.ltb_lt; lia).
        cbn [andb].
        replace (first + (i + 1) <=? first + i) with false in H2
          by (symmetry; apply Z.leb_gt; lia).
        cbn [andb] in H2.
        rewrite (context_data_frame s1 s2 c Ht2); [exact Hk1|].
        intros a Ha. apply H2. exact Ha.
      * (* another context *)
        assert (Hframe : forall a, in_record s c a ->
                           bytes (memory_ s1) a = bytes (memory_ s) a).
        { intros a Ha. apply Hb1. unfold in_record in *.
          destruct (Hd _ _ _ _ Hne Hc Ec0); lia. }
        assert (Hsame :
          ((first + i <=? Z.of_nat m)
           && (Z.of_nat m <? first + i + Z.of_nat (S n))
           && Z.testbit value (Z.of_nat m - first - i))
          = ((first + (i + 1) <=? Z.of_nat m)
             && (Z.of_nat m <? first + (i + 1) + Z.of_nat n)
             && Z.testbit (Z.shiftr value 1) (Z.of_nat m - first - (i + 1)))).
        { destruct (Z_lt_ge_dec (Z.of_nat m) (first + i)) as [Hlt|Hge].
          - replace (first + i <=? Z.of_nat m) with false
              by (symmetry; apply Z.leb_gt; lia).
            replace (first + (i + 1) <=? Z.of_nat m) with false
              by (symmetry; apply Z.leb_gt; lia).
            reflexivity.
          - assert (first + i < Z.of_nat m) by lia.
            rewrite Z.shiftr_spec by lia.
            replace (Z.of_nat m - first - (i + 1) + 1)
              with (Z.of_nat m - first - i) by lia.
            replace (first + (i + 1) + Z.of_nat n)
              with (first + i + Z.of_nat (S n)) by lia.
            replace (first + (i + 1) <=? Z.of_nat m) with true
              by (symmetry; apply Z.leb_le; lia).
            replace (first + i <=? Z.of_nat m) with true
              by (symmetry; apply Z.leb_le; lia).
            reflexivity. }
        rewrite Hsame.
        destruct ((first + (i + 1) <=? Z.of_nat m) && _ && _).
        -- rewrite <- (context_data_frame s s1 c); auto.
        -- intros a Ha. rewrite H2; [apply Hframe; exact Ha|].
           unfold in_record in *. rewrite Ht1. exact Ha.
    + cbn [bind].
      destruct (IH (i + 1) (Z.shiftr value 1) s) as (s2 & E2 & Ha2 & Ht2 & Hr2 & Hf2 & H2);
        try lia; try congruence; auto.
      exists s2. rewrite E2.
      split; [reflexivity|]. split; [congruence|]. split; [congruence|].
      split; [congruence|]. split; [lia|].
      intros m c Hc. specialize (H2 m c Hc).
      assert (Hsame :
          ((first + i <=? Z.of_nat m)
           && (Z.of_nat m <? first + i + Z.of_nat (S n))
           && Z.testbit value (Z.of_nat m - first - i))
          = ((first + (i + 1) <=? Z.of_nat m)
             && (Z.of_nat m <? first + (i + 1) + Z.of_nat n)
             && Z.testbit (Z.shiftr value 1) (Z.of_nat m - first - (i + 1)))).
      { destruct (Z_lt_ge_dec (Z.of_nat m) (first + i)) as [Hlt|Hge].
        - replace (first + i <=? Z.of_nat m) with false
            by (symmetry; apply Z.leb_gt; lia).
          replace (first + (i + 1) <=? Z.of_nat m) with false
            by (symmetry; apply Z.leb_gt; lia).
          reflexivity.
        - destruct (Z.eq_dec (Z.of_nat m) (first + i)) as [Heq|Hneq].
          + rewrite Heq. replace (first + i - first - i) with 0 by lia.
            rewrite Eb, andb_false_r.
            replace (first + (i + 1) <=? first + i) with false
              by (symmetry; apply Z.leb_gt; lia).
            reflexivity.
          + rewrite Z.shiftr_spec by lia.
            replace (Z.of_nat m - first - (i + 1) + 1)
              with (Z.of_nat m - first - i) by lia.
            replace (first + (i + 1) + Z.of_nat n)
              with (first + i + Z.of_nat (S n)) by lia.
            replace (first + (i + 1) <=? Z.of_nat m) with true
              by (symmetry; apply Z.leb_le; lia).
            replace (first + i <=? Z.of_nat m) with true
              by (symmetry; apply Z.leb_le; lia).
            reflexivity. }
      rewrite Hsame. exact H2.
Qed.

End KickLoop.

Section KickCommand.
Context {D : Type} {AD : AudioDecoder D}.
Implicit Type s : AudioSystem D.
Implicit Type c : XMAContext D.

(** C1 (as amended). A write to a kick register [r] (0x1940 .. 0x1940+9*4,
    word aligned) returns.  With [v] the written word in guest order (the
    byte swap of the value handed over), for every set bit [b] of [v] the
    record of context [b + ((r - 0x1940) / 4) * 32] gets each input-valid
    flag set to whether that buffer's pointer is non-zero (a zero pointer
    gives a cleared flag, and is no error), its output write offset
    zeroed, and its other fields kept; the decoder fence is signaled once
    per set bit; and the record of every other context is left as it was,
    byte for byte.  The slots, the registers [registers_] and the address
    translation are not touched. *)
Theorem kick_command addr value s :
  Z.land addr 0xFFFF mod 4 = 0 ->
  0x1940 <= Z.land addr 0xFFFF <= 0x1940 + 9 * 4 ->
  length (xma_context_array_ s) = Z.to_nat kXmaContextCount ->
  records_disjoint s ->
  exists s',
    WriteRegister addr value s = Returns s'
    /\ xma_context_array_ s' = xma_context_array_ s
    /\ registers_ s' = registers_ s
    /\ TranslateVirtual (memory_ s') = TranslateVirtual (memory_ s)
    /\ decoder_fence_ s'
       = (decoder_fence_ s + count_set_bits 32 (byte_swap (uint32 value)))%nat
    /\ forall n c,
         nth_error (xma_context_array_ s) n = Some c ->
         if kicked (Z.land addr 0xFFFF) (byte_swap (uint32 value)) n
         then kick_effect (context_data s c) (context_data s' c)
         else forall a, in_record s c a ->
                        bytes (memory_ s') a = bytes (memory_ s) a.
Proof.
  intros Ha Hr Hl Hd. unfold WriteRegister. rewrite Ha.
  change (assert_true (0 =? 0)) with (Returns tt). cbn [bind].
  replace ((0x1940 <=? Z.land addr 0xFFFF) && (Z.land addr 0xFFFF <=? 0x1940 + 9 * 4))
    with true by (symmetry; apply andb_true_iff; split; apply Z.leb_le; lia).
  set (s0 := with_register_file s _).
  destruct (kick_loop_spec (Z.land addr 0xFFFF) 32 0 (byte_swap (uint32 value)) s0)
    as (s' & E & Harr & Ht & Hreg & Hf & H); auto; try lia.
  { apply byte_swap_range. }
  exists s'. split; [exact E|]. split; [exact Harr|].
  split.
  { rewrite Hreg.
    assert (1616 <= Z.land addr 0xFFFF / 4) by (apply Z.div_le_lower_bound; lia).
    apply registers_store_other; change (6144 / 4) with 1536;
      change (6168 / 4) with 1542; change (6172 / 4) with 1543; lia. }
  split; [exact Ht|]. split; [exact Hf|].
  intros n c Hc. specialize (H n c Hc). unfold kicked.
  rewrite !Z.add_0_r, Z.sub_0_r in H. exact H.
Qed.

End KickCommand.

(** ** The decode loop *)

Section DecoderProperties.
Context {D : Type} {AD : AudioDecoder D}.

Lemma decode_iteration_failure in0 out m data (dec : D) :
  input_remaining data <> 0 -> output_remaining data <> 0 ->
  decode_result
    (DecodePacket dec m out (output_offset data) (output_remaining data)) < 0 ->
  decode_iteration in0 out m (data, dec)
  = (Break (data,
            DiscardPacket
              (decode_state
                 (DecodePacket dec m out (output_offset data)
                               (output_remaining data)))),
     [EvDecodePacket out (output_offset data) (output_remaining data)
        (decode_result
           (DecodePacket dec m out (output_offset data) (output_remaining data)));
      EvLogDecodeFailed
        (- decode_result
             (DecodePacket dec m out (output_offset data) (output_remaining data)));
      EvDiscardPacket],
     decode_memory
       (DecodePacket dec m out (output_offset data) (output_remaining data))).
Proof.
  intros Hi Ho Hr. unfold decode_iteration.
  apply Z.eqb_neq in Hi. apply Z.eqb_neq in Ho. rewrite Hi, Ho.
  cbv zeta.
  apply Z.ltb_lt in Hr. rewrite Hr. reflexivity.
Qed.

Lemma length_set f v (d : XMA_CONTEXT_DATA.t) : length (set f v d) = length d.
Proof. unfold set. apply length_update. Qed.

Lemma in_fields g : existsb (bitfield_eqb g) fields = true -> In g fields.
Proof.
  intros H. apply existsb_exists in H. destruct H as (f & Hf & E).
  apply bitfield_eqb_eq in E. subst. exact Hf.
Qed.

Lemma get_set_other_field f g v d :
  In f fields -> existsb (bitfield_eqb g) fields = true -> f <> g ->
  get f (set g v d) = get f d.
Proof.
  intros Hf Hg Hne. apply in_fields in Hg.
  apply get_set_other; auto using fields_ok, fields_independent.
Qed.

(** A trip through the loop body assigns the two offsets and nothing
    else. *)
Lemma decode_iteration_fields in0 out m data (dec : D) :
  wf data ->
  match fst (fst (decode_iteration in0 out m (data, dec))) with
  | Break st' | Continue st' =>
      wf (fst st')
      /\ forall f, In f fields ->
                   f <> input_buffer_read_offset ->
                   f <> output_buffer_write_offset ->
                   get f (fst st') = get f data
  end.
Proof.
  intros Hwf. unfold decode_iteration.
  destruct (input_remaining data =? 0); [cbn [fst]; auto|].
  destruct (output_remaining data =? 0); [cbn [fst]; auto|].
  cbv zeta.
  destruct (decode_result _ <? 0); [cbn [fst]; auto|].
  destruct (decode_result _ =? 0); cbn [fst];
    (split; [apply set_wf; [reflexivity|apply set_wf; [reflexivity|exact Hwf]]|]);
    intros f Hf H1 H2;
    rewrite !get_set_other_field by (auto; reflexivity); reflexivity.
Qed.

Lemma decode_loop_fields fuel in0 out :
  forall m data (dec : D) data' dec' evs m',
  wf data ->
  decode_loop fuel in0 out m (data, dec) = Some (data', dec', evs, m') ->
  wf data'
  /\ forall f, In f fields ->
               f <> input_buffer_read_offset ->
               f <> output_buffer_write_offset ->
               get f data' = get f data.
Proof.
  induction fuel as [|fuel IH]; intros m data dec data' dec' evs m' Hwf H;
    [discriminate|].
  cbn [decode_loop] in H.
  pose proof (decode_iteration_fields in0 out m data dec Hwf) as Hit.
  destruct (decode_iteration in0 out m (data, dec))
    as [[[[d1 c1]|[d1 c1]] evs1] m1]; cbn [fst] in Hit.
  - injection H as <- <- <- <-. exact Hit.
  - destruct Hit as [Hwf1 Hf1].
    destruct (decode_loop fuel in0 out m1 (d1, c1)) as [[[[d2 c2] evs2] m2]|] eqn:E;
      [|discriminate].
    injection H as <- <- <- <-.
    destruct (IH _ _ _ _ _ _ _ Hwf1 E) as [Hwf2 Hf2].
    split; [exact Hwf2|]. intros f Hf H1 H2.
    rewrite Hf2, Hf1; auto.
Qed.

(** The calls a trip through the loop body makes, and what they leave of
    guest memory, for a decoder that keeps to its window. *)
Lemma decode_iteration_frame in0 out m data (dec : D) :
  writes_in_window (D := D) ->
  forall a,
    Forall (outside_window a) (snd (fst (decode_iteration in0 out m (data, dec)))) ->
    snd (decode_iteration in0 out m (data, dec)) a = m a.
Proof.
  intros Hdec a. unfold decode_iteration.
  destruct (input_remaining data =? 0); [reflexivity|].
  destruct (output_remaining data =? 0); [reflexivity|].
  cbv zeta.
  destruct (decode_result _ <? 0).
  - cbn [fst snd]. intros H. inversion H as [|? ? Hw _]; subst.
    apply Hdec. exact Hw.
  - destruct (decode_result _ =? 0); cbn [fst snd];
      intros H; inversion H as [|? ? Hw _]; subst;
      apply Hdec; exact Hw.
Qed.

Lemma decode_loop_frame fuel in0 out :
  writes_in_window (D := D) ->
  forall m data (dec : D) data' dec' evs m',
    decode_loop fuel in0 out m (data, dec) = Some (data', dec', evs, m') ->
    forall a, Forall (outside_window a) evs -> m' a = m a.
Proof.
  intros Hdec.
  induction fuel as [|fuel IH]; intros m data dec data' dec' evs m' H a Ha;
    [discriminate|].
  cbn [decode_loop] in H.
  pose proof (decode_iteration_frame in0 out m data dec Hdec a) as Hit.
  destruct (decode_iteration in0 out m (data, dec))
    as [[[[d1 c1]|[d1 c1]] evs1] m1]; cbn [fst snd] in Hit.
  - injection H as <- <- <- <-. apply Hit. exact Ha.
  - destruct (decode_loop fuel in0 out m1 (d1, c1)) as [[[[d2 c2] evs2] m2]|] eqn:E;
      [|discriminate].
    injection H as <- <- <- <-.
    apply Forall_app in Ha. destruct Ha as [Ha1 Ha2].
    rewrite (IH _ _ _ _ _ _ _ E a Ha2). apply Hit. exact Ha1.
Qed.

(** C8. When [DecodePacket] answers a negative result, that trip through
    the loop logs the failure, discards the decoder's packet and breaks:
    the loop ends there with the record copy as it stood, whatever fuel
    is left, and with guest memory as the failed call left it.  A pass
    over an in-use context whose first [DecodePacket] fails therefore
    returns: the slot keeps its address, its [in_use] flag and its
    decoder, whose packet is discarded, and the record is stored with the
    three valid flags cleared and nothing else changed.  And whatever
    happens in a pass over a context, the slot keeps its address and its
    [in_use] flag, and the record in guest memory differs from the one
    loaded at most in the three valid flags and the two offsets (no error
    field is written), whatever the decoder wrote; with a decoder that
    keeps to the window it is handed, a byte outside the record and
    outside the window of every [DecodePacket] call of the pass is
    unchanged. *)
Theorem decode_failure_is_contained :
  (forall fuel in0 out m data (dec : D),
      input_remaining data <> 0 -> output_remaining data <> 0 ->
      decode_result
        (DecodePacket dec m out (output_offset data) (output_remaining data)) < 0 ->
      decode_loop (S fuel) in0 out m (data, dec)
      = Some (data,
              DiscardPacket
                (decode_state
                   (DecodePacket dec m out (output_offset data)
                                 (output_remaining data))),
              [EvDecodePacket out (output_offset data) (output_remaining data)
                 (decode_result
                    (DecodePacket dec m out (output_offset data)
                                  (output_remaining data)));
               EvLogDecodeFailed
                 (- decode_result
                      (DecodePacket dec m out (output_offset data)
                                    (output_remaining data)));
               EvDiscardPacket],
              decode_memory
                (DecodePacket dec m out (output_offset data)
                              (output_remaining data))))
  /\ (forall fuel mo (context : XMAContext D) data out,
        in_use context = true ->
        nonzero (get input_buffer_0_valid
                   (load (bytes mo) (TranslatePhysical mo (guest_ptr context))))
        || nonzero (get input_buffer_1_valid
                      (load (bytes mo) (TranslatePhysical mo (guest_ptr context))))
        = true ->
        data = set output_buffer_valid 0
                 (set input_buffer_1_valid 0
                    (set input_buffer_0_valid 0
                       (load (bytes mo)
                             (TranslatePhysical mo (guest_ptr context))))) ->
        out = TranslatePhysical mo (get output_buffer_ptr data) ->
        get input_buffer_1_block_count data = 0 ->
        input_remaining data <> 0 -> output_remaining data <> 0 ->
        decode_result
          (DecodePacket (decoder context) (bytes mo) out (output_offset data)
                        (output_remaining data)) < 0 ->
        process_context (S fuel) false mo context
        = Some (Returns
                  (set_decoder
                     (DiscardPacket
                        (decode_state
                           (DecodePacket (decoder context) (bytes mo) out
                              (output_offset data) (output_remaining data))))
                     context,
                   with_bytes mo
                     (Store data
                        (decode_memory
                           (DecodePacket (decoder context) (bytes mo) out
                              (output_offset data) (output_remaining data)))
                        (TranslatePhysical mo (guest_ptr context))),
                   [EvDecodePacket out (output_offset data) (output_remaining data)
                      (decode_result
                         (DecodePacket (decoder context) (bytes mo) out
                            (output_offset data) (output_remaining data)));
                    EvLogDecodeFailed
                      (- decode_result
                           (DecodePacket (decoder context) (bytes mo) out
                              (output_offset data) (output_remaining data)));
                    EvDiscardPacket])))
  /\ (forall fuel contended mo (context context' : XMAContext D) mo' evs,
        process_context fuel contended mo context
        = Some (Returns (context', mo', evs)) ->
        guest_ptr context' = guest_ptr context
        /\ in_use context' = in_use context
        /\ TranslatePhysical mo' = TranslatePhysical mo
        /\ (forall f, In f fields -> ~ In f decoder_fields ->
              get f (load (bytes mo') (TranslatePhysical mo (guest_ptr context)))
              = get f (load (bytes mo) (TranslatePhysical mo (guest_ptr context))))
        /\ (writes_in_window (D := D) ->
            forall a,
              a < TranslatePhysical mo (guest_ptr context)
              \/ TranslatePhysical mo (guest_ptr context) + kXmaContextSize <= a ->
              Forall (outside_window a) evs ->
              bytes mo' a = bytes mo a)).
Proof.
  assert (Hloop : forall fuel in0 out m data (dec : D),
      input_remaining data <> 0 -> output_remaining data <> 0 ->
      decode_result
        (DecodePacket dec m out (output_offset data) (output_remaining data)) < 0 ->
      decode_loop (S fuel) in0 out m (data, dec)
      = Some (data,
              DiscardPacket
                (decode_state
                   (DecodePacket dec m out (output_offset data)
                                 (output_remaining data))),
              [EvDecodePacket out (output_offset data) (output_remaining data)
                 (decode_result
                    (DecodePacket dec m out (output_offset data)
                                  (output_remaining data)));
               EvLogDecodeFailed
                 (- decode_result
                      (DecodePacket dec m out (output_offset data)
                                    (output_remaining data)));
               EvDiscardPacket],
              decode_memory
                (DecodePacket dec m out (output_offset data)
                              (output_remaining data)))).
  { intros fuel in0 out m data dec Hi Ho Hr. cbn [decode_loop].
    rewrite decode_iteration_failure by assumption. reflexivity. }
  split; [exact Hloop|]. split.
  - intros fuel mo context data out Hu Hv Hdata Hout Hb1 Hi Ho Hr.
    unfold process_context. rewrite Hu. cbn [negb]. rewrite Hv.
    rewrite <- Hdata, <- Hout.
    replace (nonzero (get input_buffer_1_block_count data)) with false
      by (rewrite Hb1; reflexivity).
    rewrite Hloop by assumption. reflexivity.
  - intros fuel contended mo context context' mo' evs. unfold process_context.
    destruct contended.
    { intros H; injection H as <- <- <-. repeat split; auto. }
    destruct (negb (in_use context)).
    { intros H; injection H as <- <- <-. repeat split; auto. }
    set (ptr := TranslatePhysical mo (guest_ptr context)).
    destruct (nonzero _ || nonzero _).
    2: { intros H; injection H as <- <- <-. repeat split; auto. }
    destruct (nonzero (get input_buffer_1_block_count _)); [discriminate|].
    set (data0 := set output_buffer_valid 0 _).
    assert (Hwf0 : wf data0).
    { unfold data0. repeat apply set_wf; try reflexivity. apply load_wf. }
    destruct (decode_loop fuel _ _ _ (data0, decoder context))
      as [[[[data' dec'] evs'] m']|] eqn:E; [|discriminate].
    intros H; injection H as <- <- <-.
    destruct (decode_loop_fields _ _ _ _ _ _ _ _ _ _ Hwf0 E) as [Hwf' Hf'].
    cbn [guest_ptr in_use set_decoder bytes with_bytes TranslatePhysical].
    split; [reflexivity|]. split; [reflexivity|]. split; [reflexivity|]. split.
    + intros f Hf Hn. rewrite load_Store by exact Hwf'.
      assert (Hne : forall g, In g decoder_fields -> f <> g).
      { intros g Hg ->. contradiction. }
      rewrite Hf'; auto; try (apply Hne; simpl; tauto).
      unfold data0.
      rewrite !get_set_other_field;
        first [reflexivity | exact Hf | apply Hne; simpl; tauto].
    + intros Hdec a Ha Hw.
      rewrite Store_outside; [|apply Hwf'|unfold kXmaContextSize in Ha; exact Ha].
      exact (decode_loop_frame _ _ _ Hdec _ _ _ _ _ _ _ E a Hw).
Qed.

End DecoderProperties.

(** ** The decode loop with a fixed-ratio decoder *)

Section RatioDecoder.
Variable yield : Z.
Hypothesis yield_pos : 0 < yield.

Lemma size_t_small x : 0 <= x < 18446744073709551616 -> size_t x = x.
Proof. intros H. unfold size_t. apply Z.mod_small. exact H. Qed.

Lemma buffer_state_bounds packets blocks consumed written data :
  buffer_state packets blocks consumed written data ->
  0 <= packets < 4096 /\ 0 <= blocks < 32 /\ 0 <= written < 32.
Proof.
  intros (_ & Hp & _ & _ & Hb & Hw).
  pose proof (get_range input_buffer_0_block_count data eq_refl) as H1.
  pose proof (get_range output_buffer_block_count data eq_refl) as H2.
  pose proof (get_range output_buffer_write_offset data eq_refl) as H3.
  rewrite Hp in H1. rewrite Hb in H2. rewrite Hw in H3.
  cbn [width input_buffer_0_block_count input_buffer_0_packet_count
       output_buffer_block_count output_buffer_write_offset] in *.
  lia.
Qed.

Lemma buffer_state_quantities packets blocks consumed written data :
  buffer_state packets blocks consumed written data ->
  0 <= consumed <= packets -> written <= blocks ->
  input_offset data = 2048 * consumed
  /\ input_remaining data = 2048 * (packets - consumed)
  /\ output_size data = 256 * blocks
  /\ output_offset data = 256 * written
  /\ output_remaining data = 256 * (blocks - written).
Proof.
  intros Hs Hc Hw. pose proof (buffer_state_bounds _ _ _ _ _ Hs) as Hb.
  destruct Hs as (_ & Hp & H1 & Hr & Hbl & Hwr).
  unfold input_remaining, input_size, input_offset, output_remaining,
    output_size, output_offset.
  rewrite Hp, H1, Hr, Hbl, Hwr.
  replace ((2048 * consumed + 4) * 8 / 8 - 4) with (2048 * consumed)
    by (rewrite Z.div_mul by lia; lia).
  rewrite (size_t_small (2048 * consumed)) by lia.
  rewrite (size_t_small ((packets + 0) * 2048)) by lia.
  rewrite (size_t_small (blocks * 256)) by lia.
  rewrite (size_t_small (written * 256)) by lia.
  rewrite !size_t_small by lia. lia.
Qed.

Lemma buffer_state_step packets blocks consumed written data consumed' written' :
  buffer_state packets blocks consumed written data ->
  0 <= consumed' < 4096 -> 0 <= written' < 32 ->
  buffer_state packets blocks consumed' written'
    (set output_buffer_write_offset written'
       (set input_buffer_read_offset ((2048 * consumed' + 4) * 8) data)).
Proof.
  intros (Hl & Hp & H1 & Hr & Hb & Hw) Hc' Hw'.
  unfold buffer_state.
  rewrite !length_set.
  split; [exact Hl|].
  split; [rewrite !get_set_other by reflexivity; exact Hp|].
  split; [rewrite !get_set_other by reflexivity; exact H1|].
  split; [|split; [rewrite !get_set_other by reflexivity; exact Hb|]].
  - rewrite get_set_other by reflexivity.
    rewrite get_set_same by (try reflexivity; exact Hl).
    apply land_ones_small. cbn [width input_buffer_read_offset]. lia.
  - rewrite get_set_same by (try reflexivity; rewrite ?length_set; exact Hl).
    apply land_ones_small. cbn [width output_buffer_write_offset]. lia.
Qed.

Lemma decode_loop_S {D} {AD : AudioDecoder D} fuel in0 out m st :
  decode_loop (S fuel) in0 out m st
  = match decode_iteration in0 out m st with
    | (Break st', evs, m') => Some (st', evs, m')
    | (Continue st', evs, m') =>
        match decode_loop fuel in0 out m' st' with
        | Some (st'', evs', m'') => Some (st'', evs ++ evs', m'')
        | None => None
        end
    end.
Proof. reflexivity. Qed.

(** The fixed-ratio decoder keeps to the window it is handed. *)
Lemma ratio_decoder_writes_in_window :
  @writes_in_window Z (ratio_decoder yield).
Proof.
  intros pending m out offset size a Ha.
  cbn [DecodePacket ratio_decoder decode_memory].
  unfold memset0. apply write_bytes_outside. rewrite repeat_length.
  destruct (Z.le_gt_cases (Z.min size pending) 0) as [H|H].
  - replace (Z.to_nat (Z.min size pending)) with 0%nat by lia. lia.
  - rewrite Z2Nat.id by lia. lia.
Qed.

Lemma ratio_loop_terminates in0 out packets blocks n :
  forall m data pending consumed written,
    buffer_state packets blocks consumed written data ->
    0 <= consumed <= packets -> 0 <= written <= blocks -> 0 <= pending ->
    2 * (packets - consumed)
      + (if (0 <? pending) && (written <? blocks) then 1 else 0)
      <= Z.of_nat n ->
    exists data' pending' evs m',
      @decode_loop Z (ratio_decoder yield) (S n) in0 out m (data, pending)
      = Some (data', pending', evs, m')
      /\ decode_calls evs
         <= 2 * (packets - consumed)
            + (if (0 <? pending) && (written <? blocks) then 1 else 0)
      /\ Forall (call_within (256 * blocks)) evs
      /\ forall a, a < out + 256 * written \/ out + 256 * blocks <= a ->
                   m' a = m a.
Proof.
  induction n as [|n IH]; intros m data pending consumed written Hs Hc Hw Hp Hm;
    pose proof (buffer_state_bounds _ _ _ _ _ Hs) as Hb;
    destruct (buffer_state_quantities _ _ _ _ _ Hs Hc (proj2 Hw))
      as (Hio & Hir & Hos & Hoo & Hor);
    rewrite decode_loop_S; unfold decode_iteration;
    rewrite Hir, Hor, Hoo, Hio.
  - (* no fuel but for the check: the input is exhausted *)
    assert (consumed = packets)
      by (revert Hm; destruct ((0 <? pending) && (written <? blocks)); lia).
    subst. replace (2048 * (packets - packets) =? 0) with true
      by (symmetry; apply Z.eqb_eq; lia).
    exists data, pending, [], m. split; [reflexivity|].
    split; [|split; [constructor|reflexivity]].
    unfold decode_calls. cbn [filter length].
    destruct ((0 <? pending) && (written <? blocks)); lia.
  - destruct (2048 * (packets - consumed) =? 0) eqn:Ei.
    { exists data, pending, [], m. split; [reflexivity|].
      split; [|split; [constructor|reflexivity]].
      unfold decode_calls. cbn [filter length].
      destruct ((0 <? pending) && (written <? blocks)); lia. }
    destruct (256 * (blocks - written) =? 0) eqn:Eo.
    { exists data, pending, [], m. split; [reflexivity|].
      split; [|split; [constructor|reflexivity]].
      unfold decode_calls. cbn [filter length].
      destruct ((0 <? pending) && (written <? blocks)); lia. }
    apply Z.eqb_neq in Ei. apply Z.eqb_neq in Eo.
    assert (Hwb : (written <? blocks) = true) by (apply Z.ltb_lt; lia).
    rewrite Hwb, andb_true_r in *.
    pose proof (ratio_decoder_writes_in_window pending m out (256 * written)
                  (256 * (blocks - written))) as Hframe.
    cbv zeta.
    cbn [DecodePacket PreparePacket ratio_decoder
         decode_result decode_memory decode_state] in Hframe |- *.
    set (m1 := memset0 m (out + 256 * written)
                 (Z.to_nat (Z.min (256 * (blocks - written)) pending))) in *.
    replace (Z.min (256 * (blocks - written)) pending <? 0) with false
      by (symmetry; apply Z.ltb_ge; lia).
    destruct (Z.min (256 * (blocks - written)) pending =? 0) eqn:Er.
    + (* nothing pending: the next packet is prepared *)
      apply Z.eqb_eq in Er.
      assert (pending = 0) by lia. subst pending.
      rewrite Er. replace (0 - 0) with 0 in * by lia.
      change (0 <? 0) with false in *.
      rewrite !Z.add_0_r.
      rewrite (size_t_small (2048 * consumed + 2048)) by lia.
      rewrite (size_t_small ((2048 * consumed + 2048 + 4) * 8)) by lia.
      rewrite (size_t_small (256 * written)) by lia.
      replace (256 * written / 256) with written
        by (rewrite Z.mul_comm, Z.div_mul; lia).
      replace ((2048 * consumed + 2048 + 4) * 8)
        with ((2048 * (consumed + 1) + 4) * 8) by lia.
      pose proof (buffer_state_step _ _ _ _ _ (consumed + 1) written Hs) as Hs'.
      destruct (IH m1
                   (set output_buffer_write_offset written
                      (set input_buffer_read_offset
                           ((2048 * (consumed + 1) + 4) * 8) data))
                   yield (consumed + 1) written)
        as (data' & pending' & evs & m' & E & Hcalls & Hwin & Hmem);
        try (apply Hs'; lia); try lia.
      { rewrite Hwb, andb_true_r.
        replace (0 <? yield) with true by (symmetry; apply Z.ltb_lt; lia). lia. }
      rewrite E. eexists _, _, _, _. split; [reflexivity|].
      rewrite Hwb, andb_true_r in Hcalls.
      replace (0 <? yield) with true in Hcalls by (symmetry; apply Z.ltb_lt; lia).
      split; [|split].
      * unfold decode_calls in *. cbn [app filter length] in *. lia.
      * constructor; [|constructor; [exact I|exact Hwin]].
        cbn [call_within]. lia.
      * intros a Ha. rewrite Hmem by exact Ha. apply Hframe. lia.
    + (* output is handed out *)
      apply Z.eqb_neq in Er.
      assert (Hpp : 0 < pending) by lia.
      replace (0 <? pending) with true in * by (symmetry; apply Z.ltb_lt; lia).
      set (read := Z.min (256 * (blocks - written)) pending) in *.
      assert (Hread : 0 < read <= 256 * (blocks - written)) by (unfold read; lia).
      rewrite (size_t_small ((2048 * consumed + 4) * 8)) by lia.
      rewrite (size_t_small (256 * written + read)) by lia.
      assert (Hw' : written <= (256 * written + read) / 256 <= blocks).
      { split.
        - apply Z.div_le_lower_bound; lia.
        - apply Z.div_le_upper_bound; lia. }
      pose proof (buffer_state_step _ _ _ _ _ consumed
                    ((256 * written + read) / 256) Hs) as Hs'.
      destruct (IH m1
                   (set output_buffer_write_offset ((256 * written + read) / 256)
                      (set input_buffer_read_offset
                           ((2048 * consumed + 4) * 8) data))
                   (pending - read) consumed ((256 * written + read) / 256))
        as (data' & pending' & evs & m' & E & Hcalls & Hwin & Hmem);
        try (apply Hs'; lia); try lia.
      { destruct (0 <? pending - read) eqn:Epr; [|cbn [andb]; lia].
        apply Z.ltb_lt in Epr.
        assert (read = 256 * (blocks - written)) by (unfold read in *; lia).
        replace ((256 * written + read) / 256) with blocks
          by (replace (256 * written + read) with (blocks * 256) by lia;
              rewrite Z.div_mul; lia).
        rewrite Z.ltb_irrefl. cbn [andb]. lia. }
      rewrite E. eexists _, _, _, _. split; [reflexivity|].
      split; [|split].
      * unfold decode_calls in *. cbn [app filter length] in *.
        destruct ((0 <? pending - read) && _) eqn:Epr; [|lia].
        apply andb_true_iff in Epr. destruct Epr as [Epr Ewb].
        apply Z.ltb_lt in Epr. apply Z.ltb_lt in Ewb.
        assert (read = 256 * (blocks - written)) by (unfold read in *; lia).
        assert ((256 * written + read) / 256 = blocks)
          by (replace (256 * written + read) with (blocks * 256) by lia;
              rewrite Z.div_mul; lia).
        lia.
      * constructor; [|exact Hwin]. cbn [call_within]. lia.
      * intros a Ha. rewrite Hmem by lia. apply Hframe. lia.
Qed.

(** With the write offset above the block count the [size_t] subtraction
    wraps around: the first [DecodePacket] call is handed a window of
    [2^64 - 256 * (written - blocks)] bytes. *)
Lemma ratio_window_wraps in0 out m data pending :
  get input_buffer_1_block_count data = 0 ->
  get input_buffer_read_offset data = 32 ->
  get input_buffer_0_block_count data <> 0 ->
  get output_buffer_block_count data < get output_buffer_write_offset data ->
  exists step evs m',
    @decode_iteration Z (ratio_decoder yield) in0 out m (data, pending)
    = (step,
       EvDecodePacket out (256 * get output_buffer_write_offset data)
         (18446744073709551616
          - 256 * (get output_buffer_write_offset data
                   - get output_buffer_block_count data))
         (Z.min (18446744073709551616
                 - 256 * (get output_buffer_write_offset data
                          - get output_buffer_block_count data))
                pending)
       :: evs,
       m').
Proof.
  intros H1 Hr Hp Hw.
  pose proof (get_range input_buffer_0_block_count data eq_refl) as Rp.
  pose proof (get_range output_buffer_block_count data eq_refl) as Rb.
  pose proof (get_range output_buffer_write_offset data eq_refl) as Ro.
  change (2 ^ width input_buffer_0_block_count) with 4096 in Rp.
  change (2 ^ width output_buffer_block_count) with 32 in Rb.
  change (2 ^ width output_buffer_write_offset) with 32 in Ro.
  assert (Ei : input_remaining data = 2048 * get input_buffer_0_block_count data).
  { unfold input_remaining, input_size, input_offset. rewrite H1, Hr.
    change (32 / 8 - 4) with 0. rewrite (size_t_small 0) by lia.
    rewrite Z.add_0_r, Z.sub_0_r.
    rewrite (size_t_small (_ * 2048)) by lia. rewrite size_t_small by lia. lia. }
  assert (Eo : output_offset data = 256 * get output_buffer_write_offset data).
  { unfold output_offset. rewrite size_t_small by lia. lia. }
  assert (Er : output_remaining data
               = 18446744073709551616
                 - 256 * (get output_buffer_write_offset data
                          - get output_buffer_block_count data)).
  { unfold output_remaining, output_size. rewrite Eo.
    rewrite (size_t_small (_ * 256)) by lia. unfold size_t.
    change (2 ^ 64) with 18446744073709551616.
    symmetry. apply Z.mod_unique with (q := -1); lia. }
  unfold decode_iteration. rewrite Ei, Eo, Er.
  replace (2048 * get input_buffer_0_block_count data =? 0) with false
    by (symmetry; apply Z.eqb_neq; lia).
  replace (18446744073709551616
           - 256 * (get output_buffer_write_offset data
                    - get output_buffer_block_count data) =? 0) with false
    by (symmetry; apply Z.eqb_neq; lia).
  cbv zeta.
  cbn [DecodePacket PreparePacket ratio_decoder
       decode_result decode_memory decode_state].
  destruct (Z.min _ pending <? 0); [eexists _, _, _; reflexivity|].
  destruct (Z.min _ pending =? 0); eexists _, _, _; reflexivity.
Qed.

End RatioDecoder.

(** C2 (as amended). With a decoder that starts with no output pending,
    yields a fixed positive number of bytes per 2048-byte packet and hands
    out what is pending up to the space it is given, on a record whose
    input buffer 0 holds [S] bytes read from the start (buffer 1 empty),
    whose output buffer grants [O] bytes and whose write offset does not
    exceed the block count, the decode loop reaches a [break] after at
    most [2 * ceil(S / 2048)] [DecodePacket] calls (one trip to prepare
    each packet, one to hand out its output), every call is given a
    window that ends exactly at output offset [O] and writes inside it,
    and no byte of guest memory before the write offset or at or past
    offset [O] of the output buffer changes.  With the write offset above
    the block count the bound on the window fails: the subtraction wraps
    around and the first call is handed a window that reaches
    [2^64 - 256 * (write offset - block count)] bytes on. *)
Theorem decode_loop_terminates yield in0 out m data :
  0 < yield ->
  length data = 16%nat ->
  get input_buffer_1_block_count data = 0 ->
  get input_buffer_read_offset data = 32 ->
  (get output_buffer_write_offset data <= get output_buffer_block_count data ->
   exists data' pending' evs m',
     @decode_loop Z (ratio_decoder yield)
       (S (Z.to_nat (2 * ((input_remaining data + kBytesPerPacket - 1)
                          / kBytesPerPacket))))
       in0 out m (data, 0)
     = Some (data', pending', evs, m')
     /\ decode_calls evs
        <= 2 * ((input_remaining data + kBytesPerPacket - 1) / kBytesPerPacket)
     /\ Forall (call_within (output_size data)) evs
     /\ forall a, a < out + output_offset data \/ out + output_size data <= a ->
                  m' a = m a)
  /\ (get output_buffer_block_count data < get output_buffer_write_offset data ->
      get input_buffer_0_block_count data <> 0 ->
      exists step evs m',
        @decode_iteration Z (ratio_decoder yield) in0 out m (data, 0)
        = (step,
           EvDecodePacket out (output_offset data)
             (18446744073709551616
              - (output_offset data - output_size data)) 0
           :: evs,
           m')
        /\ output_size data
           < output_offset data
             + (18446744073709551616 - (output_offset data - output_size data))).
Proof.
  intros Hy Hl H1 Hr.
  pose proof (get_range input_buffer_0_block_count data eq_refl) as Rp.
  pose proof (get_range output_buffer_block_count data eq_refl) as Rb.
  pose proof (get_range output_buffer_write_offset data eq_refl) as Ro.
  change (2 ^ width input_buffer_0_block_count) with 4096 in Rp.
  change (2 ^ width output_buffer_block_count) with 32 in Rb.
  change (2 ^ width output_buffer_write_offset) with 32 in Ro.
  split.
  - intros Hw.
    assert (Hs : buffer_state (get input_buffer_0_block_count data)
                   (get output_buffer_block_count data) 0
                   (get output_buffer_write_offset data) data).
    { unfold buffer_state. repeat split; auto. }
    pose proof (buffer_state_bounds _ _ _ _ _ Hs) as Hb.
    destruct (buffer_state_quantities _ _ _ _ _ Hs) as (_ & Hir & Hos & Hoo & _);
      try lia.
    rewrite Hir, Hos, Hoo. unfold kBytesPerPacket.
    replace ((2048 * (get input_buffer_0_block_count data - 0) + 2048 - 1) / 2048)
      with (get input_buffer_0_block_count data).
    2: { apply Z.div_unique with (r := 2047); lia. }
    destruct (ratio_loop_terminates yield Hy in0 out
                (get input_buffer_0_block_count data)
                (get output_buffer_block_count data)
                (Z.to_nat (2 * get input_buffer_0_block_count data))
                m data 0 0 (get output_buffer_write_offset data) Hs)
      as (data' & pending' & evs & m' & E & Hcalls & Hwin & Hmem); try lia.
    { change (0 <? 0) with false. cbn [andb]. lia. }
    exists data', pending', evs, m'. split; [exact E|].
    split; [|split; [exact Hwin|exact Hmem]].
    change (0 <? 0) with false in Hcalls. cbn [andb] in Hcalls. lia.
  - intros Hw Hp.
    assert (Es : output_size data = 256 * get output_buffer_block_count data).
    { unfold output_size. rewrite size_t_small by lia. lia. }
    assert (Eo : output_offset data = 256 * get output_buffer_write_offset data).
    { unfold output_offset. rewrite size_t_small by lia. lia. }
    destruct (ratio_window_wraps yield in0 out m data 0 H1 Hr Hp Hw)
      as (step & evs & m' & E).
    rewrite Z.min_r in E by lia.
    exists step, evs, m'. rewrite Es, Eo. split; [|lia].
    etransitivity; [exact E|]. do 4 f_equal. lia.
Qed.

(** ** Clients *)

Lemma nth_list_set_same {A} i (x d : A) l :
  (i < length l)%nat -> nth i (list_set i x l) d = x.
Proof.
  revert i. induction l as [|y l IH]; intros [|i] H; simpl in *; try lia; auto.
  apply IH. lia.
Qed.

Lemma list_set_twice {A} i (x y : A) l :
  list_set i x (list_set i y l) = list_set i x l.
Proof.
  revert i. induction l as [|z l IH]; intros [|i]; simpl; auto.
  f_equal. apply IH.
Qed.

Lemma length_list_set {A} i (x : A) l : length (list_set i x l) = length l.
Proof. revert i. induction l; intros [|i]; simpl; auto. Qed.

Section ClientProperties.
Context {D : Type} {AD : AudioDecoder D} {XS : XStatus}.
Implicit Type s : AudioSystem D.

Lemma RegisterClient_no_free_slot CreateDriver callback0 callback_arg0 s :
  unused_clients_ s = [] ->
  RegisterClient CreateDriver callback0 callback_arg0 s = Faults.
Proof. intros H. unfold RegisterClient. rewrite H. reflexivity. Qed.

(** The handle handed to [CreateDriver] is not signaled. *)
Lemma nth_list_set_false i (l : list bool) : nth i (list_set i false l) false = false.
Proof.
  revert i. induction l as [|y l IH]; intros [|i]; cbn [list_set nth]; auto.
Qed.

(** [RegisterClient] with a free slot, with the handle written once. *)
Lemma RegisterClient_free_slot CreateDriver callback0 callback_arg0 s index rest :
  unused_clients_ s = index :: rest ->
  RegisterClient CreateDriver callback0 callback_arg0 s
  = let created := CreateDriver index false in
    let s1 := with_wait_handles s
                (list_set index (wait_handle_signaled created)
                   (client_wait_handles_ s)) in
    if XFAILED (create_result created)
    then Returns (create_result created, None, s1)
    else
      _ <- assert_true (nonzero (created_driver created)) ;;
      Returns
        (X_STATUS_SUCCESS, Some index,
         with_clients
           (with_memory s1
              (with_bytes (snd (SystemHeapAlloc (memory_ s)))
                 (store_and_swap (bytes (memory_ s))
                    (TranslateVirtual (memory_ s)
                       (heap_results (memory_ s) (heap_allocs (memory_ s))))
                    callback_arg0)))
           (list_set index
              {| driver := created_driver created;
                 callback := callback0;
                 callback_arg := callback_arg0;
                 wrapped_callback_arg :=
                   heap_results (memory_ s) (heap_allocs (memory_ s)) |}
              (clients_ s))
           rest).
Proof.
  intros Hq. unfold RegisterClient. rewrite Hq.
  cbn [ResetEvent with_wait_handles client_wait_handles_].
  rewrite nth_list_set_false, list_set_twice.
  cbv zeta. reflexivity.
Qed.

(** C9 (as amended). [AllocateXmaContext] reports an exhausted pool to
    its caller as a zero result and changes nothing.  [RegisterClient] has
    no exhaustion report: a free client slot is its asserted
    precondition, and with the free queue empty the call faults.  With a
    free slot it returns at once: the failure status of [CreateDriver],
    the slot still free, or [X_STATUS_SUCCESS] with the front index of
    the queue taken; the client's wait handle is as [CreateDriver], which
    was handed it reset, has left it. *)
Theorem exhaustion_reports :
  (forall s, all_in_use (xma_context_array_ s) ->
             AllocateXmaContext s = (0, s))
  /\ (forall CreateDriver callback0 callback_arg0 s,
        unused_clients_ s = [] ->
        RegisterClient CreateDriver callback0 callback_arg0 s = Faults)
  /\ (forall CreateDriver callback0 callback_arg0 s index rest,
        unused_clients_ s = index :: rest ->
        (XFAILED (create_result (CreateDriver index false)) = true ->
         RegisterClient CreateDriver callback0 callback_arg0 s
         = Returns (create_result (CreateDriver index false), None,
                    with_wait_handles s
                      (list_set index
                         (wait_handle_signaled (CreateDriver index false))
                         (client_wait_handles_ s))))
        /\ (XFAILED (create_result (CreateDriver index false)) = false ->
            created_driver (CreateDriver index false) <> 0 ->
            exists s',
              RegisterClient CreateDriver callback0 callback_arg0 s
              = Returns (X_STATUS_SUCCESS, Some index, s')
              /\ unused_clients_ s' = rest
              /\ clients_ s'
                 = list_set index
                     {| driver := created_driver (CreateDriver index false);
                        callback := callback0;
                        callback_arg := callback_arg0;
                        wrapped_callback_arg :=
                          heap_results (memory_ s) (heap_allocs (memory_ s)) |}
                     (clients_ s)
              /\ client_wait_handles_ s'
                 = list_set index
                     (wait_handle_signaled (CreateDriver index false))
                     (client_wait_handles_ s))).
Proof.
  split; [|split].
  - intros s H. unfold AllocateXmaContext.
    rewrite allocate_scan_exhausted by exact H. reflexivity.
  - intros. apply RegisterClient_no_free_slot. assumption.
  - intros CreateDriver callback0 callback_arg0 s index rest Hq.
    rewrite (RegisterClient_free_slot _ _ _ _ _ _ Hq). cbv zeta.
    split.
    + intros Hf. rewrite Hf. reflexivity.
    + intros Hf Hd. rewrite Hf.
      assert (Hn : nonzero (created_driver (CreateDriver index false)) = true).
      { unfold nonzero. apply negb_true_iff. apply Z.eqb_neq. exact Hd. }
      rewrite Hn. cbn [assert_true bind].
      eexists. split; [reflexivity|]. repeat split.
Qed.

End ClientProperties.

(** ** [NtWriteFile] *)

Section NtWriteFileProperties.
Context {XS : XStatus}.
Variable F : Type.
Variable XFile_Write : F -> Z -> Z -> Z -> Z * Z * F.

Import xboxkrnl_io.

(** C10 (as amended). A call of [NtWriteFile] with a zero event handle
    and no APC routine returns [X_STATUS_INVALID_HANDLE] whatever the file
    handle refers to: it calls no [Write], leaves files and events as
    they were, and stores the status and a zero count in the status block
    if one is given.  With an APC routine the shim's
    [assert_zero(apc_routine_ptr)] stops the call: it returns no status,
    and nothing is written either.  And any call that does perform a
    [Write] was given a non-zero event handle that refers to an event. *)
Theorem NtWriteFile_needs_event :
  (forall file_handle apc_routine_ptr apc_context io_status_block_ptr buffer
          buffer_length byte_offset_ptr (ks : KernelState F),
      NtWriteFile F XFile_Write file_handle 0 apc_routine_ptr apc_context
        io_status_block_ptr buffer buffer_length byte_offset_ptr ks
      = if apc_routine_ptr =? 0
        then Returns
               (X_STATUS_INVALID_HANDLE,
                if nonzero io_status_block_ptr
                then SHIM_SET_MEM_32 F
                       (SHIM_SET_MEM_32 F ks io_status_block_ptr
                                        X_STATUS_INVALID_HANDLE)
                       (io_status_block_ptr + 4) 0
                else ks)
        else Faults)
  /\ (forall file_handle event_handle apc_routine_ptr apc_context
             io_status_block_ptr buffer buffer_length byte_offset_ptr
             (ks ks' : KernelState F) result,
        NtWriteFile F XFile_Write file_handle event_handle apc_routine_ptr
          apc_context io_status_block_ptr buffer buffer_length
          byte_offset_ptr ks
        = Returns (result, ks') ->
        writes F ks' <> writes F ks ->
        event_handle <> 0 /\ exists e, events F ks event_handle = Some e).
Proof.
  split.
  - intros. unfold NtWriteFile.
    destruct (apc_routine_ptr =? 0); [|reflexivity].
    cbn [assert_true bind].
    change (nonzero 0) with false. cbn [andb negb is_ref].
    rewrite XSUCCEEDED_INVALID_HANDLE. cbn [bind andb].
    destruct (nonzero io_status_block_ptr); reflexivity.
  - intros file_handle event_handle apc_routine_ptr apc_context
      io_status_block_ptr buffer buffer_length byte_offset_ptr ks ks' result.
    unfold NtWriteFile.
    destruct (apc_routine_ptr =? 0); [|discriminate].
    cbn [assert_true bind].
    destruct (nonzero event_handle) eqn:En.
    + destruct (events F ks event_handle) as [e|] eqn:Ee.
      * intros _ _. split; [|eauto].
        unfold nonzero in En. apply negb_true_iff in En. apply Z.eqb_neq in En.
        exact En.
      * cbn [andb negb is_ref].
        rewrite XSUCCEEDED_INVALID_HANDLE. cbn [bind andb].
        intros H Hw. exfalso. apply Hw.
        injection H as _ <-.
        destruct (nonzero io_status_block_ptr); reflexivity.
    + cbn [andb negb is_ref].
      rewrite XSUCCEEDED_INVALID_HANDLE. cbn [bind andb].
      intros H Hw. exfalso. apply Hw.
      injection H as _ <-.
      destruct (nonzero io_status_block_ptr); reflexivity.
Qed.

End NtWriteFileProperties.

(** ** The client worker *)

Section WorkerProperties.
Context {D : Type}.
Variable Execute : Z -> Z -> AudioSystem D -> AudioSystem D.
Implicit Type s : AudioSystem D.










End WorkerProperties.

(** ** Worked instances *)

Lemma Setup_records_disjoint {D} fresh (s : AudioSystem D) :
  (forall a, TranslateVirtual (memory_ s) a = a) ->
  0 <= heap_results (memory_ s) (heap_allocs (memory_ s)) ->
  heap_results (memory_ s) (heap_allocs (memory_ s))
    + kXmaContextCount * kXmaContextSize <= 2 ^ 32 ->
  records_disjoint (Setup fresh s).
Proof.
  intros Htv H0 H1. unfold records_disjoint.
  intros n m c d Hnm Hc Hd.
  rewrite Setup_contexts in Hc, Hd.
  assert (Hn : (n < 320)%nat).
  { assert (Hs : nth_error (map (fun i : nat =>
                   {| guest_ptr := uint32 (heap_results (memory_ s) (heap_allocs (memory_ s))
                                           + Z.of_nat i * kXmaContextSize);
                      in_use := false; decoder := fresh |})
                 (seq 0 (Z.to_nat kXmaContextCount))) n <> None) by congruence.
    apply nth_error_Some in Hs. rewrite length_map, length_seq in Hs. exact Hs. }
  assert (Hm : (m < 320)%nat).
  { assert (Hs : nth_error (map (fun i : nat =>
                   {| guest_ptr := uint32 (heap_results (memory_ s) (heap_allocs (memory_ s))
                                           + Z.of_nat i * kXmaContextSize);
                      in_use := false; decoder := fresh |})
                 (seq 0 (Z.to_nat kXmaContextCount))) m <> None) by congruence.
    apply nth_error_Some in Hs. rewrite length_map, length_seq in Hs. exact Hs. }
  rewrite nth_error_map, nth_error_seq in Hc, Hd.
  replace (n <? Z.to_nat kXmaContextCount)%nat with true in Hc
    by (symmetry; apply Nat.ltb_lt; exact Hn).
  replace (m <? Z.to_nat kXmaContextCount)%nat with true in Hd
    by (symmetry; apply Nat.ltb_lt; exact Hm).
  cbn [option_map] in Hc, Hd. injection Hc as <-. injection Hd as <-.
  cbn [guest_ptr memory_ Setup SystemHeapAlloc TranslateVirtual fst snd].
  unfold Setup. cbn [SystemHeapAlloc memory_ TranslateVirtual].
  rewrite !Htv. unfold uint32, kXmaContextSize, kXmaContextCount in *.
  rewrite !Z.mod_small by lia. lia.
Qed.

Lemma example_records_disjoint : records_disjoint example_kick_system.
Proof.
  apply (records_disjoint_frame example_system); try reflexivity.
  apply Setup_records_disjoint.
  - reflexivity.
  - vm_compute. discriminate.
  - vm_compute. discriminate.
Qed.

(** A kick of context 0, whose record holds zero pointers: both
    input-valid flags are zero after the kick. *)
Lemma kick_zero_pointer_counterexample :
  exists s',
    WriteRegister 0x7FEA1940 0x01000000 example_system = Returns s'
    /\ Z.testbit (byte_swap (uint32 0x01000000)) 0 = true
    /\ get input_buffer_0_valid (load (bytes (memory_ s')) (example_slot 0)) <> 1
    /\ get input_buffer_1_valid (load (bytes (memory_ s')) (example_slot 0)) <> 1.
Proof.
  eexists. split; [reflexivity|].
  split; [reflexivity|].
  split; vm_compute; discriminate.
Qed.

(** C1 at work: bit 1 of the second kick register addresses context 33,
    whose buffer 0 pointer is set and whose buffer 1 pointer is zero. *)
Lemma kick_command_witness :
  Z.land 0x7FEA1944 0xFFFF mod 4 = 0
  /\ 0x1940 <= Z.land 0x7FEA1944 0xFFFF <= 0x1940 + 9 * 4
  /\ records_disjoint example_kick_system
  /\ exists s',
       WriteRegister 0x7FEA1944 0x02000000 example_kick_system = Returns s'
       /\ decoder_fence_ s' = 1%nat
       /\ get input_buffer_0_valid
            (load (bytes (memory_ s')) (example_slot 33)) = 1
       /\ get input_buffer_1_valid
            (load (bytes (memory_ s')) (example_slot 33)) = 0
       /\ get output_buffer_write_offset
            (load (bytes (memory_ s')) (example_slot 33)) = 0
       /\ forall a, example_slot 32 <= a < example_slot 33 ->
                    bytes (memory_ s') a = bytes (memory_ example_kick_system) a.
Proof.
  assert (H1 : Z.land 0x7FEA1944 0xFFFF mod 4 = 0) by reflexivity.
  assert (H2 : 0x1940 <= Z.land 0x7FEA1944 0xFFFF <= 0x1940 + 9 * 4)
    by (vm_compute; split; discriminate).
  assert (H3 : length (xma_context_array_ example_kick_system)
               = Z.to_nat kXmaContextCount) by reflexivity.
  split; [exact H1|]. split; [exact H2|].
  split; [exact example_records_disjoint|].
  destruct (kick_command 0x7FEA1944 0x02000000 example_kick_system H1 H2 H3
              example_records_disjoint)
    as (s' & E & Harr & Hreg & Ht & Hfence & H).
  exists s'. split; [exact E|]. split; [exact Hfence|].
  pose proof (H 33%nat {| guest_ptr := example_slot 33; in_use := false;
                          decoder := tt |} eq_refl) as H33.
  pose proof (H 32%nat {| guest_ptr := example_slot 32; in_use := false;
                          decoder := tt |} eq_refl) as H32.
  change (kicked (Z.land 0x7FEA1944 0xFFFF) (byte_swap (uint32 0x02000000)) 33)
    with true in H33.
  change (kicked (Z.land 0x7FEA1944 0xFFFF) (byte_swap (uint32 0x02000000)) 32)
    with false in H32.
  cbv beta iota in H33, H32.
  destruct H33 as (Hv0 & Hv1 & Hwo & _).
  assert (Htv : TranslateVirtual (memory_ s') = fun a => a) by exact Ht.
  unfold context_data in Hv0, Hv1, Hwo. rewrite Htv in Hv0, Hv1, Hwo.
  cbn [guest_ptr] in Hv0, Hv1, Hwo.
  split; [rewrite Hv0; reflexivity|].
  split; [rewrite Hv1; reflexivity|].
  split; [exact Hwo|].
  intros a Ha. apply H32. unfold in_record. cbn [guest_ptr].
  change (TranslateVirtual (memory_ example_kick_system) (example_slot 32))
    with (example_slot 32).
  unfold example_slot, kXmaContextSize in *. lia.
Defined.

(** C2 at work: two packets, thirty-one output blocks, 2048 bytes of output
    per packet; and a record with one output block and write offset 2,
    where the first call is handed a window of [2^64 - 256] bytes at
    offset 512. *)
Lemma decode_loop_terminates_witness :
  0 < 2048
  /\ get input_buffer_read_offset (fresh_record 2 31) = 32
  /\ get output_buffer_write_offset (fresh_record 2 31)
     <= get output_buffer_block_count (fresh_record 2 31)
  /\ (exists data' pending' evs m',
        @decode_loop Z (ratio_decoder 2048)
          (S (Z.to_nat (2 * ((input_remaining (fresh_record 2 31)
                               + kBytesPerPacket - 1) / kBytesPerPacket))))
          0x200000 0x300000 (fun _ => Byte.x01) (fresh_record 2 31, 0)
        = Some (data', pending', evs, m')
        /\ decode_calls evs
           <= 2 * ((input_remaining (fresh_record 2 31) + kBytesPerPacket - 1)
                   / kBytesPerPacket)
        /\ Forall (call_within (output_size (fresh_record 2 31))) evs
        /\ m' (0x300000 + 7936) = Byte.x01)
  /\ get output_buffer_block_count
       (set output_buffer_write_offset 2 (fresh_record 1 1))
     < get output_buffer_write_offset
         (set output_buffer_write_offset 2 (fresh_record 1 1))
  /\ exists step evs m',
       @decode_iteration Z (ratio_decoder 2048) 0x200000 0x300000
         (fun _ => Byte.x01)
         (set output_buffer_write_offset 2 (fresh_record 1 1), 0)
       = (step, EvDecodePacket 0x300000 512 (18446744073709551616 - 256) 0 :: evs,
          m').
Proof.
  assert (Hw : get output_buffer_write_offset (fresh_record 2 31)
               <= get output_buffer_block_count (fresh_record 2 31))
    by (vm_compute; discriminate).
  assert (Hw' : get output_buffer_block_count
                  (set output_buffer_write_offset 2 (fresh_record 1 1))
                < get output_buffer_write_offset
                    (set output_buffer_write_offset 2 (fresh_record 1 1)))
    by reflexivity.
  split; [lia|]. split; [reflexivity|]. split; [exact Hw|]. split.
  - destruct (decode_loop_terminates 2048 0x200000 0x300000 (fun _ => Byte.x01)
                (fresh_record 2 31) ltac:(lia) eq_refl eq_refl eq_refl)
      as [H _].
    destruct (H Hw) as (data' & pending' & evs & m' & E & Hc & Hwin & Hmem).
    exists data', pending', evs, m'.
    split; [exact E|]. split; [exact Hc|]. split; [exact Hwin|].
    apply Hmem. right. vm_compute. discriminate.
  - split; [exact Hw'|].
    destruct (decode_loop_terminates 2048 0x200000 0x300000 (fun _ => Byte.x01)
                (set output_buffer_write_offset 2 (fresh_record 1 1))
                ltac:(lia) eq_refl eq_refl eq_refl)
      as [_ H].
    destruct (H Hw') as (step & evs & m' & E & _); [vm_compute; discriminate|].
    exists step, evs, m'. exact E.
Defined.

(** The bound as worded fails: two packets (S = 4096) into thirty-one
    blocks (O = 7936) at 2048 bytes per packet take three [DecodePacket]
    calls, and [ceil(min(S, O) / 2048)] is two; with two trips of fuel the
    loop has not reached a [break]. *)
Lemma decode_loop_bound_counterexample :
  input_remaining (fresh_record 2 31) = 4096
  /\ output_size (fresh_record 2 31) = 7936
  /\ claimed_iteration_bound 4096 7936 = 2
  /\ @decode_loop Z (ratio_decoder 2048) 2 0x200000 0x300000
       (fun _ => Byte.x00) (fresh_record 2 31, 0) = None
  /\ exists data' pending' evs m',
       @decode_loop Z (ratio_decoder 2048) 4 0x200000 0x300000
         (fun _ => Byte.x00) (fresh_record 2 31, 0)
       = Some (data', pending', evs, m')
       /\ decode_calls evs = 3
       /\ ~ decode_calls evs <= claimed_iteration_bound 4096 7936.
Proof.
  split; [reflexivity|]. split; [reflexivity|]. split; [reflexivity|].
  split; [vm_compute; reflexivity|].
  assert (Hc : match @decode_loop Z (ratio_decoder 2048) 4 0x200000 0x300000
                       (fun _ => Byte.x00) (fresh_record 2 31, 0) with
               | Some (_, _, evs, _) => decode_calls evs
               | None => 0
               end = 3) by (vm_compute; reflexivity).
  destruct (@decode_loop Z (ratio_decoder 2048) 4 0x200000 0x300000
              (fun _ => Byte.x00) (fresh_record 2 31, 0))
    as [[[[data' pending'] evs] m']|]; [|discriminate Hc].
  exists data', pending', evs, m'. split; [reflexivity|].
  split; [exact Hc|].
  rewrite Hc. vm_compute. intros H. apply H. reflexivity.
Qed.

(** C3 at work: the 26-bit read offset at its maximum. *)
Lemma XMA_CONTEXT_DATA_round_trip_witness :
  length (copy_and_swap_out (fresh_record 4095 31)) = size
  /\ wf (fresh_record 4095 31)
  /\ In input_buffer_read_offset fields
  /\ 0 <= 67108863 < 2 ^ width input_buffer_read_offset
  /\ copy_and_swap (copy_and_swap (copy_and_swap_out (fresh_record 4095 31)))
     = copy_and_swap_out (fresh_record 4095 31)
  /\ load (Store (fresh_record 4095 31) (fun _ => Byte.x00) 0x10000) 0x10000
     = fresh_record 4095 31
  /\ get input_buffer_read_offset
       (load (Store (set input_buffer_read_offset 67108863 (fresh_record 4095 31))
                    (fun _ => Byte.x00) 0x10000) 0x10000)
     = 67108863
  /\ get output_buffer_block_count
       (load (Store (set input_buffer_read_offset 67108863 (fresh_record 4095 31))
                    (fun _ => Byte.x00) 0x10000) 0x10000)
     = get output_buffer_block_count (fresh_record 4095 31).
Proof.
  assert (Hlen : length (copy_and_swap_out (fresh_record 4095 31)) = size)
    by reflexivity.
  assert (Hwf : wf (fresh_record 4095 31)).
  { unfold fresh_record. repeat apply set_wf; try reflexivity.
    split; [reflexivity|]. repeat constructor; lia. }
  assert (Hin : In input_buffer_read_offset fields)
    by (apply in_fields; reflexivity).
  assert (Hv : 0 <= 67108863 < 2 ^ width input_buffer_read_offset)
    by (vm_compute; split; [discriminate|reflexivity]).
  destruct XMA_CONTEXT_DATA_round_trip as (_ & Hinv & Hls & Hfield).
  split; [exact Hlen|]. split; [exact Hwf|]. split; [exact Hin|].
  split; [exact Hv|].
  split; [exact (Hinv _ Hlen)|].
  split; [exact (Hls _ _ _ Hwf)|].
  destruct (Hfield input_buffer_read_offset 67108863 (fresh_record 4095 31)
              (fun _ => Byte.x00) 0x10000 Hin Hwf Hv) as [Hsame Hother].
  split; [exact Hsame|].
  apply Hother; [apply in_fields; reflexivity|discriminate].
Defined.



(** C5 at work: the first three allocations of a fresh pool. *)
Lemma AllocateXmaContext_first_free_witness :
  NoDup (map guest_ptr (xma_context_array_ example_system))
  /\ NoDup (filter nonzero (fst (allocate_many 3 example_system)))
  /\ fst (allocate_many 3 example_system)
     = [example_slot 0; example_slot 1; example_slot 2]
  /\ all_in_use (xma_context_array_ example_full_pool)
  /\ AllocateXmaContext example_full_pool = (0, example_full_pool)
  /\ fst (AllocateXmaContext example_system) = example_slot 0.
Proof.
  assert (Hnd : NoDup (map guest_ptr (xma_context_array_ example_system)))
    by apply Setup_addresses_distinct.
  assert (Hfull : all_in_use (xma_context_array_ example_full_pool))
    by (repeat constructor).
  split; [exact Hnd|].
  split; [exact (proj2 (proj2 (AllocateXmaContext_first_free example_system)) Hnd 3%nat)|].
  split; [reflexivity|].
  split; [exact Hfull|].
  split; [exact (proj1 (proj2 (AllocateXmaContext_first_free example_full_pool)) Hfull)|].
  rewrite (proj1 (AllocateXmaContext_first_free example_system) []
             {| guest_ptr := example_slot 0; in_use := false; decoder := tt |}
             (tl (xma_context_array_ example_system)) eq_refl
             (Forall_nil _) eq_refl).
  reflexivity.
Defined.

(** C6 at work: an address outside the pool, and the address of slot 33,
    which was never allocated and whose record holds buffer pointers:
    the allocation state is kept and the record is zeroed. *)
Lemma ReleaseXmaContext_no_match_or_free_witness :
  (forall c, In c (xma_context_array_ example_kick_system) -> guest_ptr c <> 5)
  /\ ReleaseXmaContext 5 example_kick_system = example_kick_system
  /\ (forall c, In c (xma_context_array_ example_kick_system) ->
                guest_ptr c = example_slot 33 -> in_use c = false)
  /\ pool_state (ReleaseXmaContext (example_slot 33) example_kick_system)
     = pool_state example_kick_system
  /\ bytes (memory_ example_kick_system) (example_slot 33 + 21) = Byte.x20
  /\ bytes (memory_ (ReleaseXmaContext (example_slot 33) example_kick_system))
       (example_slot 33 + 21)
     = Byte.x00
  /\ bytes (memory_ (ReleaseXmaContext (example_slot 33) example_kick_system))
       (example_slot 34)
     = bytes (memory_ example_kick_system) (example_slot 34).
Proof.
  assert (H5 : forall c, In c (xma_context_array_ example_kick_system) ->
                         guest_ptr c <> 5).
  { assert (H : forallb (fun c : XMAContext unit => negb (guest_ptr c =? 5))
                        (xma_context_array_ example_kick_system) = true)
      by (vm_compute; reflexivity).
    rewrite forallb_forall in H. intros c Hc E. specialize (H c Hc).
    rewrite E in H. discriminate. }
  assert (H33 : forall c, In c (xma_context_array_ example_kick_system) ->
                          guest_ptr c = example_slot 33 -> in_use c = false).
  { assert (H : forallb (fun c : XMAContext unit => negb (in_use c))
                        (xma_context_array_ example_kick_system) = true)
      by (vm_compute; reflexivity).
    rewrite forallb_forall in H. intros c Hc _. specialize (H c Hc).
    apply negb_true_iff in H. exact H. }
  split; [exact H5|].
  split; [exact (proj1 (ReleaseXmaContext_no_match_or_free 5 example_kick_system) H5)|].
  split; [exact H33|].
  destruct (proj2 (ReleaseXmaContext_no_match_or_free (example_slot 33)
                     example_kick_system) H33)
    as (Hp & _ & _ & _ & _ & Hb & _).
  split; [exact Hp|]. split; [vm_compute; reflexivity|].
  split; rewrite Hb; vm_compute; reflexivity.
Defined.

(** Releasing a context that was never allocated is not a no-op: slot 33
    of [example_kick_system] is free, its record names an input buffer at
    0x200000, and after the release the record is zero. *)
Lemma ReleaseXmaContext_free_slot_counterexample :
  forallb (fun c : XMAContext unit => negb (in_use c))
          (xma_context_array_ example_kick_system) = true
  /\ existsb (fun c : XMAContext unit => guest_ptr c =? example_slot 33)
             (xma_context_array_ example_kick_system) = true
  /\ get input_buffer_0_ptr
       (load (bytes (memory_ example_kick_system)) (example_slot 33)) = 0x200000
  /\ get input_buffer_0_ptr
       (load (bytes (memory_ (ReleaseXmaContext (example_slot 33)
                                example_kick_system)))
             (example_slot 33)) = 0
  /\ ReleaseXmaContext (example_slot 33) example_kick_system
     <> example_kick_system.
Proof.
  assert (H0 : get input_buffer_0_ptr
                 (load (bytes (memory_ example_kick_system)) (example_slot 33))
               = 0x200000) by (vm_compute; reflexivity).
  assert (H1 : get input_buffer_0_ptr
                 (load (bytes (memory_ (ReleaseXmaContext (example_slot 33)
                                          example_kick_system)))
                       (example_slot 33)) = 0) by (vm_compute; reflexivity).
  split; [vm_compute; reflexivity|]. split; [vm_compute; reflexivity|].
  split; [exact H0|]. split; [exact H1|].
  intros E. rewrite E, H0 in H1. discriminate H1.
Qed.



Lemma failing_decoder_writes_in_window : @writes_in_window unit failing_decoder.
Proof.
  intros dec m out offset size a Ha.
  cbn [DecodePacket failing_decoder decode_memory].
  destruct (Z.ltb_spec 0 size) as [Hs|Hs]; [|reflexivity].
  apply write_bytes_outside. cbn [length]. lia.
Qed.

(** C8 at work: context 33, kicked, with a decoder that fails after it
    has put a byte into the output buffer at 0x300000.  The byte is
    there after the pass, the record keeps its fields, and a byte outside
    the record and the window is as it was. *)
Lemma decode_failure_is_contained_witness :
  input_remaining (fresh_record 1 2) <> 0
  /\ output_remaining (fresh_record 1 2) <> 0
  /\ decode_loop 5 0x200000 0x300000 (fun _ => Byte.x00) (fresh_record 1 2, tt)
     = Some (fresh_record 1 2, tt,
             [EvDecodePacket 0x300000 0 512 (-1); EvLogDecodeFailed 1;
              EvDiscardPacket],
             write_bytes (fun _ => Byte.x00) 0x300000 [Byte.xff])
  /\ @writes_in_window unit failing_decoder
  /\ (exists context' mo',
        process_context 5 false example_kicked_memory example_failing_context
        = Some (Returns (context', mo',
                         [EvDecodePacket 0x300000 0 512 (-1); EvLogDecodeFailed 1;
                          EvDiscardPacket]))
        /\ in_use context' = true
        /\ get unk_dword_2 (load (bytes mo') (example_slot 33))
           = get unk_dword_2 (load (bytes example_kicked_memory) (example_slot 33))
        /\ get input_buffer_0_ptr (load (bytes mo') (example_slot 33)) = 0x200000
        /\ bytes example_kicked_memory 0x300000 = Byte.x00
        /\ bytes mo' 0x300000 = Byte.xff
        /\ bytes mo' 0x300200 = bytes example_kicked_memory 0x300200).
Proof.
  assert (Hi : input_remaining (fresh_record 1 2) <> 0)
    by (vm_compute; discriminate).
  assert (Ho : output_remaining (fresh_record 1 2) <> 0)
    by (vm_compute; discriminate).
  assert (Hr : decode_result
                 (DecodePacket tt (fun _ => Byte.x00) 0x300000
                    (output_offset (fresh_record 1 2))
                    (output_remaining (fresh_record 1 2))) < 0)
    by reflexivity.
  destruct (@decode_failure_is_contained unit failing_decoder)
    as (Hloop & Hfail & Hpass).
  split; [exact Hi|]. split; [exact Ho|].
  split; [exact (Hloop 4%nat 0x200000 0x300000 (fun _ => Byte.x00)
                   (fresh_record 1 2) tt Hi Ho Hr)|].
  split; [exact failing_decoder_writes_in_window|].
  pose (data := set output_buffer_valid 0
                  (set input_buffer_1_valid 0
                     (set input_buffer_0_valid 0
                        (load (bytes example_kicked_memory)
                              (TranslatePhysical example_kicked_memory
                                 (guest_ptr example_failing_context)))))).
  assert (E : process_context 5 false example_kicked_memory example_failing_context
              = Some (Returns
                        (set_decoder tt example_failing_context,
                         with_bytes example_kicked_memory
                           (Store data
                              (write_bytes (bytes example_kicked_memory)
                                 0x300000 [Byte.xff])
                              (example_slot 33)),
                         [EvDecodePacket 0x300000 0 512 (-1); EvLogDecodeFailed 1;
                          EvDiscardPacket]))).
  { apply (Hfail 4%nat example_kicked_memory example_failing_context data 0x300000).
    - reflexivity.
    - vm_compute. reflexivity.
    - reflexivity.
    - vm_compute. reflexivity.
    - vm_compute. reflexivity.
    - vm_compute. discriminate.
    - vm_compute. discriminate.
    - reflexivity. }
  eexists _, _. split; [exact E|].
  destruct (Hpass _ _ _ _ _ _ _ E) as (_ & Hu & _ & Hf & Hframe).
  change (TranslatePhysical example_kicked_memory (guest_ptr example_failing_context))
    with (example_slot 33) in Hf, Hframe.
  split; [rewrite Hu; reflexivity|].
  split.
  { apply (Hf unk_dword_2); [apply in_fields; reflexivity|].
    simpl. intros [H|[H|[H|[H|[H|[]]]]]]; discriminate. }
  split.
  { rewrite (Hf input_buffer_0_ptr); [vm_compute; reflexivity
                                     |apply in_fields; reflexivity|].
    simpl. intros [H|[H|[H|[H|[H|[]]]]]]; discriminate. }
  split; [reflexivity|].
  split; [vm_compute; reflexivity|].
  apply (Hframe failing_decoder_writes_in_window).
  - right. vm_compute. discriminate.
  - constructor; [right; vm_compute; discriminate|].
    constructor; [exact I|]. constructor; [exact I|constructor].
Defined.

(** With every client slot taken, [RegisterClient] answers no status
    code: the call faults. *)
Lemma RegisterClient_exhausted_counterexample :
  unused_clients_ example_no_client_slot = []
  /\ length (clients_ example_no_client_slot) = 8%nat
  /\ Forall (fun c => driver c <> 0) (clients_ example_no_client_slot)
  /\ @RegisterClient unit nt_status example_CreateDriver 0x82000000 0x55
       example_no_client_slot = Faults
  /\ forall status index s',
       @RegisterClient unit nt_status example_CreateDriver 0x82000000 0x55
         example_no_client_slot <> Returns (status, index, s').
Proof.
  split; [vm_compute; reflexivity|].
  split; [vm_compute; reflexivity|].
  split; [vm_compute; repeat constructor; discriminate|].
  assert (E : @RegisterClient unit nt_status example_CreateDriver 0x82000000 0x55
                example_no_client_slot = Faults).
  { apply RegisterClient_no_free_slot. vm_compute. reflexivity. }
  split; [exact E|]. intros status index s'. rewrite E. discriminate.
Qed.

(** C9 at work: a full pool, a full client table, a driver that cannot be
    created, and a registration that succeeds. *)
Lemma exhaustion_reports_witness :
  all_in_use (xma_context_array_ example_full_pool)
  /\ AllocateXmaContext example_full_pool = (0, example_full_pool)
  /\ unused_clients_ example_no_client_slot = []
  /\ @RegisterClient unit nt_status example_CreateDriver 0x82000000 0x55
       example_no_client_slot = Faults
  /\ @RegisterClient unit nt_status failing_CreateDriver 0x82000000 0x55
       example_system
     = Returns (0xC0000001, None, ResetEvent 0 example_system)
  /\ exists s',
       @RegisterClient unit nt_status example_CreateDriver 0x82000000 0x55
         example_system
       = Returns (0, Some 0%nat, s')
       /\ unused_clients_ s' = [1; 2; 3; 4; 5; 6; 7]%nat.
Proof.
  assert (Hfull : all_in_use (xma_context_array_ example_full_pool))
    by (repeat constructor).
  assert (Hq : unused_clients_ example_no_client_slot = [])
    by (vm_compute; reflexivity).
  destruct (@exhaustion_reports unit nt_status) as (Halloc & Hnone & Hsome).
  split; [exact Hfull|].
  split; [exact (Halloc example_full_pool Hfull)|].
  split; [exact Hq|].
  split; [exact (Hnone example_CreateDriver 0x82000000 0x55 example_no_client_slot Hq)|].
  split.
  - exact (proj1 (Hsome failing_CreateDriver 0x82000000 0x55 example_system
                    0%nat [1; 2; 3; 4; 5; 6; 7]%nat eq_refl) eq_refl).
  - destruct (proj2 (Hsome example_CreateDriver 0x82000000 0x55 example_system
                       0%nat [1; 2; 3; 4; 5; 6; 7]%nat eq_refl) eq_refl)
      as (s' & E & Hrest & _).
    + vm_compute. discriminate.
    + exists s'. split; [exact E|exact Hrest].
Defined.

(** C10 at work: a write with a valid event and a valid file goes through;
    the same call with a zero event handle does not. *)
Lemma NtWriteFile_needs_event_witness :
  (exists ks',
      @xboxkrnl_io.NtWriteFile nt_status unit example_Write
        0x10 0x20 0 0 0 0x4000 16 0 example_kernel
      = Returns (0, ks')
      /\ xboxkrnl_io.writes unit ks' <> xboxkrnl_io.writes unit example_kernel)
  /\ 0x20 <> 0
  /\ (exists e, xboxkrnl_io.events unit example_kernel 0x20 = Some e)
  /\ @xboxkrnl_io.NtWriteFile nt_status unit example_Write
       0x10 0 0 0 0 0x4000 16 0 example_kernel
     = Returns (0xC0000008, example_kernel).
Proof.
  destruct (@NtWriteFile_needs_event nt_status unit example_Write) as [Hnull Hwrite].
  pose (r := @xboxkrnl_io.NtWriteFile nt_status unit example_Write
               0x10 0x20 0 0 0 0x4000 16 0 example_kernel).
  assert (Hshape : match r with
                   | Returns (result, ks') =>
                       result = 0 /\ xboxkrnl_io.writes unit ks' = [(0x10, 0x4000, 16, 18446744073709551615)]
                   | Faults => False
                   end)
    by (vm_compute; split; reflexivity).
  destruct r as [[result ks']|] eqn:E; [|contradiction].
  destruct Hshape as [-> Hw]. subst r.
  assert (Hne : xboxkrnl_io.writes unit ks' <> xboxkrnl_io.writes unit example_kernel)
    by (rewrite Hw; discriminate).
  destruct (Hwrite _ _ _ _ _ _ _ _ _ _ _ E Hne) as [Hh He].
  split; [exists ks'; split; [exact E|exact Hne]|].
  split; [exact Hh|]. split; [exact He|].
  exact (Hnull 0x10 0 0 0 0x4000 16 0 example_kernel).
Defined.

(** A call with a zero event handle does not always return
    [X_STATUS_INVALID_HANDLE]: given an APC routine, the shim's
    [assert_zero(apc_routine_ptr)] stops the call and no status is
    returned. *)
Lemma NtWriteFile_apc_counterexample :
  @xboxkrnl_io.NtWriteFile nt_status unit example_Write
    0x10 0 0x82001000 0 0 0x4000 16 0 example_kernel
  = Faults
  /\ forall result ks',
       @xboxkrnl_io.NtWriteFile nt_status unit example_Write
         0x10 0 0x82001000 0 0 0x4000 16 0 example_kernel
       <> Returns (result, ks').
Proof.
  assert (E : @xboxkrnl_io.NtWriteFile nt_status unit example_Write
                0x10 0 0x82001000 0 0 0x4000 16 0 example_kernel
              = Faults) by reflexivity.
  split; [exact E|]. intros result ks'. rewrite E. discriminate.
Qed.

(* ===================================================================== *)
(** * Further properties of the code *)
(* ===================================================================== *)

(** ** The layout of [XMA_CONTEXT_DATA] *)

(** Every bit of every one of the sixteen words lies in some field. *)
Lemma fields_cover_bits :
  forallb (fun i =>
    forallb (fun n =>
      existsb (fun f => (dword f =? i)%nat && (shift f <=? Z.of_nat n)
                        && (Z.of_nat n <? shift f + width f)) fields)
      (seq 0 32))
    (seq 0 16) = true.
Proof. vm_compute. reflexivity. Qed.

Lemma field_of_bit i n :
  (i < 16)%nat -> 0 <= n < 32 ->
  exists f, In f fields /\ dword f = i /\ shift f <= n < shift f + width f.
Proof.
  intros Hi Hn.
  pose proof fields_cover_bits as H.
  rewrite forallb_forall in H.
  specialize (H i). rewrite in_seq in H. specialize (H ltac:(lia)).
  rewrite forallb_forall in H.
  specialize (H (Z.to_nat n)). rewrite in_seq in H. specialize (H ltac:(lia)).
  apply existsb_exists in H. destruct H as (f & Hf & H).
  rewrite Z2Nat.id in H by lia.
  apply andb_true_iff in H. destruct H as [H H3].
  apply andb_true_iff in H. destruct H as [H1 H2].
  exists f. split; [exact Hf|].
  apply Nat.eqb_eq in H1. apply Z.leb_le in H2. apply Z.ltb_lt in H3.
  split; [exact H1 | lia].
Qed.

Lemma testbit_get f d n :
  0 <= shift f -> shift f <= n < shift f + width f ->
  Z.testbit (nth (dword f) d 0) n = Z.testbit (get f d) (n - shift f).
Proof.
  intros Hs Hn. unfold get.
  rewrite Z.land_spec, Z.shiftr_spec by lia.
  rewrite Z.ones_spec_low by lia.
  rewrite andb_true_r. f_equal. lia.
Qed.

(** A record is determined by its fields. *)
Lemma fields_determine_record d d' :
  wf d -> wf d' ->
  (forall f, In f fields -> get f d = get f d') -> d = d'.
Proof.
  intros [Hl Hr] [Hl' Hr'] H.
  apply nth_ext with (d := 0) (d' := 0); [congruence|].
  intros i Hi. rewrite Hl in Hi.
  assert (R : 0 <= nth i d 0 < 2 ^ 32).
  { rewrite Forall_forall in Hr. apply Hr, nth_In. lia. }
  assert (R' : 0 <= nth i d' 0 < 2 ^ 32).
  { rewrite Forall_forall in Hr'. apply Hr', nth_In. lia. }
  apply Z.bits_inj'. intros n Hn.
  destruct (Z_lt_le_dec n 32) as [Hlt|Hge].
  - destruct (field_of_bit i n Hi ltac:(lia)) as (f & Hf & Hd & Hb).
    pose proof (bitfield_ok_spec f (fields_ok f Hf)) as (Hs & _).
    subst i. rewrite !(testbit_get f) by assumption.
    rewrite (H f Hf). reflexivity.
  - rewrite (bits_above_range (nth i d 0) 32 n) by lia.
    rewrite (bits_above_range (nth i d' 0) 32 n) by lia.
    reflexivity.
Qed.

(** X1.  The bit-fields of [XMA_CONTEXT_DATA] tile the whole 64-byte
    record: every bit of the sixteen words belongs to a field, so two
    records that agree on every field are the same record, and so are the
    64 guest bytes that [Store] writes for them. *)
Theorem XMA_CONTEXT_DATA_fields_cover d d' m ptr :
  wf d -> wf d' ->
  (forall f, In f fields -> get f d = get f d') ->
  d = d' /\ forall a, Store d m ptr a = Store d' m ptr a.
Proof.
  intros Hd Hd' H.
  assert (E : d = d') by (apply fields_determine_record; assumption).
  split; [exact E|]. intros a. rewrite E. reflexivity.
Qed.

(** X2.  The field widths bound what the decoder computes from a record:
    the output size and offset never exceed [kOutputMaxSizeBytes], and
    with input buffer 1 empty the input size is at most 4095 packets, a
    position that [input_buffer_read_offset] (in bits, behind the 4-byte
    header) can still express. *)
Theorem buffer_sizes_fit data :
  0 <= output_size data <= kOutputMaxSizeBytes
  /\ 0 <= output_offset data <= kOutputMaxSizeBytes
  /\ output_size data mod kOutputBytesPerBlock = 0
  /\ (get input_buffer_1_block_count data = 0 ->
      0 <= input_size data <= 4095 * kBytesPerPacket
      /\ (input_size data + 4) * 8 < 2 ^ width input_buffer_read_offset).
Proof.
  pose proof (get_range output_buffer_block_count data eq_refl) as Hb.
  pose proof (get_range output_buffer_write_offset data eq_refl) as Hw.
  pose proof (get_range input_buffer_0_block_count data eq_refl) as Hp.
  change (2 ^ width output_buffer_block_count) with 32 in Hb.
  change (2 ^ width output_buffer_write_offset) with 32 in Hw.
  change (2 ^ width input_buffer_0_block_count) with 4096 in Hp.
  unfold output_size, output_offset, input_size, kOutputMaxSizeBytes,
    kOutputBytesPerBlock, kBytesPerPacket.
  change (2 ^ width input_buffer_read_offset) with 67108864.
  rewrite (size_t_small (get output_buffer_block_count data * 256)) by lia.
  rewrite (size_t_small (get output_buffer_write_offset data * 256)) by lia.
  split; [lia|]. split; [lia|]. split; [apply Z.mod_mul; lia|].
  intros E. rewrite E, Z.add_0_r.
  rewrite (size_t_small (get input_buffer_0_block_count data * 2048)) by lia.
  lia.
Qed.

(** X3.  [Store] writes the 64 bytes at its pointer and nothing else:
    every byte outside them keeps its value, so a record loaded from a
    location that does not overlap them is what it was before the
    store. *)
Theorem Store_frames_other_records d m p q :
  wf d ->
  q + 64 <= p \/ p + 64 <= q ->
  load (Store d m p) q = load m q
  /\ forall a, a < p \/ p + 64 <= a -> Store d m p a = m a.
Proof.
  intros Hd Hq. split.
  - apply load_ext. intros a Ha. apply Store_outside; [apply Hd | lia].
  - intros a Ha. apply Store_outside; [apply Hd | exact Ha].
Qed.

(** ** The context pool *)

Section PoolCoverage.
Context {D : Type} {AD : AudioDecoder D}.
Implicit Type s : AudioSystem D.
Implicit Type c : XMAContext D.

(** The result of [AllocateXmaContext] is read off the allocation state:
    the address of the first slot not in use, or zero. *)
Lemma allocate_scan_find (l : list (XMAContext D)) :
  match allocate_scan l with
  | Some (p, _) => p
  | None => 0
  end
  = match find (fun x : Z * bool => negb (snd x))
               (map (fun c => (guest_ptr c, in_use c)) l) with
    | Some x => fst x
    | None => 0
    end.
Proof.
  induction l as [|c l IH]; [reflexivity|].
  cbn [allocate_scan map find snd fst].
  destruct (in_use c); cbn [negb].
  - destruct (allocate_scan l) as [[p l']|]; exact IH.
  - reflexivity.
Qed.

Lemma AllocateXmaContext_find s :
  fst (AllocateXmaContext s)
  = match find (fun x : Z * bool => negb (snd x)) (pool_state s) with
    | Some x => fst x
    | None => 0
    end.
Proof.
  unfold AllocateXmaContext, pool_state.
  rewrite <- allocate_scan_find.
  destruct (allocate_scan (xma_context_array_ s)) as [[p l']|]; reflexivity.
Qed.

Lemma firstn_seq_min n : forall a len,
  firstn n (seq a len) = seq a (Nat.min n len).
Proof.
  induction n as [|n IH]; intros a len; [reflexivity|].
  destruct len as [|len]; [reflexivity|].
  cbn [seq firstn Nat.min]. rewrite IH. reflexivity.
Qed.

Lemma allocate_many_prefix n : forall s pre free,
  xma_context_array_ s = pre ++ free ->
  all_in_use pre ->
  Forall (fun c => in_use c = false) free ->
  fst (allocate_many n s)
  = map guest_ptr (firstn n free) ++ repeat 0 (n - length free).
Proof.
  induction n as [|n IH]; intros s pre free Hs Hpre Hfree; [reflexivity|].
  cbn [allocate_many].
  destruct free as [|c post].
  - assert (E : AllocateXmaContext s = (0, s)).
    { unfold AllocateXmaContext. rewrite allocate_scan_exhausted; [reflexivity|].
      rewrite Hs, app_nil_r. exact Hpre. }
    rewrite E.
    specialize (IH s pre [] Hs Hpre Hfree).
    destruct (allocate_many n s) as [ps s2]. cbn [fst] in *.
    rewrite IH. rewrite firstn_nil. cbn [map app length].
    rewrite !Nat.sub_0_r. reflexivity.
  - inversion Hfree as [|? ? Hc Hpost]; subst.
    assert (E : AllocateXmaContext s
                = (guest_ptr c, with_contexts s (pre ++ set_in_use true c :: post))).
    { unfold AllocateXmaContext. rewrite Hs.
      rewrite (allocate_scan_found pre c post Hpre Hc). reflexivity. }
    rewrite E.
    specialize (IH (with_contexts s (pre ++ set_in_use true c :: post))
                   (pre ++ [set_in_use true c]) post).
    destruct (allocate_many n _) as [ps s2]. cbn [fst] in *.
    rewrite IH.
    + reflexivity.
    + cbn [with_contexts xma_context_array_]. rewrite <- app_assoc. reflexivity.
    + apply Forall_app. split; [exact Hpre|].
      constructor; [reflexivity | constructor].
    + exact Hpost.
Qed.

(** X4.  After [Setup] the pool holds exactly [kXmaContextCount] slots,
    all free, at pairwise distinct guest addresses (the 32-bit
    wrap-around of [xma_context_array_ptr + i * kXmaContextSize]
    included); the rotating counter starts at 1, the worker is marked
    running and the client table is untouched. *)
Theorem Setup_lays_out_pool fresh s :
  length (xma_context_array_ (Setup fresh s)) = Z.to_nat kXmaContextCount
  /\ Forall (fun c => in_use c = false) (xma_context_array_ (Setup fresh s))
  /\ NoDup (map guest_ptr (xma_context_array_ (Setup fresh s)))
  /\ (forall i, (i < Z.to_nat kXmaContextCount)%nat ->
        option_map guest_ptr (nth_error (xma_context_array_ (Setup fresh s)) i)
        = Some (uint32 (xma_context_array_ptr (registers_ (Setup fresh s))
                        + Z.of_nat i * kXmaContextSize)))
  /\ next_context (registers_ (Setup fresh s)) = 1
  /\ worker_running_ (Setup fresh s) = true
  /\ clients_ (Setup fresh s) = clients_ s
  /\ unused_clients_ (Setup fresh s) = unused_clients_ s.
Proof.
  split; [apply Setup_state_ok|].
  split.
  { rewrite Setup_contexts. apply Forall_forall. intros c Hc.
    apply in_map_iff in Hc. destruct Hc as (i & <- & _). reflexivity. }
  split; [apply Setup_addresses_distinct|].
  split.
  { intros i Hi. rewrite Setup_contexts.
    rewrite nth_error_map.
    rewrite (nth_error_nth' _ 0%nat) by (rewrite length_seq; exact Hi).
    rewrite seq_nth by exact Hi. reflexivity. }
  repeat split.
Qed.

(** X5.  Allocating from the pool [Setup] laid out hands out the slot
    addresses in slot order: the first 320 calls return
    [xma_context_array_ptr + i * 64] for i = 0, 1, ..., and every later
    call returns 0. *)
Theorem allocate_all_after_Setup fresh s n :
  fst (allocate_many n (Setup fresh s))
  = map (fun i => uint32 (xma_context_array_ptr (registers_ (Setup fresh s))
                          + Z.of_nat i * kXmaContextSize))
        (seq 0 (Nat.min n (Z.to_nat kXmaContextCount)))
    ++ repeat 0 (n - Z.to_nat kXmaContextCount).
Proof.
  rewrite (allocate_many_prefix n (Setup fresh s) [] (xma_context_array_ (Setup fresh s))).
  - rewrite Setup_contexts. rewrite length_map, length_seq.
    f_equal. rewrite firstn_map, map_map, firstn_seq_min. reflexivity.
  - reflexivity.
  - constructor.
  - rewrite Setup_contexts. apply Forall_forall. intros c Hc.
    apply in_map_iff in Hc. destruct Hc as (i & <- & _). reflexivity.
Qed.

Lemma pool_state_release p s :
  pool_state (ReleaseXmaContext p s)
  = map (fun x : Z * bool => (fst x, snd x && negb (fst x =? p))) (pool_state s).
Proof.
  unfold ReleaseXmaContext, pool_state.
  pose proof (release_scan_slots p (xma_context_array_ s) (memory_ s)) as H.
  destruct (release_scan p (memory_ s) (xma_context_array_ s)) as [l mo].
  cbn [fst] in H. cbn [with_contexts xma_context_array_].
  rewrite H, map_map. reflexivity.
Qed.

Lemma memory_release p s :
  TranslateVirtual (memory_ (ReleaseXmaContext p s)) = TranslateVirtual (memory_ s)
  /\ forall a,
       bytes (memory_ (ReleaseXmaContext p s)) a
       = if existsb (fun c => guest_ptr c =? p) (xma_context_array_ s)
            && (TranslateVirtual (memory_ s) p <=? a)
            && (a <? TranslateVirtual (memory_ s) p + kXmaContextSize)
         then Byte.x00 else bytes (memory_ s) a.
Proof.
  unfold ReleaseXmaContext.
  pose proof (release_scan_memory p (xma_context_array_ s) (memory_ s)) as H.
  destruct (release_scan p (memory_ s) (xma_context_array_ s)) as [l mo].
  cbn [snd] in H. cbn [with_contexts with_memory memory_]. exact H.
Qed.

(** X6.  Releasing the address [AllocateXmaContext] has just returned
    undoes the allocation: with pairwise distinct slot addresses and a
    free slot to take, the pool's allocation state is what it was before
    the two calls, the next allocation returns the same address again,
    the 64 bytes of the guest record are zero and no other byte of guest
    memory has changed. *)
Theorem Release_after_Allocate s :
  NoDup (map guest_ptr (xma_context_array_ s)) ->
  ~ all_in_use (xma_context_array_ s) ->
  let p := fst (AllocateXmaContext s) in
  let s' := ReleaseXmaContext p (snd (AllocateXmaContext s)) in
  pool_state s' = pool_state s
  /\ fst (AllocateXmaContext s') = p
  /\ (forall a, TranslateVirtual (memory_ s) p <= a
                < TranslateVirtual (memory_ s) p + kXmaContextSize ->
                bytes (memory_ s') a = Byte.x00)
  /\ (forall a, a < TranslateVirtual (memory_ s) p
                \/ TranslateVirtual (memory_ s) p + kXmaContextSize <= a ->
                bytes (memory_ s') a = bytes (memory_ s) a).
Proof.
  intros Hnd Hfree p s'.
  pose proof (allocate_scan_inv (xma_context_array_ s)) as Hinv.
  assert (Hp : p = fst (AllocateXmaContext s)) by reflexivity.
  assert (Hs' : s' = ReleaseXmaContext p (snd (AllocateXmaContext s))) by reflexivity.
  clearbody p s'.
  unfold AllocateXmaContext in Hp, Hs'.
  destruct (allocate_scan (xma_context_array_ s)) as [[q l']|];
    [|contradiction].
  destruct Hinv as (pre & c & post & Hl & Hpre & Hc & Hq & Hl').
  cbn [fst snd] in Hp, Hs'. subst q l'.
  assert (Hpool : pool_state s' = pool_state s).
  { rewrite Hs', pool_state_release. unfold pool_state.
    cbn [with_contexts xma_context_array_]. rewrite Hl, map_map.
    assert (Hne : forall x, In x (pre ++ post) -> guest_ptr x <> p).
    { intros x Hx E. rewrite Hl in Hnd. rewrite Hp in E.
      assert (x = c).
      { apply (NoDup_map_app_middle guest_ptr pre c post x Hnd); [|exact E].
        apply in_app_or in Hx. apply in_or_app.
        destruct Hx; [left|right; right]; assumption. }
      subst x. rewrite map_app in Hnd. cbn [map] in Hnd.
      apply NoDup_remove_2 in Hnd. apply Hnd.
      rewrite <- map_app. apply in_map. exact Hx. }
    rewrite !map_app. cbn [map fst snd]. f_equal; [|f_equal].
    - apply map_ext_in. intros x Hx.
      assert (Hxu : in_use x = true).
      { unfold all_in_use in Hpre. rewrite Forall_forall in Hpre. auto. }
      assert (Hx' : guest_ptr x <> p) by (apply Hne, in_or_app; left; exact Hx).
      rewrite Hxu. apply Z.eqb_neq in Hx'. rewrite Hx'. reflexivity.
    - cbn [set_in_use guest_ptr in_use].
      rewrite Hp, Z.eqb_refl, Hc. reflexivity.
    - apply map_ext_in. intros x Hx.
      assert (Hx' : guest_ptr x <> p) by (apply Hne, in_or_app; right; exact Hx).
      apply Z.eqb_neq in Hx'. rewrite Hx', andb_true_r. reflexivity. }
  split; [exact Hpool|].
  split.
  { rewrite AllocateXmaContext_find, Hpool, <- AllocateXmaContext_find.
    unfold AllocateXmaContext. rewrite Hl.
    rewrite (allocate_scan_found pre c post Hpre Hc). cbn [fst]. congruence. }
  assert (Hex : existsb (fun c0 => guest_ptr c0 =? p)
                  (pre ++ set_in_use true c :: post) = true).
  { apply existsb_exists. exists (set_in_use true c).
    split; [apply in_or_app; right; left; reflexivity|].
    cbn [set_in_use guest_ptr]. rewrite Hp. apply Z.eqb_refl. }
  pose proof (memory_release p (with_contexts s (pre ++ set_in_use true c :: post)))
    as [_ Hm].
  rewrite <- Hs' in Hm.
  cbn [with_contexts xma_context_array_ memory_] in Hm.
  rewrite Hex in Hm. cbn [andb] in Hm.
  split; intros a Ha; rewrite Hm.
  - replace (TranslateVirtual (memory_ s) p <=? a) with true
      by (symmetry; apply Z.leb_le; lia).
    replace (a <? TranslateVirtual (memory_ s) p + kXmaContextSize) with true
      by (symmetry; apply Z.ltb_lt; lia).
    reflexivity.
  - destruct (Z.leb_spec (TranslateVirtual (memory_ s) p) a);
      destruct (Z.ltb_spec a (TranslateVirtual (memory_ s) p + kXmaContextSize));
      cbn [andb]; try reflexivity; lia.
Qed.

(** X7.  When the pool is exhausted, releasing the address of any slot
    makes exactly that slot available: the next [AllocateXmaContext]
    returns the released address, and the one after that returns 0
    again. *)
Theorem Release_then_Allocate_exhausted s c :
  NoDup (map guest_ptr (xma_context_array_ s)) ->
  all_in_use (xma_context_array_ s) ->
  In c (xma_context_array_ s) ->
  let s1 := ReleaseXmaContext (guest_ptr c) s in
  fst (AllocateXmaContext s1) = guest_ptr c
  /\ all_in_use (xma_context_array_ (snd (AllocateXmaContext s1)))
  /\ fst (AllocateXmaContext (snd (AllocateXmaContext s1))) = 0.
Proof.
  intros Hnd Hall Hin s1.
  assert (Hpool : pool_state s1
                  = map (fun x : XMAContext D =>
                           (guest_ptr x, negb (guest_ptr x =? guest_ptr c)))
                        (xma_context_array_ s)).
  { unfold s1. rewrite pool_state_release. unfold pool_state. rewrite map_map.
    apply map_ext_in. intros x Hx. cbn [fst snd].
    unfold all_in_use in Hall. rewrite Forall_forall in Hall.
    rewrite (Hall x Hx). reflexivity. }
  apply in_split in Hin. destruct Hin as (pre & post & Hl).
  assert (Hother : forall x, In x (pre ++ post) -> guest_ptr x <> guest_ptr c).
  { intros x Hx E. rewrite Hl in Hnd.
    assert (x = c).
    { apply (NoDup_map_app_middle guest_ptr pre c post x Hnd); [|exact E].
      apply in_app_or in Hx. apply in_or_app.
      destruct Hx; [left|right; right]; assumption. }
    subst x. rewrite map_app in Hnd. cbn [map] in Hnd.
    apply NoDup_remove_2 in Hnd. apply Hnd.
    rewrite <- map_app. apply in_map. exact Hx. }
  (* the slots of [s1]: those of [s], with [c]'s marked free *)
  assert (Hslots : exists pre1 c1 post1,
             xma_context_array_ s1 = pre1 ++ c1 :: post1
             /\ all_in_use pre1 /\ all_in_use post1
             /\ in_use c1 = false /\ guest_ptr c1 = guest_ptr c).
  { assert (Hlen : length (xma_context_array_ s1) = length (xma_context_array_ s)).
    { rewrite <- (length_map (fun c0 => (guest_ptr c0, in_use c0))).
      change (length (pool_state s1) = length (xma_context_array_ s)).
      rewrite Hpool. apply length_map. }
    assert (Hnth : forall i x1,
               nth_error (xma_context_array_ s1) i = Some x1 ->
               exists x, nth_error (xma_context_array_ s) i = Some x
                         /\ guest_ptr x1 = guest_ptr x
                         /\ in_use x1 = negb (guest_ptr x =? guest_ptr c)).
    { intros i x1 Hx1.
      assert (E : nth_error (pool_state s1) i = Some (guest_ptr x1, in_use x1)).
      { unfold pool_state. rewrite nth_error_map, Hx1. reflexivity. }
      rewrite Hpool, nth_error_map in E.
      destruct (nth_error (xma_context_array_ s) i) as [x|]; [|discriminate].
      exists x. split; [reflexivity|]. cbn [option_map] in E.
      injection E as E1 E2. split; congruence. }
    rewrite Hl in Hlen, Hnth.
    exists (firstn (length pre) (xma_context_array_ s1)).
    destruct (nth_error (xma_context_array_ s1) (length pre)) as [c1|] eqn:Ec1.
    2:{ apply nth_error_None in Ec1. rewrite Hlen, length_app in Ec1.
        cbn [length] in Ec1. lia. }
    exists c1, (skipn (S (length pre)) (xma_context_array_ s1)).
    split; [symmetry; apply firstn_skipn_middle; exact Ec1|].
    split.
    { apply Forall_forall. intros x1 Hx1.
      apply In_nth_error in Hx1. destruct Hx1 as (i & Hi).
      assert (Hlt : (i < length pre)%nat).
      { assert (nth_error (firstn (length pre) (xma_context_array_ s1)) i <> None)
          by congruence.
        apply nth_error_Some in H. rewrite length_firstn in H. lia. }
      rewrite nth_error_firstn in Hi.
      destruct (Nat.ltb_spec i (length pre)); [|lia].
      destruct (Hnth i x1 Hi) as (x & Hx & _ & Hu).
      rewrite nth_error_app1 in Hx by exact Hlt.
      apply nth_error_In in Hx.
      assert (Hne : guest_ptr x <> guest_ptr c)
        by (apply Hother, in_or_app; left; exact Hx).
      apply Z.eqb_neq in Hne. rewrite Hne in Hu. exact Hu. }
    split.
    { apply Forall_forall. intros x1 Hx1.
      apply In_nth_error in Hx1. destruct Hx1 as (i & Hi).
      rewrite nth_error_skipn in Hi.
      destruct (Hnth _ x1 Hi) as (x & Hx & _ & Hu).
      rewrite nth_error_app2 in Hx by lia.
      replace (S (length pre) + i - length pre)%nat with (S i) in Hx by lia.
      cbn [nth_error] in Hx. apply nth_error_In in Hx.
      assert (Hne : guest_ptr x <> guest_ptr c)
        by (apply Hother, in_or_app; right; exact Hx).
      apply Z.eqb_neq in Hne. rewrite Hne in Hu. exact Hu. }
    destruct (Hnth _ c1 Ec1) as (x & Hx & Hg & Hu).
    rewrite nth_error_app2 in Hx by lia. rewrite Nat.sub_diag in Hx.
    cbn [nth_error] in Hx. injection Hx as <-.
    rewrite Z.eqb_refl in Hu. split; assumption. }
  destruct Hslots as (pre1 & c1 & post1 & Hl1 & Hpre1 & Hpost1 & Hc1 & Hg1).
  assert (E1 : AllocateXmaContext s1
               = (guest_ptr c1, with_contexts s1 (pre1 ++ set_in_use true c1 :: post1))).
  { unfold AllocateXmaContext. rewrite Hl1.
    rewrite (allocate_scan_found pre1 c1 post1 Hpre1 Hc1). reflexivity. }
  rewrite E1. cbn [fst snd].
  assert (Hall1 : all_in_use (pre1 ++ set_in_use true c1 :: post1)).
  { apply Forall_app. split; [exact Hpre1|].
    constructor; [reflexivity | exact Hpost1]. }
  split; [exact Hg1|]. split; [exact Hall1|].
  unfold AllocateXmaContext. cbn [with_contexts xma_context_array_].
  rewrite (allocate_scan_exhausted _ Hall1). reflexivity.
Qed.

End PoolCoverage.

(** ** The register window *)

Section RegisterCoverage.
Context {D : Type} {AD : AudioDecoder D}.
Implicit Type s : AudioSystem D.
Implicit Type c : XMAContext D.

Lemma kick_context_register_file id s s' :
  kick_context id s = Returns s' -> register_file_ s' = register_file_ s.
Proof.
  unfold kick_context.
  destruct (nth_error (xma_context_array_ s) (Z.to_nat id)); [|discriminate].
  intros E.
  change (match Returns s' with
          | Returns x => register_file_ x
          | Faults => register_file_ s
          end = register_file_ s).
  rewrite <- E. reflexivity.
Qed.

Lemma kick_loop_register_file n : forall i value r s s',
  kick_loop n i value r s = Returns s' -> register_file_ s' = register_file_ s.
Proof.
  induction n as [|n IH]; intros i value r s s' E; cbn [kick_loop] in E.
  - injection E as <-. reflexivity.
  - destruct (value =? 0); [injection E as <-; reflexivity|].
    destruct (nonzero (Z.land value 1)).
    + destruct (kick_context (uint32 (i + (r - 6464) / 4 * 32)) s) as [s1|] eqn:K;
        [|discriminate].
      cbn [bind] in E. rewrite (IH _ _ _ _ _ E).
      exact (kick_context_register_file _ _ _ K).
    + cbn [bind] in E. exact (IH _ _ _ _ _ E).
Qed.

Lemma WriteRegister_register_file addr value s s' :
  WriteRegister addr value s = Returns s' ->
  forall k,
    register_file_ s' k
    = if k =? Z.land addr 0xFFFF / 4
      then uint32 (byte_swap (uint32 value))
      else register_file_ s k.
Proof.
  unfold WriteRegister.
  destruct (Z.land addr 65535 mod 4 =? 0); [|discriminate].
  change (assert_true true) with (Returns tt). cbn [bind].
  set (s0 := with_register_file s _).
  assert (H0 : forall k, register_file_ s0 k
                         = if k =? Z.land addr 0xFFFF / 4
                           then uint32 (byte_swap (uint32 value))
                           else register_file_ s k) by reflexivity.
  clearbody s0.
  destruct ((6464 <=? Z.land addr 65535) && (Z.land addr 65535 <=? 6464 + 9 * 4)).
  - intros E k. rewrite (kick_loop_register_file _ _ _ _ _ _ E). apply H0.
  - destruct ((6720 <=? Z.land addr 65535) && (Z.land addr 65535 <=? 6720 + 9 * 4));
      [|destruct ((6784 <=? Z.land addr 65535) && (Z.land addr 65535 <=? 6784 + 9 * 4))];
      intros E k; injection E as <-; apply H0.
Qed.

Lemma ReadRegister_plain addr s :
  Z.land addr 0xFFFF mod 4 = 0 ->
  Z.land addr 0xFFFF <> 0x1818 ->
  ReadRegister addr s
  = Returns (byte_swap (register_file_ s (Z.land addr 0xFFFF / 4)), s).
Proof.
  intros Ha Hr. unfold ReadRegister. rewrite Ha.
  change (assert_true (0 =? 0)) with (Returns tt). cbn [bind].
  apply Z.eqb_neq in Hr. rewrite Hr. reflexivity.
Qed.

(** X8.  A register reads back what was last written to it: after a
    word-aligned write of [value] to any register but the status register
    0x1818 (the kick, lock and clear command registers included), a read
    of the same register returns the low 32 bits of [value] and changes
    nothing; and the write is not seen by a read of any other register. *)
Theorem register_read_after_write addr value s :
  Z.land addr 0xFFFF mod 4 = 0 ->
  Z.land addr 0xFFFF <> 0x1818 ->
  length (xma_context_array_ s) = Z.to_nat kXmaContextCount ->
  exists s1,
    WriteRegister addr value s = Returns s1
    /\ ReadRegister addr s1 = Returns (uint32 value, s1)
    /\ forall addr',
         Z.land addr' 0xFFFF mod 4 = 0 ->
         Z.land addr' 0xFFFF <> 0x1818 ->
         Z.land addr' 0xFFFF <> Z.land addr 0xFFFF ->
         exists v, ReadRegister addr' s = Returns (v, s)
                   /\ ReadRegister addr' s1 = Returns (v, s1).
Proof.
  intros Ha Hr Hl.
  destruct (WriteRegister_returns addr value s Ha Hl) as (s1 & E & _ & _).
  exists s1. split; [exact E|].
  pose proof (WriteRegister_register_file _ _ _ _ E) as Hrf.
  split.
  - rewrite (ReadRegister_plain addr s1 Ha Hr), Hrf, Z.eqb_refl.
    rewrite byte_swap_uint32, byte_swap_involutive.
    unfold uint32. rewrite Z.mod_mod by lia. reflexivity.
  - intros addr' Ha' Hr' Hne.
    exists (byte_swap (register_file_ s (Z.land addr' 0xFFFF / 4))).
    split; [apply ReadRegister_plain; assumption|].
    rewrite (ReadRegister_plain addr' s1 Ha' Hr'), Hrf.
    replace (Z.land addr' 65535 / 4 =? Z.land addr 65535 / 4) with false;
      [reflexivity|].
    symmetry. apply Z.eqb_neq. intros Heq. apply Hne.
    rewrite (Z.div_mod (Z.land addr' 65535) 4), (Z.div_mod (Z.land addr 65535) 4) by lia.
    rewrite Ha, Ha', Heq. reflexivity.
Qed.

(** X9.  Register accesses are word accesses: a read returns exactly when
    the low 16 bits of the address are a multiple of 4, and so does a
    write to a pool of [kXmaContextCount] slots; any other access trips
    the alignment assertion. *)
Theorem register_access_alignment addr value s :
  length (xma_context_array_ s) = Z.to_nat kXmaContextCount ->
  ((exists r, ReadRegister addr s = Returns r) <-> Z.land addr 0xFFFF mod 4 = 0)
  /\ ((exists s', WriteRegister addr value s = Returns s')
      <-> Z.land addr 0xFFFF mod 4 = 0)
  /\ (Z.land addr 0xFFFF mod 4 <> 0 ->
      ReadRegister addr s = Faults /\ WriteRegister addr value s = Faults).
Proof.
  intros Hl.
  assert (Hf : Z.land addr 0xFFFF mod 4 <> 0 ->
               ReadRegister addr s = Faults /\ WriteRegister addr value s = Faults).
  { intros Hn. apply Z.eqb_neq in Hn.
    unfold ReadRegister, WriteRegister. rewrite Hn. split; reflexivity. }
  split; [|split].
  - split.
    + intros [r E]. destruct (Z.eq_dec (Z.land addr 0xFFFF mod 4) 0) as [|Hn];
        [assumption|].
      destruct (Hf Hn) as [F _]. congruence.
    + intros Ha. unfold ReadRegister. rewrite Ha.
      change (assert_true (0 =? 0)) with (Returns tt). cbn [bind].
      destruct (Z.land addr 65535 =? 6168); eexists; reflexivity.
  - split.
    + intros [r E]. destruct (Z.eq_dec (Z.land addr 0xFFFF mod 4) 0) as [|Hn];
        [assumption|].
      destruct (Hf Hn) as [_ F]. congruence.
    + intros Ha. destruct (WriteRegister_returns addr value s Ha Hl) as (s' & E & _).
      exists s'. exact E.
  - exact Hf.
Qed.

(** X10.  Outside the kick range a register write only stores the word:
    the context lock commands (0x1A40 .. 0x1A40+9*4), the context clear
    commands (0x1A80 .. 0x1A80+9*4) and every other register leave guest
    memory, the pool, the decoder fence and the clients as they were,
    whatever bits are written, and the register file changes at the word
    written and nowhere else.  The three words that [registers_] names
    are registers like the others: a write to 0x1800, 0x1818 or 0x181C
    replaces [xma_context_array_ptr], [current_context] or [next_context],
    and a write to any other register, the lock and clear commands
    included, leaves [registers_] as it was. *)
Theorem lock_and_clear_commands_inert addr value s :
  Z.land addr 0xFFFF mod 4 = 0 ->
  ~ (0x1940 <= Z.land addr 0xFFFF <= 0x1940 + 9 * 4) ->
  exists s',
    WriteRegister addr value s = Returns s'
    /\ memory_ s' = memory_ s
    /\ xma_context_array_ s' = xma_context_array_ s
    /\ decoder_fence_ s' = decoder_fence_ s
    /\ clients_ s' = clients_ s
    /\ unused_clients_ s' = unused_clients_ s
    /\ client_wait_handles_ s' = client_wait_handles_ s
    /\ (forall k, register_file_ s' k
                  = if k =? Z.land addr 0xFFFF / 4
                    then byte_swap (uint32 value)
                    else register_file_ s k)
    /\ registers_ s'
       = {| xma_context_array_ptr :=
              if Z.land addr 0xFFFF =? 0x1800 then byte_swap (uint32 value)
              else xma_context_array_ptr (registers_ s);
            current_context :=
              if Z.land addr 0xFFFF =? 0x1818 then byte_swap (uint32 value)
              else current_context (registers_ s);
            next_context :=
              if Z.land addr 0xFFFF =? 0x181C then byte_swap (uint32 value)
              else next_context (registers_ s) |}
    /\ (Z.land addr 0xFFFF <> 0x1800 -> Z.land addr 0xFFFF <> 0x1818 ->
        Z.land addr 0xFFFF <> 0x181C -> registers_ s' = registers_ s).
Proof.
  intros Ha Hr.
  assert (Hu : uint32 (byte_swap (uint32 value)) = byte_swap (uint32 value)).
  { unfold uint32 at 1. apply Z.mod_small, byte_swap_range. }
  set (s0 := with_register_file s
               (fun k => if k =? Z.land addr 0xFFFF / 4
                         then byte_swap (uint32 value)
                         else register_file_ s k)).
  assert (E : WriteRegister addr value s = Returns s0).
  { unfold WriteRegister. rewrite Ha.
    change (assert_true (0 =? 0)) with (Returns tt). cbn [bind].
    replace ((0x1940 <=? Z.land addr 0xFFFF) && (Z.land addr 0xFFFF <=? 0x1940 + 9 * 4))
      with false.
    2:{ symmetry. apply andb_false_iff.
        destruct (Z.leb_spec 0x1940 (Z.land addr 0xFFFF)); [right|left; reflexivity].
        apply Z.leb_gt. lia. }
    rewrite Hu.
    destruct ((6720 <=? Z.land addr 65535) && (Z.land addr 65535 <=? 6720 + 9 * 4));
      [|destruct ((6784 <=? Z.land addr 65535) && (Z.land addr 65535 <=? 6784 + 9 * 4))];
      reflexivity. }
  assert (Hw : forall a, a mod 4 = 0 ->
                 (a / 4 =? Z.land addr 0xFFFF / 4) = (Z.land addr 0xFFFF =? a)).
  { intros a Hm.
    destruct (Z.eqb_spec (Z.land addr 0xFFFF) a) as [->|Hne];
      [apply Z.eqb_refl|].
    apply Z.eqb_neq. intros Heq. apply Hne.
    rewrite (Z.div_mod (Z.land addr 65535) 4), (Z.div_mod a 4) by lia.
    rewrite Ha, Hm, Heq. reflexivity. }
  assert (Hreg : registers_ s0
       = {| xma_context_array_ptr :=
              if Z.land addr 0xFFFF =? 0x1800 then byte_swap (uint32 value)
              else xma_context_array_ptr (registers_ s);
            current_context :=
              if Z.land addr 0xFFFF =? 0x1818 then byte_swap (uint32 value)
              else current_context (registers_ s);
            next_context :=
              if Z.land addr 0xFFFF =? 0x181C then byte_swap (uint32 value)
              else next_context (registers_ s) |}).
  { unfold registers_, s0. cbn [with_register_file register_file_].
    rewrite !Hw by reflexivity. reflexivity. }
  exists s0. split; [exact E|].
  do 6 (split; [reflexivity|]).
  split; [intros k; reflexivity|].
  split; [exact Hreg|].
  intros H1 H2 H3. rewrite Hreg.
  apply Z.eqb_neq in H1, H2, H3. rewrite H1, H2, H3. reflexivity.
Qed.

(** X11.  Kicking is idempotent on the guest records: writing the same
    kick command a second time leaves the record of every context as the
    first write left it (only the decoder fence is signaled again). *)
Theorem kick_twice addr value s :
  Z.land addr 0xFFFF mod 4 = 0 ->
  0x1940 <= Z.land addr 0xFFFF <= 0x1940 + 9 * 4 ->
  length (xma_context_array_ s) = Z.to_nat kXmaContextCount ->
  records_disjoint s ->
  exists s1 s2,
    WriteRegister addr value s = Returns s1
    /\ WriteRegister addr value s1 = Returns s2
    /\ (forall n c, nth_error (xma_context_array_ s) n = Some c ->
                    context_data s2 c = context_data s1 c)
    /\ decoder_fence_ s2
       = (decoder_fence_ s
          + 2 * count_set_bits 32 (byte_swap (uint32 value)))%nat.
Proof.
  intros Ha Hr Hl Hd.
  assert (W : forall s0,
             length (xma_context_array_ s0) = Z.to_nat kXmaContextCount ->
             records_disjoint s0 ->
             exists s',
               WriteRegister addr value s0 = Returns s'
               /\ xma_context_array_ s' = xma_context_array_ s0
               /\ TranslateVirtual (memory_ s') = TranslateVirtual (memory_ s0)
               /\ decoder_fence_ s'
                  = (decoder_fence_ s0
                     + count_set_bits 32 (byte_swap (uint32 value)))%nat
               /\ forall n c,
                    nth_error (xma_context_array_ s0) n = Some c ->
                    if kicked (Z.land addr 0xFFFF) (byte_swap (uint32 value)) n
                    then kick_effect (context_data s0 c) (context_data s' c)
                    else forall a, in_record s0 c a ->
                                   bytes (memory_ s') a = bytes (memory_ s0) a).
  { intros s0 Hl0 Hd0. unfold WriteRegister. rewrite Ha.
    change (assert_true (0 =? 0)) with (Returns tt). cbn [bind].
    replace ((0x1940 <=? Z.land addr 0xFFFF) && (Z.land addr 0xFFFF <=? 0x1940 + 9 * 4))
      with true by (symmetry; apply andb_true_iff; split; apply Z.leb_le; lia).
    set (s0' := with_register_file s0 _).
    destruct (kick_loop_spec (Z.land addr 0xFFFF) 32 0 (byte_swap (uint32 value)) s0')
      as (s' & E & Harr & Ht & Hreg & Hf & H); auto; try lia.
    { apply byte_swap_range. }
    exists s'. split; [exact E|]. split; [exact Harr|]. split; [exact Ht|].
    split; [exact Hf|].
    intros n c Hc. specialize (H n c Hc). unfold kicked.
    rewrite !Z.add_0_r, Z.sub_0_r in H. exact H. }
  destruct (W s Hl Hd) as (s1 & E1 & Harr1 & Ht1 & Hf1 & H1).
  assert (Hl1 : length (xma_context_array_ s1) = Z.to_nat kXmaContextCount)
    by congruence.
  assert (Hd1 : records_disjoint s1)
    by (apply (records_disjoint_frame s s1); assumption).
  destruct (W s1 Hl1 Hd1) as (s2 & E2 & Harr2 & Ht2 & Hf2 & H2).
  exists s1, s2. split; [exact E1|]. split; [exact E2|]. split.
  - intros n c Hc.
    specialize (H1 n c Hc).
    rewrite <- Harr1 in Hc. specialize (H2 n c Hc).
    destruct (kicked (Z.land addr 65535) (byte_swap (uint32 value)) n).
    + destruct H1 as (A0 & A1 & Aw & Ao).
      destruct H2 as (B0 & B1 & Bw & Bo).
      apply fields_determine_record; [apply load_wf | apply load_wf |].
      intros f Hf.
      assert (P0 : get input_buffer_0_ptr (context_data s1 c)
                   = get input_buffer_0_ptr (context_data s c)).
      { apply Ao; [vm_compute; tauto|].
        intros [H|[H|[H|[]]]]; discriminate H. }
      assert (P1 : get input_buffer_1_ptr (context_data s1 c)
                   = get input_buffer_1_ptr (context_data s c)).
      { apply Ao; [vm_compute; tauto|].
        intros [H|[H|[H|[]]]]; discriminate H. }
      destruct (in_fields_dec f Hf input_buffer_0_valid ltac:(vm_compute; tauto))
        as [->|I0]; [rewrite B0, A0, P0; reflexivity|].
      destruct (in_fields_dec f Hf input_buffer_1_valid ltac:(vm_compute; tauto))
        as [->|I1]; [rewrite B1, A1, P1; reflexivity|].
      destruct (in_fields_dec f Hf output_buffer_write_offset ltac:(vm_compute; tauto))
        as [->|Iw]; [rewrite Bw, Aw; reflexivity|].
      apply Bo; [exact Hf|].
      intros [<-|[<-|[<-|[]]]]; discriminate.
    + apply context_data_frame; [exact Ht2|]. exact H2.
  - rewrite Hf2, Hf1. lia.
Qed.

End RegisterCoverage.

(** ** Clients *)

Lemma nth_list_set_other {A} i j (x d : A) l :
  i <> j -> nth i (list_set j x l) d = nth i l d.
Proof.
  revert i j. induction l as [|y l IH]; intros i j H; [destruct j; reflexivity|].
  destruct j, i; cbn [list_set nth]; try reflexivity; try congruence.
  apply IH. congruence.
Qed.

Lemma load_and_swap_store m p v :
  load_and_swap (store_and_swap m p v) p = uint32 v.
Proof.
  unfold load_and_swap, store_and_swap.
  pose proof (read_write_bytes m p (le_split 4 (byte_swap v))) as H.
  rewrite length_le_split in H. rewrite H.
  rewrite le_combine_split.
  change (byte_swap v mod 2 ^ (Z.of_nat 4 * 8)) with (uint32 (byte_swap v)).
  rewrite byte_swap_uint32. apply byte_swap_involutive.
Qed.

Section ClientCoverage.
Context {D : Type} {AD : AudioDecoder D} {XS : XStatus}.
Implicit Type s : AudioSystem D.

(** The two ways [RegisterClient] returns. *)
Lemma RegisterClient_cases CreateDriver callback0 callback_arg0 s :
  match RegisterClient CreateDriver callback0 callback_arg0 s with
  | Faults =>
      unused_clients_ s = []
      \/ exists index rest,
           unused_clients_ s = index :: rest
           /\ XFAILED (create_result (CreateDriver index false)) = false
           /\ created_driver (CreateDriver index false) = 0
  | Returns (result, out_index, s') =>
      exists index rest,
        unused_clients_ s = index :: rest
        /\ client_wait_handles_ s'
           = list_set index (wait_handle_signaled (CreateDriver index false))
               (client_wait_handles_ s)
        /\ xma_context_array_ s' = xma_context_array_ s
        /\ ((XFAILED (create_result (CreateDriver index false)) = true
             /\ result = create_result (CreateDriver index false)
             /\ out_index = None
             /\ clients_ s' = clients_ s
             /\ unused_clients_ s' = unused_clients_ s
             /\ memory_ s' = memory_ s)
            \/ (XFAILED (create_result (CreateDriver index false)) = false
                /\ created_driver (CreateDriver index false) <> 0
                /\ result = X_STATUS_SUCCESS /\ out_index = Some index
                /\ clients_ s'
                   = list_set index
                       {| driver := created_driver (CreateDriver index false);
                          callback := callback0;
                          callback_arg := callback_arg0;
                          wrapped_callback_arg :=
                            heap_results (memory_ s) (heap_allocs (memory_ s)) |}
                       (clients_ s)
                /\ unused_clients_ s' = rest
                /\ TranslateVirtual (memory_ s') = TranslateVirtual (memory_ s)
                /\ bytes (memory_ s')
                   = store_and_swap (bytes (memory_ s))
                       (TranslateVirtual (memory_ s)
                          (heap_results (memory_ s) (heap_allocs (memory_ s))))
                       callback_arg0))
  end.
Proof.
  destruct (unused_clients_ s) as [|index rest] eqn:Hq.
  { rewrite RegisterClient_no_free_slot by exact Hq. left. reflexivity. }
  rewrite (RegisterClient_free_slot _ _ _ _ _ _ Hq). cbv zeta.
  destruct (XFAILED (create_result (CreateDriver index false))) eqn:Hf.
  - exists index, rest.
    split; [reflexivity|]. split; [reflexivity|]. split; [reflexivity|].
    left. repeat split; solve [reflexivity | exact Hq | exact Hf].
  - destruct (nonzero (created_driver (CreateDriver index false))) eqn:Hn;
      cbn [assert_true bind].
    + exists index, rest.
      split; [reflexivity|]. split; [reflexivity|]. split; [reflexivity|].
      right.
      split; [first [reflexivity | exact Hf]|]. split.
      { unfold nonzero in Hn. apply negb_true_iff in Hn.
        apply Z.eqb_neq. exact Hn. }
      repeat split.
    + right. exists index, rest.
      split; [reflexivity|]. split; [first [reflexivity | exact Hf]|].
      unfold nonzero in Hn. apply negb_false_iff in Hn.
      apply Z.eqb_eq. exact Hn.
Qed.

(** X12.  The client table and the free queue stay in step.  The
    constructor establishes that the queue holds each index once and
    exactly the indices whose entry has no driver; [Setup], every
    [RegisterClient] that returns and every [UnregisterClient] of a
    registered client keep it so.  Hence [RegisterClient] never hands out
    the index of a registered client, and on success the entry at the
    returned index has a driver. *)
Theorem clients_table_invariant :
  (forall max_clients mo, clients_ok (@AudioSystem_new D max_clients mo))
  /\ (forall fresh s, clients_ok s -> clients_ok (Setup fresh s))
  /\ (forall CreateDriver callback0 callback_arg0 s result out_index s',
        clients_ok s ->
        RegisterClient CreateDriver callback0 callback_arg0 s
        = Returns (result, out_index, s') ->
        clients_ok s'
        /\ forall index, out_index = Some index ->
             driver (nth index (clients_ s) null_client) = 0
             /\ driver (nth index (clients_ s') null_client) <> 0
             /\ ~ In index (unused_clients_ s'))
  /\ (forall index s s',
        clients_ok s ->
        driver (nth index (clients_ s) null_client) <> 0 ->
        UnregisterClient index s = Returns s' ->
        clients_ok s').
Proof.
  split; [|split; [|split]].
  - intros max_clients mo. unfold clients_ok, maximum_client_count_.
    cbn [AudioSystem_new unused_clients_ clients_].
    split; [apply seq_NoDup|].
    intros i. rewrite in_seq, repeat_length. split.
    + intros H. split; [lia|].
      destruct (nth_in_or_default i (repeat null_client max_clients) null_client)
        as [Hin | ->]; [|reflexivity].
      apply repeat_spec in Hin. rewrite Hin. reflexivity.
    + intros [H _]. lia.
  - intros fresh s H. exact H.
  - intros CreateDriver callback0 callback_arg0 s result out_index s' [Hnd Hq] E.
    pose proof (RegisterClient_cases CreateDriver callback0 callback_arg0 s) as C.
    rewrite E in C.
    destruct C as (index & rest & Hu & _ & _ & [C|C]).
    + destruct C as (_ & _ & -> & Hc & Hu' & _).
      split; [|intros ? ?; discriminate].
      unfold clients_ok, maximum_client_count_. rewrite Hc, Hu'.
      split; [exact Hnd | exact Hq].
    + destruct C as (_ & Hd & _ & -> & Hc & Hu' & _).
      rewrite Hu in Hnd, Hq.
      assert (Hlt : (index < length (clients_ s))%nat).
      { apply (proj1 (Hq index)). left. reflexivity. }
      assert (Hni : ~ In index rest) by (inversion Hnd; assumption).
      split.
      * unfold clients_ok, maximum_client_count_. rewrite Hc, Hu'.
        rewrite length_list_set.
        split; [inversion Hnd; assumption|].
        intros i. split.
        -- intros Hi.
           assert (i <> index) by (intros ->; contradiction).
           rewrite nth_list_set_other by assumption.
           apply Hq. right. exact Hi.
        -- intros [Hi Hz].
           destruct (Nat.eq_dec i index) as [->|Hne].
           ++ rewrite nth_list_set_same in Hz by exact Hlt.
              cbn [driver] in Hz. contradiction.
           ++ rewrite nth_list_set_other in Hz by assumption.
              destruct (proj2 (Hq i) (conj Hi Hz)) as [Heq|Hin];
                [congruence | exact Hin].
      * intros i Hi. injection Hi as <-.
        split; [apply (proj1 (Hq index)); left; reflexivity|].
        rewrite Hc, Hu'. rewrite nth_list_set_same by exact Hlt.
        cbn [driver]. split; assumption.
  - intros index s s' [Hnd Hq] Hd. unfold UnregisterClient.
    destruct (index <? maximum_client_count_ s)%nat eqn:Hlt; [|discriminate].
    cbn [assert_true bind]. intros E.
    assert (Hc : clients_ s' = list_set index null_client (clients_ s)).
    { change (match Returns s' with Returns x => clients_ x | Faults => [] end
              = list_set index null_client (clients_ s)).
      rewrite <- E. reflexivity. }
    assert (Hu : unused_clients_ s' = unused_clients_ s ++ [index]).
    { change (match Returns s' with Returns x => unused_clients_ x | Faults => [] end
              = unused_clients_ s ++ [index]).
      rewrite <- E. reflexivity. }
    apply Nat.ltb_lt in Hlt. unfold maximum_client_count_ in Hlt.
    assert (Hni : ~ In index (unused_clients_ s)).
    { intros Hin. apply Hq in Hin. destruct Hin as [_ Hz]. contradiction. }
    unfold clients_ok, maximum_client_count_. rewrite Hc, Hu, length_list_set.
    split.
    + apply NoDup_app; [exact Hnd | repeat constructor; intros [] |].
      intros a Ha [<-|[]]. contradiction.
    + intros i. rewrite in_app_iff. split.
      * intros [Hi|[<-|[]]].
        -- assert (i <> index) by (intros ->; contradiction).
           rewrite nth_list_set_other by assumption. apply Hq. exact Hi.
        -- split; [exact Hlt|].
           rewrite nth_list_set_same by exact Hlt. reflexivity.
      * intros [Hi Hz].
        destruct (Nat.eq_dec i index) as [->|Hne]; [right; left; reflexivity|].
        rewrite nth_list_set_other in Hz by assumption.
        left. apply Hq. split; assumption.
Qed.

(** X13.  [RegisterClient] wraps the callback argument in guest memory:
    on success the client entry at the returned index holds the driver,
    the callback, the argument and the freshly allocated guest address,
    and the guest word at that address (big-endian) is the low 32 bits
    of the argument.  The client's wait handle was reset and then handed
    to [CreateDriver]: it is in the state in which [CreateDriver] left
    it, and the other wait handles are as they were. *)
Theorem RegisterClient_wraps_argument
    CreateDriver callback0 callback_arg0 s index s' :
  (index < maximum_client_count_ s)%nat ->
  (index < length (client_wait_handles_ s))%nat ->
  RegisterClient CreateDriver callback0 callback_arg0 s
  = Returns (X_STATUS_SUCCESS, Some index, s') ->
  let client := nth index (clients_ s') null_client in
  callback client = callback0
  /\ callback_arg client = callback_arg0
  /\ driver client = created_driver (CreateDriver index false)
  /\ wrapped_callback_arg client
     = heap_results (memory_ s) (heap_allocs (memory_ s))
  /\ load_and_swap (bytes (memory_ s'))
       (TranslateVirtual (memory_ s') (wrapped_callback_arg client))
     = uint32 callback_arg0
  /\ WaitForSingleObject (client_wait_handles_ s') index
     = wait_handle_signaled (CreateDriver index false)
  /\ forall i, i <> index ->
       WaitForSingleObject (client_wait_handles_ s') i
       = WaitForSingleObject (client_wait_handles_ s) i.
Proof.
  intros Hlt Hlh E client.
  pose proof (RegisterClient_cases CreateDriver callback0 callback_arg0 s) as C.
  rewrite E in C.
  destruct C as (index' & rest & Hu & Hh & _ & [C|C]).
  - destruct C as (_ & _ & C & _). discriminate C.
  - destruct C as (_ & Hd & _ & Hi & Hc & Hu' & Ht & Hb).
    injection Hi as <-.
    assert (Hcl : client
                  = {| driver := created_driver (CreateDriver index false);
                       callback := callback0;
                       callback_arg := callback_arg0;
                       wrapped_callback_arg :=
                         heap_results (memory_ s) (heap_allocs (memory_ s)) |}).
    { unfold client. rewrite Hc. apply nth_list_set_same. exact Hlt. }
    rewrite Hcl. cbn [callback callback_arg driver wrapped_callback_arg].
    split; [reflexivity|]. split; [reflexivity|]. split; [reflexivity|].
    split; [reflexivity|].
    split; [rewrite Ht, Hb; apply load_and_swap_store|].
    unfold WaitForSingleObject. rewrite Hh. split.
    + apply nth_list_set_same. exact Hlh.
    + intros i Hi. apply nth_list_set_other. exact Hi.
Qed.


End ClientCoverage.

(** ** The client worker *)

Lemma wait_returns_signaled handles : forall k,
  WaitForMultipleObjectsEx handles = Some k ->
  (k < length handles)%nat /\ nth k handles false = true.
Proof.
  induction handles as [|h rest IH]; intros k E; [discriminate|].
  cbn [WaitForMultipleObjectsEx] in E. destruct h.
  - injection E as <-. cbn [length nth]. split; [lia | reflexivity].
  - destruct (WaitForMultipleObjectsEx rest) as [k'|]; [|discriminate].
    injection E as <-. destruct (IH k' eq_refl) as [H1 H2].
    cbn [length nth]. split; [lia | exact H2].
Qed.

Lemma nth_firstn_below {A} (l : list A) n k d :
  (k < n)%nat -> nth k (firstn n l) d = nth k l d.
Proof.
  revert n k. induction l as [|x l IH]; intros n k H.
  - rewrite firstn_nil. reflexivity.
  - destruct n; [lia|]. destruct k; [reflexivity|].
    cbn [firstn nth]. apply IH. lia.
Qed.

Section WorkerCoverage.
Context {D : Type}.
Variable Execute : Z -> Z -> AudioSystem D -> AudioSystem D.
Implicit Type s : AudioSystem D.

Lemma pump_callbacks max fuel : forall index s,
  Forall (fun inv : invocation => snd (fst inv) <> 0)
         (snd (pump Execute max fuel index s)).
Proof.
  induction fuel as [|fuel IH]; intros index s; [constructor|].
  cbn [pump].
  destruct (nonzero (callback (nth index (clients_ s) null_client))) eqn:Hn.
  - set (s1 := Execute _ _ s).
    destruct ((S index <? max)%nat
              && WaitForSingleObject (client_wait_handles_ s1) (S index)).
    + specialize (IH (S index) s1).
      destruct (pump Execute max fuel (S index) s1) as [s2 more].
      cbn [snd] in *. constructor; [|exact IH].
      cbn [fst snd]. unfold nonzero in Hn. apply negb_true_iff in Hn.
      apply Z.eqb_neq. exact Hn.
    + cbn [snd]. constructor; [|constructor].
      cbn [fst snd]. unfold nonzero in Hn. apply negb_true_iff in Hn.
      apply Z.eqb_neq. exact Hn.
  - destruct ((S index <? max)%nat
              && WaitForSingleObject (client_wait_handles_ s) (S index)).
    + specialize (IH (S index) s).
      destruct (pump Execute max fuel (S index) s) as [s2 more].
      cbn [snd app] in *. exact IH.
    + constructor.
Qed.

(** X15.  The worker never runs a null callback: every guest callback
    it invokes, over any number of returns of the wait and whatever the
    callbacks themselves do to the audio system, has a non-zero
    address. *)
Theorem worker_never_invokes_null_callback wakes : forall s,
  Forall (fun inv : invocation => snd (fst inv) <> 0)
         (snd (WorkerThreadMain Execute wakes s)).
Proof.
  induction wakes as [|wakes IH]; intros s; [constructor|].
  cbn [WorkerThreadMain].
  destruct (worker_running_ s); [|constructor].
  unfold worker_iteration.
  destruct (WaitForMultipleObjectsEx _) as [result|]; [|constructor].
  destruct (result =? maximum_client_count_ s)%nat.
  - destruct (worker_running_ s); [|constructor].
    specialize (IH s).
    destruct (WorkerThreadMain Execute wakes s) as [s2 more]. exact IH.
  - pose proof (pump_callbacks (maximum_client_count_ s)
                  (maximum_client_count_ s - result) result s) as Hp.
    destruct (pump Execute (maximum_client_count_ s)
                (maximum_client_count_ s - result) result s) as [s1 invoked].
    cbn [snd] in Hp.
    destruct (worker_running_ s1); [|exact Hp].
    specialize (IH s1).
    destruct (WorkerThreadMain Execute wakes s1) as [s2 more].
    cbn [snd] in *. apply Forall_app. split; assumption.
Qed.

(** X16.  Without a signaled client handle the worker runs no guest
    code.  When only the extra handle behind the clients' handles is
    signaled (the one [Shutdown] sets) the wait returns, the trip
    through the run loop invokes nothing and leaves the audio system as
    it was; when no handle is signaled the wait does not return.  Either
    way the run loop, over any number of wake-ups, invokes no callback
    and changes nothing. *)
Theorem worker_without_client_signal s :
  (forall i, (i < maximum_client_count_ s)%nat ->
             WaitForSingleObject (client_wait_handles_ s) i = false) ->
  (WaitForSingleObject (client_wait_handles_ s) (maximum_client_count_ s) = true ->
   worker_iteration Execute s = Some (s, []))
  /\ (WaitForSingleObject (client_wait_handles_ s) (maximum_client_count_ s) = false ->
      worker_iteration Execute s = None)
  /\ forall wakes, WorkerThreadMain Execute wakes s = (s, []).
Proof.
  intros Hq. unfold WaitForSingleObject in *.
  assert (Hw : forall k,
             WaitForMultipleObjectsEx
               (firstn (S (maximum_client_count_ s)) (client_wait_handles_ s))
             = Some k ->
             k = maximum_client_count_ s
             /\ nth (maximum_client_count_ s) (client_wait_handles_ s) false = true).
  { intros k E. apply wait_returns_signaled in E. destruct E as [E1 E2].
    assert (Hk : (k < S (maximum_client_count_ s))%nat).
    { rewrite length_firstn in E1. lia. }
    rewrite nth_firstn_below in E2 by exact Hk.
    destruct (Nat.eq_dec k (maximum_client_count_ s)) as [->|Hne];
      [split; [reflexivity | exact E2]|].
    rewrite Hq in E2 by lia. discriminate. }
  assert (Hit : worker_iteration Execute s = Some (s, [])
                \/ worker_iteration Execute s = None).
  { unfold worker_iteration.
    destruct (WaitForMultipleObjectsEx _) as [k|] eqn:E; [|right; reflexivity].
    destruct (Hw k eq_refl) as [-> _]. rewrite Nat.eqb_refl. left. reflexivity. }
  split; [|split].
  - intros Hs. destruct Hit as [Hit|Hit]; [exact Hit|].
    exfalso. unfold worker_iteration in Hit.
    destruct (WaitForMultipleObjectsEx _) as [k|] eqn:E.
    + destruct (k =? maximum_client_count_ s)%nat; discriminate.
    + clear Hit Hw.
      assert (G : forall (l : list bool) n,
                 nth n l false = true ->
                 WaitForMultipleObjectsEx (firstn (S n) l) <> None).
      { induction l as [|h l IH]; intros n Hn.
        - destruct n; discriminate.
        - destruct h; cbn [firstn WaitForMultipleObjectsEx]; [discriminate|].
          destruct n; [discriminate|]. cbn [nth] in Hn.
          specialize (IH n Hn).
          destruct (WaitForMultipleObjectsEx (firstn (S n) l));
            [discriminate | congruence]. }
      exact (G _ _ Hs E).
  - intros Hs. destruct Hit as [Hit|Hit]; [|exact Hit].
    exfalso. unfold worker_iteration in Hit.
    destruct (WaitForMultipleObjectsEx _) as [k|] eqn:E; [|discriminate].
    destruct (Hw k eq_refl) as [_ Ht]. congruence.
  - induction wakes as [|wakes IH]; [reflexivity|].
    cbn [WorkerThreadMain].
    destruct (worker_running_ s) eqn:Hr; [|reflexivity].
    destruct Hit as [-> | ->]; [|reflexivity].
    rewrite Hr, IH. reflexivity.
Qed.

End WorkerCoverage.

(** ** The decoder thread *)

Section DecoderCoverage.
Context {D : Type} {AD : AudioDecoder D}.
Implicit Type mo : MemoryObject.
Implicit Type context : XMAContext D.

Lemma cleared_flags (d : XMA_CONTEXT_DATA.t) :
  length d = 16%nat ->
  let d' := set output_buffer_valid 0
              (set input_buffer_1_valid 0 (set input_buffer_0_valid 0 d)) in
  get input_buffer_0_valid d' = 0
  /\ get input_buffer_1_valid d' = 0
  /\ get output_buffer_valid d' = 0
  /\ get input_buffer_1_block_count d' = get input_buffer_1_block_count d.
Proof.
  intros Hl d'. unfold d'. split; [|split; [|split]].
  - rewrite !(get_set_other input_buffer_0_valid) by reflexivity.
    rewrite get_set_same by (reflexivity || exact Hl). reflexivity.
  - rewrite (get_set_other input_buffer_1_valid) by reflexivity.
    rewrite get_set_same by (reflexivity || rewrite length_set; exact Hl).
    reflexivity.
  - rewrite get_set_same by (reflexivity || rewrite !length_set; exact Hl).
    reflexivity.
  - rewrite !(get_set_other input_buffer_1_block_count) by reflexivity.
    reflexivity.
Qed.

Lemma nonzero_false z : nonzero z = false <-> z = 0.
Proof.
  unfold nonzero. rewrite negb_false_iff. apply Z.eqb_eq.
Qed.

(** A context that is locked, not in use, or has no input buffer marked
    valid is skipped. *)
Lemma process_context_skips fuel contended mo context :
  negb contended && in_use context
  && (nonzero (get input_buffer_0_valid
                 (load (bytes mo) (TranslatePhysical mo (guest_ptr context))))
      || nonzero (get input_buffer_1_valid
                    (load (bytes mo) (TranslatePhysical mo (guest_ptr context)))))
  = false ->
  process_context fuel contended mo context = Some (Returns (context, mo, [])).
Proof.
  unfold process_context.
  destruct contended; [reflexivity|].
  destruct (in_use context); [|reflexivity].
  cbn [negb andb]. intros ->. reflexivity.
Qed.

(** X17.  The decoder thread trips its assertion on a context exactly
    when the context is in use, not locked by someone else, has an input
    buffer marked valid, and names a non-zero block count for input
    buffer 1; in every other case where the context is skipped (locked,
    not in use, or no buffer valid) the context, guest memory and the
    decoder are left untouched. *)
Theorem decoder_asserts_buffer_1_unused fuel contended mo context :
  let data := load (bytes mo) (TranslatePhysical mo (guest_ptr context)) in
  let kicked_now :=
    negb contended && in_use context
    && (nonzero (get input_buffer_0_valid data)
        || nonzero (get input_buffer_1_valid data)) in
  (process_context fuel contended mo context = Some Faults
   <-> kicked_now = true /\ get input_buffer_1_block_count data <> 0)
  /\ (kicked_now = false ->
      process_context fuel contended mo context = Some (Returns (context, mo, []))).
Proof.
  intros data kicked_now. unfold kicked_now, process_context.
  fold data.
  pose proof (cleared_flags data (proj1 (load_wf _ _))) as (_ & _ & _ & Hb).
  cbv zeta in Hb.
  split; [|apply process_context_skips].
  destruct contended; cbn [negb andb].
  { split; [discriminate | intros [H _]; discriminate]. }
  destruct (in_use context); cbn [negb andb].
  2:{ split; [discriminate | intros [H _]; discriminate]. }
  destruct (nonzero (get input_buffer_0_valid data)
            || nonzero (get input_buffer_1_valid data)).
  2:{ split; [discriminate | intros [H _]; discriminate]. }
  rewrite Hb.
  destruct (nonzero (get input_buffer_1_block_count data)) eqn:Hn.
  - split; [|reflexivity]. intros _. split; [reflexivity|].
    intros E. apply nonzero_false in E. congruence.
  - apply nonzero_false in Hn.
    split; [|intros [_ H]; contradiction].
    destruct (decode_loop fuel _ _ _ _) as [[[[d' dec'] evs] m']|]; discriminate.
Qed.

Lemma decoder_scan_idle fuel contended : forall (l : list (XMAContext D)) n mo,
  (forall k c, nth_error l k = Some c ->
     contended (n + k)%nat = false -> in_use c = true ->
     get input_buffer_0_valid
       (load (bytes mo) (TranslatePhysical mo (guest_ptr c))) = 0
     /\ get input_buffer_1_valid
          (load (bytes mo) (TranslatePhysical mo (guest_ptr c))) = 0) ->
  decoder_scan fuel contended n mo l = Some (Returns (l, mo, [])).
Proof.
  induction l as [|c l IH]; intros n mo H; [reflexivity|].
  cbn [decoder_scan].
  assert (E : process_context fuel (contended n) mo c = Some (Returns (c, mo, []))).
  { apply process_context_skips.
    destruct (contended n) eqn:Hc; [reflexivity|].
    destruct (in_use c) eqn:Hu; [|reflexivity].
    destruct (H 0%nat c eq_refl) as [H0 H1];
      [rewrite Nat.add_0_r; exact Hc | exact Hu |].
    rewrite H0, H1. reflexivity. }
  rewrite E, IH; [reflexivity|].
  intros k c' Hc' Hk Hu. apply (H (S k) c' Hc'); [|exact Hu].
  rewrite Nat.add_succ_r. exact Hk.
Qed.

(** X18.  A wake-up of the decoder thread that finds no work does
    nothing: when every context that is in use and not locked has both
    input-valid flags clear, the scan over the pool returns having called
    no decoder, and guest memory, every slot and every decoder state are
    what they were.  This holds for any bound on the inner loop. *)
Theorem decoder_pass_without_kick fuel contended (s : AudioSystem D) :
  (forall n c, nth_error (xma_context_array_ s) n = Some c ->
     contended n = false -> in_use c = true ->
     get input_buffer_0_valid
       (load (bytes (memory_ s))
             (TranslatePhysical (memory_ s) (guest_ptr c))) = 0
     /\ get input_buffer_1_valid
          (load (bytes (memory_ s))
                (TranslatePhysical (memory_ s) (guest_ptr c))) = 0) ->
  exists s',
    DecoderThreadMain_pass fuel contended s = Some (Returns (s', []))
    /\ memory_ s' = memory_ s
    /\ xma_context_array_ s' = xma_context_array_ s
    /\ registers_ s' = registers_ s
    /\ decoder_fence_ s' = decoder_fence_ s.
Proof.
  intros H. unfold DecoderThreadMain_pass.
  rewrite (decoder_scan_idle fuel contended (xma_context_array_ s) 0 (memory_ s) H).
  eexists. split; [reflexivity|]. repeat split.
Qed.

End DecoderCoverage.

Section DecodeLoopCoverage.
Context {D : Type} {AD : AudioDecoder D}.
Implicit Type mo : MemoryObject.
Implicit Type context : XMAContext D.

(** X19.  A context is decoded once per kick.  Whatever a pass of the
    decoder thread over a context did, it leaves the record in guest
    memory with both input-valid flags clear when the context is in use,
    so a further pass over the same context (before the next kick) calls
    no decoder and changes nothing. *)
Theorem context_decoded_once_per_kick fuel mo context context' mo' evs :
  process_context fuel false mo context = Some (Returns (context', mo', evs)) ->
  (in_use context = true ->
   get input_buffer_0_valid
     (load (bytes mo') (TranslatePhysical mo' (guest_ptr context'))) = 0
   /\ get input_buffer_1_valid
        (load (bytes mo') (TranslatePhysical mo' (guest_ptr context'))) = 0)
  /\ forall fuel' contended',
       process_context fuel' contended' mo' context'
       = Some (Returns (context', mo', [])).
Proof.
  intros H.
  assert (G : in_use context' = true ->
              get input_buffer_0_valid
                (load (bytes mo') (TranslatePhysical mo' (guest_ptr context'))) = 0
              /\ get input_buffer_1_valid
                   (load (bytes mo') (TranslatePhysical mo' (guest_ptr context'))) = 0).
  { revert H. unfold process_context. cbn [negb].
    destruct (in_use context) eqn:Hu; cbn [negb].
    2:{ intros E. injection E as <- <- <-. congruence. }
    set (ptr := TranslatePhysical mo (guest_ptr context)).
    destruct (nonzero (get input_buffer_0_valid (load (bytes mo) ptr))
              || nonzero (get input_buffer_1_valid (load (bytes mo) ptr))) eqn:Hv.
    2:{ intros E. injection E as <- <- <-. intros _.
        apply orb_false_iff in Hv. destruct Hv as [H0 H1].
        apply nonzero_false in H0, H1. fold ptr. split; assumption. }
    pose proof (cleared_flags (load (bytes mo) ptr) (proj1 (load_wf _ _)))
      as (C0 & C1 & _ & _).
    cbv zeta in C0, C1.
    set (data := set output_buffer_valid 0 _) in *.
    assert (Hwf : wf data).
    { unfold data. repeat (apply set_wf; [reflexivity|]). apply load_wf. }
    destruct (nonzero (get input_buffer_1_block_count data)); [discriminate|].
    destruct (decode_loop fuel _ _ _ (data, decoder context))
      as [[[[data' dec'] evs'] m']|] eqn:L; [|discriminate].
    intros E _.
    assert (Ec : context' = set_decoder dec' context).
    { change (match Some (Returns (context', mo', evs)) with
              | Some (Returns (c, _, _)) => c
              | _ => context
              end = set_decoder dec' context).
      rewrite <- E. reflexivity. }
    assert (Em : mo' = with_bytes mo (Store data' m' ptr)).
    { change (match Some (Returns (context', mo', evs)) with
              | Some (Returns (_, m, _)) => m
              | _ => mo
              end = with_bytes mo (Store data' m' ptr)).
      rewrite <- E. reflexivity. }
    destruct (decode_loop_fields _ _ _ _ _ _ _ _ _ _ Hwf L) as [Hwf' Hf].
    rewrite Ec, Em.
    cbn [with_bytes TranslatePhysical bytes set_decoder guest_ptr].
    fold ptr. rewrite (load_Store data' m' ptr Hwf').
    rewrite !Hf by (try (vm_compute; tauto); discriminate).
    split; assumption. }
  assert (Hu : in_use context' = in_use context).
  { revert H. unfold process_context. cbn [negb].
    destruct (in_use context) eqn:Hu; cbn [negb].
    2:{ intros E. injection E as <- <- <-. exact Hu. }
    destruct (_ || _).
    2:{ intros E. injection E as <- <- <-. exact Hu. }
    destruct (nonzero _); [discriminate|].
    destruct (decode_loop fuel _ _ _ _) as [[[[data' dec'] evs'] m']|];
      [|discriminate].
    intros E.
    change (in_use (match Some (Returns (context', mo', evs)) with
                    | Some (Returns (c, _, _)) => c
                    | _ => context
                    end) = true).
    rewrite <- E. exact Hu. }
  split.
  - intros Hi. apply G. congruence.
  - intros fuel' contended'. apply process_context_skips.
    destruct contended'; [reflexivity|].
    destruct (in_use context') eqn:Hc; [|reflexivity].
    destruct (G eq_refl) as [-> ->]. reflexivity.
Qed.

(** The output side of one trip through the loop body, for a decoder
    that writes no more than the window it is given. *)
Lemma decode_iteration_output in0 out m data (dec : D) :
  (forall d m o offset size,
      decode_result (DecodePacket d m o offset size) <= size) ->
  length data = 16%nat ->
  get output_buffer_write_offset data <= get output_buffer_block_count data ->
  match fst (decode_iteration in0 out m (data, dec)) with
  | (Break st', evs) =>
      fst st' = data
      /\ Forall (window_ends_at out (output_size data)) evs
  | (Continue st', evs) =>
      length (fst st') = 16%nat
      /\ get output_buffer_block_count (fst st')
         = get output_buffer_block_count data
      /\ get output_buffer_write_offset (fst st')
         = get output_buffer_write_offset data
           + decode_result
               (DecodePacket dec m out (output_offset data) (output_remaining data))
             / kOutputBytesPerBlock
      /\ get output_buffer_write_offset (fst st')
         <= get output_buffer_block_count data
      /\ 0 <= decode_result
                (DecodePacket dec m out (output_offset data) (output_remaining data))
      /\ Forall (window_ends_at out (output_size data)) evs
  end.
Proof.
  intros Hdec Hl Hw.
  pose proof (get_range output_buffer_block_count data eq_refl) as Hb.
  pose proof (get_range output_buffer_write_offset data eq_refl) as Ho.
  change (2 ^ width output_buffer_block_count) with 32 in Hb.
  change (2 ^ width output_buffer_write_offset) with 32 in Ho.
  assert (Es : output_size data = 256 * get output_buffer_block_count data).
  { unfold output_size. rewrite size_t_small by lia. lia. }
  assert (Eo : output_offset data = 256 * get output_buffer_write_offset data).
  { unfold output_offset. rewrite size_t_small by lia. lia. }
  assert (Er : output_remaining data
               = 256 * (get output_buffer_block_count data
                        - get output_buffer_write_offset data)).
  { unfold output_remaining. rewrite Es, Eo. rewrite size_t_small by lia. lia. }
  unfold decode_iteration.
  destruct (input_remaining data =? 0); [cbn [fst]; split; [reflexivity|constructor]|].
  destruct (output_remaining data =? 0) eqn:Hz;
    [cbn [fst]; split; [reflexivity|constructor]|].
  apply Z.eqb_neq in Hz.
  specialize (Hdec dec m out (output_offset data) (output_remaining data)).
  cbv zeta.
  set (read := decode_result
                 (DecodePacket dec m out (output_offset data)
                    (output_remaining data))) in *.
  assert (Hcall : window_ends_at out (output_size data)
                    (EvDecodePacket out (output_offset data)
                       (output_remaining data) read)).
  { cbn [window_ends_at]. rewrite Es, Eo, Er. repeat split; lia. }
  destruct (read <? 0) eqn:Hneg.
  { cbn [fst]. split; [reflexivity|].
    constructor; [exact Hcall|]. repeat constructor. }
  apply Z.ltb_ge in Hneg.
  assert (Ediv : size_t (output_offset data + read) / 256
                 = get output_buffer_write_offset data + read / 256).
  { rewrite size_t_small by lia. rewrite Eo.
    rewrite Z.add_comm, Z.mul_comm, Z.div_add by lia. lia. }
  assert (Hle : read / 256
                <= get output_buffer_block_count data
                   - get output_buffer_write_offset data).
  { apply Z.div_le_upper_bound; lia. }
  assert (Hge : 0 <= read / 256) by (apply Z.div_pos; lia).
  destruct (read =? 0); cbn [fst];
    rewrite !length_set;
    (split; [exact Hl|]);
    (split; [rewrite !(get_set_other output_buffer_block_count) by reflexivity;
             reflexivity|]);
    rewrite get_set_same by (reflexivity || rewrite length_set; exact Hl);
    rewrite Ediv;
    rewrite land_ones_small
      by (change (2 ^ width output_buffer_write_offset) with 32; lia);
    (split; [reflexivity|]); (split; [lia|]); (split; [exact Hneg|]);
    constructor; try exact Hcall; repeat constructor.
Qed.

(** X20.  The decoder is never handed a window past the end of the
    output buffer.  For any decoder that writes no more than the window
    it is given, starting from a record whose write offset does not
    exceed its block count, every [DecodePacket] call of the inner loop is
    made on the record's output buffer with a non-empty window that ends
    exactly at [output_buffer_block_count * 256]; the loop keeps the
    block count and leaves a write offset that still does not exceed
    it. *)
Theorem decode_windows_end_at_buffer_end fuel in0 out :
  (forall d m o offset size,
      decode_result (DecodePacket d m o offset size) <= size) ->
  forall m data (dec : D) data' dec' evs m',
    length data = 16%nat ->
    get output_buffer_write_offset data <= get output_buffer_block_count data ->
    decode_loop fuel in0 out m (data, dec) = Some (data', dec', evs, m') ->
    Forall (window_ends_at out (output_size data)) evs
    /\ get output_buffer_block_count data' = get output_buffer_block_count data
    /\ get output_buffer_write_offset data <= get output_buffer_write_offset data'
       <= get output_buffer_block_count data.
Proof.
  intros Hdec.
  induction fuel as [|fuel IH]; intros m data dec data' dec' evs m' Hl Hw H;
    [discriminate|].
  rewrite decode_loop_S in H.
  pose proof (decode_iteration_output in0 out m data dec Hdec Hl Hw) as Hit.
  destruct (decode_iteration in0 out m (data, dec))
    as [[[[d1 c1]|[d1 c1]] evs1] m1]; cbn [fst] in Hit.
  - injection H as <- <- <- <-. destruct Hit as [-> Hf].
    split; [exact Hf|]. split; [reflexivity|lia].
  - destruct Hit as (Hl1 & Hb1 & Hw1 & Hle1 & Hr1 & Hf1).
    destruct (decode_loop fuel in0 out m1 (d1, c1)) as [[[[d2 c2] evs2] m2]|] eqn:E;
      [|discriminate].
    injection H as <- <- <- <-.
    destruct (IH m1 d1 c1 d2 c2 evs2 m2 Hl1 ltac:(lia) E) as (Hf2 & Hb2 & Hw2).
    assert (Es : output_size d1 = output_size data).
    { unfold output_size. rewrite Hb1. reflexivity. }
    rewrite Es in Hf2.
    split; [apply Forall_app; split; assumption|].
    split; [congruence|].
    assert (0 <= decode_result
                   (DecodePacket dec m out (output_offset data)
                      (output_remaining data)) / kOutputBytesPerBlock)
      by (apply Z.div_pos; [exact Hr1 | reflexivity]).
    lia.
Qed.


End DecodeLoopCoverage.

Section LastPacket.
Context {D : Type} {AD : AudioDecoder D}.

Lemma input_quantities (data : XMA_CONTEXT_DATA.t) consumed :
  get input_buffer_1_block_count data = 0 ->
  get input_buffer_read_offset data = (2048 * consumed + 4) * 8 ->
  0 <= consumed <= get input_buffer_0_block_count data ->
  input_offset data = 2048 * consumed
  /\ input_remaining data
     = 2048 * (get input_buffer_0_block_count data - consumed).
Proof.
  intros H1 Hr Hc.
  pose proof (get_range input_buffer_0_block_count data eq_refl) as Hp.
  change (2 ^ width input_buffer_0_block_count) with 4096 in Hp.
  assert (Eo : input_offset data = 2048 * consumed).
  { unfold input_offset. rewrite Hr, Z.div_mul by lia.
    rewrite size_t_small by lia. lia. }
  split; [exact Eo|].
  unfold input_remaining. rewrite Eo. unfold input_size. rewrite H1, Z.add_0_r.
  rewrite (size_t_small (_ * 2048)) by lia. rewrite size_t_small by lia. lia.
Qed.

(** The input side of one trip through the loop body: it either leaves
    the read position where it was, or prepares the packet at the read
    position and moves one packet on. *)
Lemma decode_iteration_input in0 out m data (dec : D) consumed :
  length data = 16%nat ->
  get input_buffer_1_block_count data = 0 ->
  get input_buffer_read_offset data = (2048 * consumed + 4) * 8 ->
  0 <= consumed < get input_buffer_0_block_count data ->
  match fst (decode_iteration in0 out m (data, dec)) with
  | (Break st', evs) => fst st' = data
  | (Continue st', evs) =>
      length (fst st') = 16%nat
      /\ get input_buffer_0_block_count (fst st')
         = get input_buffer_0_block_count data
      /\ get input_buffer_1_block_count (fst st') = 0
      /\ ((get input_buffer_read_offset (fst st') = (2048 * consumed + 4) * 8
           /\ exists call, evs = [call])
          \/ (get input_buffer_read_offset (fst st')
              = (2048 * (consumed + 1) + 4) * 8
              /\ exists call sample_rate channels,
                   evs = [call;
                          EvPreparePacket (size_t (in0 + 2048 * consumed)) 2048
                                          sample_rate channels]))
  end.
Proof.
  intros Hl H1 Hr Hc.
  pose proof (get_range input_buffer_0_block_count data eq_refl) as Hp.
  change (2 ^ width input_buffer_0_block_count) with 4096 in Hp.
  destruct (input_quantities data consumed H1 Hr ltac:(lia)) as [Eo Erem].
  unfold decode_iteration.
  destruct (input_remaining data =? 0); [reflexivity|].
  destruct (output_remaining data =? 0); [reflexivity|].
  cbv zeta.
  destruct (decode_result _ <? 0); [reflexivity|].
  destruct (decode_result _ =? 0); cbn [fst];
    rewrite !length_set;
    (split; [exact Hl|]);
    (split; [rewrite !(get_set_other input_buffer_0_block_count) by reflexivity;
             reflexivity|]);
    (split; [rewrite !(get_set_other input_buffer_1_block_count) by reflexivity;
             exact H1|]);
    rewrite (get_set_other input_buffer_read_offset) by reflexivity;
    rewrite get_set_same by (reflexivity || exact Hl);
    rewrite Eo.
  - right. split.
    + rewrite (size_t_small (2048 * consumed + 2048)) by lia.
      rewrite size_t_small by lia.
      rewrite land_ones_small
        by (change (2 ^ width input_buffer_read_offset) with 67108864; lia).
      lia.
    + eexists _, _, _. reflexivity.
  - left. split.
    + rewrite size_t_small by lia.
      rewrite land_ones_small
        by (change (2 ^ width input_buffer_read_offset) with 67108864; lia).
      reflexivity.
    + eexists. reflexivity.
Qed.

Lemma decode_loop_input_done fuel in0 out m data (dec : D) r :
  input_remaining data = 0 ->
  decode_loop fuel in0 out m (data, dec) = Some r ->
  r = (data, dec, [], m).
Proof.
  intros H0 E. destruct fuel as [|fuel]; [discriminate|].
  rewrite decode_loop_S in E. unfold decode_iteration in E.
  rewrite H0 in E. cbn [Z.eqb] in E. congruence.
Qed.

(** X22.  When the inner loop ends because the input is used up, the
    last thing it did was to hand the last packet of the buffer to
    [PreparePacket]: no [DecodePacket] call follows, so the samples of the
    last packet are not fetched in that pass.  (For any decoder; the read
    position is [consumed] whole packets into input buffer 0, behind the
    4-byte header, and at least one packet is left.) *)
Theorem last_packet_is_prepared_not_decoded fuel in0 out :
  forall m data (dec : D) consumed data' dec' evs m',
    length data = 16%nat ->
    get input_buffer_1_block_count data = 0 ->
    get input_buffer_read_offset data = (2048 * consumed + 4) * 8 ->
    0 <= consumed < get input_buffer_0_block_count data ->
    decode_loop fuel in0 out m (data, dec) = Some (data', dec', evs, m') ->
    input_remaining data' = 0 ->
    exists before sample_rate channels,
      evs = before
            ++ [EvPreparePacket
                  (size_t (in0 + kBytesPerPacket
                                 * (get input_buffer_0_block_count data - 1)))
                  kBytesPerPacket sample_rate channels].
Proof.
  induction fuel as [|fuel IH];
    intros m data dec consumed data' dec' evs m' Hl H1 Hr Hc H Hdone;
    [discriminate|].
  rewrite decode_loop_S in H.
  pose proof (decode_iteration_input in0 out m data dec consumed Hl H1 Hr Hc) as Hit.
  destruct (input_quantities data consumed H1 Hr ltac:(lia)) as [_ Erem].
  destruct (decode_iteration in0 out m (data, dec))
    as [[[[d1 c1]|[d1 c1]] evs1] m1]; cbn [fst] in Hit.
  - (* a break with input left contradicts [Hdone] *)
    injection H as <- <- <- <-. subst d1. lia.
  - destruct Hit as (Hl1 & Hp1 & H11 & Hit).
    destruct (decode_loop fuel in0 out m1 (d1, c1)) as [[[[d2 c2] evs2] m2]|] eqn:E;
      [|discriminate].
    injection H as <- <- <- <-.
    destruct Hit as [(Hr1 & call & ->)|(Hr1 & call & rate & ch & ->)].
    + destruct (IH m1 d1 c1 consumed d2 c2 evs2 m2 Hl1 H11 Hr1 ltac:(lia) E Hdone)
        as (before & rate & ch & ->).
      exists ([call] ++ before), rate, ch.
      rewrite Hp1, <- app_assoc. reflexivity.
    + destruct (Z.eq_dec (consumed + 1) (get input_buffer_0_block_count data))
        as [Hlast|Hmore].
      * assert (Hz : input_remaining d1 = 0).
        { destruct (input_quantities d1 (consumed + 1) H11 Hr1 ltac:(lia))
            as [_ Er1].
          rewrite Er1. lia. }
        pose proof (decode_loop_input_done _ _ _ _ _ _ _ Hz E) as R.
        injection R as _ _ -> _.
        exists [call], rate, ch. rewrite app_nil_r.
        unfold kBytesPerPacket.
        replace (get input_buffer_0_block_count data - 1) with consumed by lia.
        reflexivity.
      * destruct (IH m1 d1 c1 (consumed + 1) d2 c2 evs2 m2 Hl1 H11 Hr1 ltac:(lia) E Hdone)
          as (before & rate' & ch' & ->).
        exists ([call; EvPreparePacket (size_t (in0 + 2048 * consumed)) 2048 rate ch]
                ++ before), rate', ch'.
        rewrite Hp1, <- app_assoc. reflexivity.
Qed.

End LastPacket.

(** ** The file shims *)

Lemma load_and_swap_SHIM_SET_MEM_32 F (ks : xboxkrnl_io.KernelState F) a v :
  load_and_swap (xboxkrnl_io.guest_memory F (xboxkrnl_io.SHIM_SET_MEM_32 F ks a v)) a
  = uint32 v.
Proof.
  unfold load_and_swap, xboxkrnl_io.SHIM_SET_MEM_32.
  cbn [xboxkrnl_io.guest_memory].
  pose proof (read_write_bytes (xboxkrnl_io.guest_memory F ks) a (rev (le_split 4 v)))
    as H.
  rewrite length_rev, length_le_split in H. rewrite H.
  rewrite byte_swap_le_combine by (rewrite length_rev; apply length_le_split).
  rewrite rev_involutive, le_combine_split. reflexivity.
Qed.

Lemma load_and_swap_frame (m m' : Memory) a :
  (forall x, a <= x < a + 4 -> m' x = m x) ->
  load_and_swap m' a = load_and_swap m a.
Proof.
  intros H. unfold load_and_swap. f_equal. f_equal.
  apply read_bytes_ext. intros x Hx. apply H. cbn in Hx. lia.
Qed.

(** The I/O status block as the shims write it: status, then
    information. *)
Lemma status_block_written F (ks : xboxkrnl_io.KernelState F) a result info :
  let ks' := xboxkrnl_io.SHIM_SET_MEM_32 F
               (xboxkrnl_io.SHIM_SET_MEM_32 F ks a result) (a + 4) info in
  load_and_swap (xboxkrnl_io.guest_memory F ks') a = uint32 result
  /\ load_and_swap (xboxkrnl_io.guest_memory F ks') (a + 4) = uint32 info
  /\ xboxkrnl_io.events F ks' = xboxkrnl_io.events F ks
  /\ xboxkrnl_io.files F ks' = xboxkrnl_io.files F ks
  /\ xboxkrnl_io.writes F ks' = xboxkrnl_io.writes F ks
  /\ forall x, x < a \/ a + 8 <= x ->
       xboxkrnl_io.guest_memory F ks' x = xboxkrnl_io.guest_memory F ks x.
Proof.
  intros ks'. split; [|split; [|split; [|split; [|split]]]];
    try reflexivity.
  - rewrite <- (load_and_swap_SHIM_SET_MEM_32 F ks a result).
    apply load_and_swap_frame. intros x Hx.
    unfold ks', xboxkrnl_io.SHIM_SET_MEM_32 at 1.
    cbn [xboxkrnl_io.guest_memory].
    apply write_bytes_outside. left. lia.
  - apply load_and_swap_SHIM_SET_MEM_32.
  - intros x Hx. unfold ks', xboxkrnl_io.SHIM_SET_MEM_32.
    cbn [xboxkrnl_io.guest_memory].
    rewrite !write_bytes_outside;
      [reflexivity | |]; rewrite length_rev, length_le_split; lia.
Qed.

Section NtReadFileCoverage.
Import xboxkrnl_io xboxkrnl_io_read.
Context {XS : XStatus}.
Variable F : Type.
Variable XFile_Read : F -> Memory -> Z -> Z -> Z -> Z * Z * Memory * F.
Implicit Type st : IoState F.

(** X23.  [NtReadFile] refuses a bad handle without touching the file
    system: when the file handle names no file, or a non-zero event
    handle names no event, the shim returns [X_STATUS_INVALID_HANDLE];
    [Read] is not called, no APC is queued, no event is reset or set,
    and nothing changes but the I/O status block, which (when its
    pointer is non-zero) receives the status and a zero information
    word. *)
Theorem NtReadFile_invalid_handle
    file_handle event_handle apc_routine_ptr apc_context
    io_status_block_ptr buffer buffer_length byte_offset_ptr st :
  files F (kernel F st) file_handle = None
  \/ (event_handle <> 0 /\ events F (kernel F st) event_handle = None) ->
  exists st',
    NtReadFile F XFile_Read file_handle event_handle apc_routine_ptr
      apc_context io_status_block_ptr buffer buffer_length byte_offset_ptr st
    = Returns (X_STATUS_INVALID_HANDLE, st')
    /\ reads F st' = reads F st
    /\ apc_queue F st' = apc_queue F st
    /\ events F (kernel F st') = events F (kernel F st)
    /\ files F (kernel F st') = files F (kernel F st)
    /\ (io_status_block_ptr = 0 -> kernel F st' = kernel F st)
    /\ (io_status_block_ptr <> 0 ->
        load_and_swap (guest_memory F (kernel F st')) io_status_block_ptr
        = uint32 X_STATUS_INVALID_HANDLE
        /\ load_and_swap (guest_memory F (kernel F st')) (io_status_block_ptr + 4)
           = 0
        /\ forall x, x < io_status_block_ptr \/ io_status_block_ptr + 8 <= x ->
             guest_memory F (kernel F st') x = guest_memory F (kernel F st) x).
Proof.
  intros H. unfold NtReadFile.
  set (ev := if nonzero event_handle then events F (kernel F st) event_handle
             else None).
  set (r1 := if nonzero event_handle && negb (is_ref ev)
             then X_STATUS_INVALID_HANDLE else X_STATUS_SUCCESS).
  set (r2 := if negb (is_ref (files F (kernel F st) file_handle))
             then X_STATUS_INVALID_HANDLE else r1).
  assert (E2 : r2 = X_STATUS_INVALID_HANDLE).
  { unfold r2. destruct H as [-> | [Hne He]]; [reflexivity|].
    destruct (is_ref (files F (kernel F st) file_handle)); [|reflexivity].
    cbn [negb]. unfold r1, ev.
    assert (Hn : nonzero event_handle = true)
      by (unfold nonzero; apply negb_true_iff, Z.eqb_neq; exact Hne).
    rewrite Hn, He. reflexivity. }
  rewrite E2, XSUCCEEDED_INVALID_HANDLE. cbn [bind].
  rewrite andb_false_r.
  eexists. split; [reflexivity|].
  cbn [reads apc_queue kernel].
  split; [reflexivity|]. split; [reflexivity|].
  destruct (nonzero io_status_block_ptr) eqn:Hio.
  - pose proof (status_block_written F (kernel F st) io_status_block_ptr
                  X_STATUS_INVALID_HANDLE 0) as (S1 & S2 & S3 & S4 & _ & S6).
    cbv zeta in S1, S2, S3, S4, S6.
    split; [exact S3|]. split; [exact S4|].
    split.
    + intros ->. discriminate Hio.
    + intros _. split; [exact S1|]. split; [exact S2 | exact S6].
  - split; [reflexivity|]. split; [reflexivity|].
    split; [reflexivity|].
    intros Hne. apply nonzero_false in Hio. contradiction.
Qed.

(** X24.  The event is optional for [NtReadFile], and the read is
    synchronous.  With a file at the file handle and either no event
    handle or an event at it, the shim calls [Read] exactly once, at
    offset 2^64 - 1 ("use the file position") when the offset pointer is
    null or names 0xFFFFFFFFFFFFFFFE and at the named 64-bit offset
    otherwise, and returns [Read]'s status.  An APC is queued exactly when
    [apc_routine_ptr] has a bit above bit 0 set, for the routine address
    with bit 0 cleared, also when [Read] failed.  The event, when there
    is one, is left signaled, and the status block's first word is the
    status. *)
Theorem NtReadFile_reads_once
    file_handle event_handle apc_routine_ptr apc_context
    io_status_block_ptr buffer buffer_length byte_offset_ptr st f :
  files F (kernel F st) file_handle = Some f ->
  event_handle = 0 \/ is_ref (events F (kernel F st) event_handle) = true ->
  let byte_offset :=
    if (byte_offset_ptr =? 0)
       || (SHIM_MEM_64 F (kernel F st) byte_offset_ptr =? 0xFFFFFFFFFFFFFFFE)
    then 2 ^ 64 - 1
    else SHIM_MEM_64 F (kernel F st) byte_offset_ptr in
  let done :=
    XFile_Read f (guest_memory F (kernel F st)) buffer buffer_length byte_offset in
  exists st',
    NtReadFile F XFile_Read file_handle event_handle apc_routine_ptr
      apc_context io_status_block_ptr buffer buffer_length byte_offset_ptr st
    = Returns (fst (fst (fst done)), st')
    /\ reads F st'
       = reads F st ++ [(file_handle, buffer, buffer_length, byte_offset)]
    /\ apc_queue F st'
       = apc_queue F st
         ++ (if Z.land apc_routine_ptr 0xFFFFFFFE =? 0 then []
             else [(Z.land apc_routine_ptr 0xFFFFFFFE, apc_context,
                    io_status_block_ptr, 0)])
    /\ files F (kernel F st') file_handle = Some (snd done)
    /\ (event_handle <> 0 ->
        events F (kernel F st') event_handle = Some true)
    /\ (event_handle = 0 -> events F (kernel F st') = events F (kernel F st))
    /\ (io_status_block_ptr <> 0 ->
        load_and_swap (guest_memory F (kernel F st')) io_status_block_ptr
        = uint32 (fst (fst (fst done)))
        /\ load_and_swap (guest_memory F (kernel F st')) (io_status_block_ptr + 4)
           = if XSUCCEEDED (fst (fst (fst done)))
             then uint32 (snd (fst (fst done))) else 0).
Proof.
  intros Hf Hev byte_offset done. unfold NtReadFile.
  set (ev := if nonzero event_handle then events F (kernel F st) event_handle
             else None).
  assert (Hr : (if nonzero event_handle && negb (is_ref ev)
                then X_STATUS_INVALID_HANDLE else X_STATUS_SUCCESS)
               = X_STATUS_SUCCESS).
  { unfold ev. destruct (nonzero event_handle) eqn:Hn; [|reflexivity].
    destruct Hev as [-> | ->]; [discriminate Hn | reflexivity]. }
  rewrite Hr, Hf. cbn [is_ref negb]. rewrite XSUCCEEDED_SUCCESS.
  assert (Hoff : (if negb (nonzero byte_offset_ptr)
                     || ((if nonzero byte_offset_ptr
                          then SHIM_MEM_64 F (kernel F st) byte_offset_ptr
                          else 0) =? 0xFFFFFFFFfffffffe)
                  then size_t (-1)
                  else if nonzero byte_offset_ptr
                       then SHIM_MEM_64 F (kernel F st) byte_offset_ptr
                       else 0)
                 = byte_offset).
  { unfold byte_offset, nonzero.
    destruct (byte_offset_ptr =? 0); cbn [negb orb]; reflexivity. }
  rewrite Hoff.
  assert (Hm : guest_memory F (if is_ref ev
                               then with_event F (kernel F st) event_handle false
                               else kernel F st)
               = guest_memory F (kernel F st)).
  { destruct (is_ref ev); reflexivity. }
  rewrite Hm. fold done.
  destruct done as [[[result bytes_read] m] f'] eqn:Hd.
  cbn [fst snd bind].
  eexists. split; [reflexivity|].
  cbn [reads apc_queue kernel].
  split; [reflexivity|].
  split.
  { unfold nonzero. destruct (Z.land apc_routine_ptr 4294967294 =? 0);
      cbn [negb]; [rewrite app_nil_r|]; reflexivity. }
  rewrite andb_true_r.
  pose proof (status_block_written F
                {| events := events F (if is_ref ev
                                       then with_event F (kernel F st) event_handle false
                                       else kernel F st);
                   files := fun k => if k =? file_handle then Some f'
                                     else files F (if is_ref ev
                                                   then with_event F (kernel F st)
                                                          event_handle false
                                                   else kernel F st) k;
                   guest_memory := m;
                   writes := writes F (if is_ref ev
                                       then with_event F (kernel F st) event_handle false
                                       else kernel F st) |}
                io_status_block_ptr result
                (if XSUCCEEDED result then uint32 bytes_read else 0))
    as (S1 & S2 & S3 & S4 & _ & _).
  cbv zeta in S1, S2, S3, S4.
  set (blk := SHIM_SET_MEM_32 F (SHIM_SET_MEM_32 F _ io_status_block_ptr result)
                (io_status_block_ptr + 4) _) in *.
  set (ks0 := {| events := _; files := _; guest_memory := m; writes := _ |}) in *.
  assert (Eev : events F (if nonzero io_status_block_ptr then blk else ks0)
                = events F ks0).
  { destruct (nonzero io_status_block_ptr); [exact S3 | reflexivity]. }
  assert (Efi : files F (if nonzero io_status_block_ptr then blk else ks0)
                = files F ks0).
  { destruct (nonzero io_status_block_ptr); [exact S4 | reflexivity]. }
  split.
  { destruct (is_ref ev); cbn [with_event files]; rewrite Efi;
      unfold ks0; cbn [files]; rewrite Z.eqb_refl; reflexivity. }
  split.
  { intros Hne.
    assert (Hn : nonzero event_handle = true)
      by (unfold nonzero; apply negb_true_iff, Z.eqb_neq; exact Hne).
    destruct Hev as [-> | Hev]; [contradiction|].
    unfold ev. rewrite Hn, Hev. cbn [with_event events].
    rewrite Z.eqb_refl. reflexivity. }
  split.
  { intros ->. unfold ev. cbn [nonzero Z.eqb negb is_ref].
    rewrite Eev. reflexivity. }
  intros Hio.
  assert (Hn : nonzero io_status_block_ptr = true)
    by (unfold nonzero; apply negb_true_iff, Z.eqb_neq; exact Hio).
  rewrite Hn.
  assert (Hg : forall b : bool, guest_memory F (if b then with_event F blk event_handle true
                                         else blk)
                         = guest_memory F blk)
    by (intros []; reflexivity).
  rewrite Hg. split; [exact S1|].
  rewrite S2. destruct (XSUCCEEDED result); [|reflexivity].
  unfold uint32. rewrite Z.mod_mod by lia. reflexivity.
Qed.

End NtReadFileCoverage.

Section NtWriteFileCoverage.
Import xboxkrnl_io.
Context {XS : XStatus}.
Variable F : Type.
Variable XFile_Write : F -> Z -> Z -> Z -> Z * Z * F.
Implicit Type ks : KernelState F.

(** X25.  [NtWriteFile] does not check its file handle.  The test after
    the file lookup looks at the event, so with an event at the event
    handle and no file at the file handle the status stays
    [X_STATUS_SUCCESS] and the shim goes on to call [Write] through the
    null file reference. *)
Theorem NtWriteFile_null_file
    file_handle event_handle apc_context io_status_block_ptr buffer
    buffer_length byte_offset_ptr ks :
  event_handle <> 0 ->
  is_ref (events F ks event_handle) = true ->
  files F ks file_handle = None ->
  NtWriteFile F XFile_Write file_handle event_handle 0 apc_context
    io_status_block_ptr buffer buffer_length byte_offset_ptr ks
  = Faults.
Proof.
  intros Hne Hev Hf. unfold NtWriteFile.
  change (assert_true (0 =? 0)) with (Returns tt). cbn [bind].
  assert (Hn : nonzero event_handle = true)
    by (unfold nonzero; apply negb_true_iff, Z.eqb_neq; exact Hne).
  rewrite Hn, Hev, Hf. cbn [negb andb].
  rewrite XSUCCEEDED_SUCCESS. reflexivity.
Qed.

(** X26.  A write with an event and a file is synchronous: the shim
    calls [Write] exactly once, at offset 2^64 - 1 ("use the file
    position") when the offset pointer is null or names
    0xFFFFFFFFFFFFFFFE and at the named 64-bit offset otherwise, returns
    [Write]'s status, leaves the event signaled, and stores the status
    and the byte count (zero when [Write] failed) big-endian in the I/O
    status block. *)
Theorem NtWriteFile_writes_once
    file_handle event_handle apc_context io_status_block_ptr buffer
    buffer_length byte_offset_ptr ks f :
  event_handle <> 0 ->
  is_ref (events F ks event_handle) = true ->
  files F ks file_handle = Some f ->
  let byte_offset :=
    if (byte_offset_ptr =? 0)
       || (SHIM_MEM_64 F ks byte_offset_ptr =? 0xFFFFFFFFFFFFFFFE)
    then 2 ^ 64 - 1
    else SHIM_MEM_64 F ks byte_offset_ptr in
  let done := XFile_Write f buffer buffer_length byte_offset in
  exists ks',
    NtWriteFile F XFile_Write file_handle event_handle 0 apc_context
      io_status_block_ptr buffer buffer_length byte_offset_ptr ks
    = Returns (fst (fst done), ks')
    /\ writes F ks'
       = writes F ks ++ [(file_handle, buffer, buffer_length, byte_offset)]
    /\ files F ks' file_handle = Some (snd done)
    /\ events F ks' event_handle = Some true
    /\ (io_status_block_ptr <> 0 ->
        load_and_swap (guest_memory F ks') io_status_block_ptr
        = uint32 (fst (fst done))
        /\ load_and_swap (guest_memory F ks') (io_status_block_ptr + 4)
           = if XSUCCEEDED (fst (fst done))
             then uint32 (snd (fst done)) else 0)
    /\ (io_status_block_ptr = 0 ->
        guest_memory F ks' = guest_memory F ks).
Proof.
  intros Hne Hev Hf byte_offset done. unfold NtWriteFile.
  change (assert_true (0 =? 0)) with (Returns tt). cbn [bind].
  assert (Hn : nonzero event_handle = true)
    by (unfold nonzero; apply negb_true_iff, Z.eqb_neq; exact Hne).
  rewrite Hn, Hev, Hf. cbn [negb andb].
  rewrite XSUCCEEDED_SUCCESS.
  assert (Hoff : (if negb (nonzero byte_offset_ptr)
                     || ((if nonzero byte_offset_ptr
                          then SHIM_MEM_64 F ks byte_offset_ptr
                          else 0) =? 0xFFFFFFFFfffffffe)
                  then size_t (-1)
                  else if nonzero byte_offset_ptr
                       then SHIM_MEM_64 F ks byte_offset_ptr
                       else 0)
                 = byte_offset).
  { unfold byte_offset, nonzero.
    destruct (byte_offset_ptr =? 0); cbn [negb orb]; reflexivity. }
  rewrite Hoff. fold done.
  destruct done as [[result bytes_written] f'] eqn:Hd.
  cbn [fst snd bind].
  eexists. split; [reflexivity|].
  set (ks0 := {| events := _; files := _; guest_memory := _; writes := _ |}).
  pose proof (status_block_written F ks0 io_status_block_ptr result
                (if XSUCCEEDED result then uint32 bytes_written else 0))
    as (S1 & S2 & S3 & S4 & S5 & _).
  cbv zeta in S1, S2, S3, S4, S5.
  set (blk := SHIM_SET_MEM_32 F (SHIM_SET_MEM_32 F ks0 io_status_block_ptr result)
                (io_status_block_ptr + 4) _) in *.
  cbn [with_event writes files events guest_memory].
  split.
  { destruct (nonzero io_status_block_ptr); [rewrite S5|]; reflexivity. }
  split.
  { destruct (nonzero io_status_block_ptr); [rewrite S4|];
      unfold ks0; cbn [files]; rewrite Z.eqb_refl; reflexivity. }
  split; [rewrite Z.eqb_refl; reflexivity|].
  split.
  - intros Hio.
    assert (Hi : nonzero io_status_block_ptr = true)
      by (unfold nonzero; apply negb_true_iff, Z.eqb_neq; exact Hio).
    rewrite Hi. split; [exact S1|].
    rewrite S2. destruct (XSUCCEEDED result); [|reflexivity].
    unfold uint32. rewrite Z.mod_mod by lia. reflexivity.
  - intros ->. reflexivity.
Qed.

End NtWriteFileCoverage.

Section FileSystemCoverage.
Import xboxkrnl_io xboxkrnl_io_fs.
Context {XS : XStatus} {XFS : XFileStatus}.
Variables F E N I : Type.
Variable FileSystem_ResolvePath : N -> option E.
Variable Device_ResolvePath : F -> N -> option E.
Variable is_read_only : E -> bool.
Variable FileSystem_Open
  : E -> Mode -> KernelState F -> Z * option Z * KernelState F.
Variable X_ANSI_STRING_Read : Memory -> Z -> N.
Variable X_ANSI_STRING_Zero : N.
Variable XFile_QueryDirectory : F -> Z -> option N -> bool -> Z * I * F.
Variable DirInfo_Write : I -> Memory -> Z -> Memory.
Implicit Type st : FsState F E.

(** X27.  [NtCreateFile] never creates.  When the path does not resolve
    (here through the virtual file system: no root directory, or
    ObDosDevices), the call returns [X_STATUS_NO_SUCH_FILE] whatever the
    access mask and the creation disposition ask for, [X_FILE_CREATE]
    included: [fs->Open] is not called, the I/O status block (when its
    pointer is non-zero) receives the status and
    [X_FILE_DOES_NOT_EXIST], and no other guest byte changes, so nothing
    is stored at [handle_ptr]. *)
Theorem NtCreateFile_missing_path
    handle_ptr desired_access (object_attrs : X_OBJECT_ATTRIBUTES N) object_name0
    io_status_block_ptr allocation_size_ptr file_attributes share_access
    creation_disposition st :
  root_directory N object_attrs = 0
  \/ root_directory N object_attrs = 0xFFFFFFFD ->
  FileSystem_ResolvePath object_name0 = None ->
  exists st',
    NtCreateFile F E N FileSystem_ResolvePath Device_ResolvePath is_read_only
      FileSystem_Open handle_ptr desired_access object_attrs object_name0
      io_status_block_ptr allocation_size_ptr file_attributes share_access
      creation_disposition st
    = Returns (X_STATUS_NO_SUCH_FILE, st')
    /\ opens F E st' = opens F E st
    /\ files F (kernel F E st') = files F (kernel F E st)
    /\ events F (kernel F E st') = events F (kernel F E st)
    /\ (io_status_block_ptr = 0 -> kernel F E st' = kernel F E st)
    /\ (io_status_block_ptr <> 0 ->
        load_and_swap (guest_memory F (kernel F E st')) io_status_block_ptr
        = uint32 X_STATUS_NO_SUCH_FILE
        /\ load_and_swap (guest_memory F (kernel F E st'))
             (io_status_block_ptr + 4)
           = uint32 X_FILE_DOES_NOT_EXIST
        /\ forall x, x < io_status_block_ptr \/ io_status_block_ptr + 8 <= x ->
             guest_memory F (kernel F E st') x
             = guest_memory F (kernel F E st) x).
Proof.
  intros Hroot Hres. unfold NtCreateFile.
  assert (Hr : negb (root_directory N object_attrs =? 0xFFFFFFFD)
               && negb (root_directory N object_attrs =? 0) = false).
  { destruct Hroot as [-> | ->]; reflexivity. }
  rewrite Hr. cbn [bind]. rewrite Hres.
  rewrite XSUCCEEDED_NO_SUCH_FILE. cbn [bind].
  rewrite XSUCCEEDED_NO_SUCH_FILE. cbn [bind andb].
  eexists. split; [reflexivity|].
  cbn [opens kernel].
  split; [reflexivity|].
  destruct (nonzero io_status_block_ptr) eqn:Hio.
  - pose proof (status_block_written F (kernel F E st) io_status_block_ptr
                  X_STATUS_NO_SUCH_FILE X_FILE_DOES_NOT_EXIST)
      as (S1 & S2 & S3 & S4 & _ & S6).
    cbv zeta in S1, S2, S3, S4, S6.
    split; [exact S4|]. split; [exact S3|].
    split.
    + intros ->. discriminate Hio.
    + intros _. split; [exact S1|]. split; [exact S2 | exact S6].
  - split; [reflexivity|]. split; [reflexivity|].
    split; [reflexivity|].
    intros Hne. apply nonzero_false in Hio. contradiction.
Qed.

(** X28.  The mode [NtCreateFile] opens with.  When the path resolves
    to an entry, [fs->Open] is called exactly once, in mode [READ] when
    the access mask has none of the four write bits, in [READ_APPEND]
    when it has the append bit and the entry is not read-only, and in
    [READ_WRITE] otherwise: a read-only entry asked for with write
    access is opened [READ_WRITE], its access mask being downgraded only
    after [wants_write] was computed.  The call returns
    [X_STATUS_SUCCESS] and stores the new handle at [handle_ptr] when
    [Open] succeeded with a file, returns [Open]'s status when it failed,
    and goes through a null file reference when [Open] succeeded without
    a file.  [NtOpenFile_shim] is the same call: allocation size, file
    attributes, share access and creation disposition are not used. *)
Theorem NtCreateFile_open_mode
    handle_ptr desired_access (object_attrs : X_OBJECT_ATTRIBUTES N) object_name0
    io_status_block_ptr allocation_size_ptr file_attributes share_access
    creation_disposition st e :
  root_directory N object_attrs = 0
  \/ root_directory N object_attrs = 0xFFFFFFFD ->
  FileSystem_ResolvePath object_name0 = Some e ->
  let wants_write :=
    nonzero (Z.land desired_access FileAccess.X_GENERIC_WRITE)
    || nonzero (Z.land desired_access FileAccess.X_GENERIC_ALL)
    || nonzero (Z.land desired_access FileAccess.X_FILE_WRITE_DATA)
    || nonzero (Z.land desired_access FileAccess.X_FILE_APPEND_DATA) in
  let mode :=
    if wants_write
    then if nonzero (Z.land desired_access FileAccess.X_FILE_APPEND_DATA)
            && negb (is_read_only e)
         then READ_APPEND else READ_WRITE
    else READ in
  let done := FileSystem_Open e mode (kernel F E st) in
  match NtCreateFile F E N FileSystem_ResolvePath Device_ResolvePath
          is_read_only FileSystem_Open handle_ptr desired_access object_attrs
          object_name0 io_status_block_ptr allocation_size_ptr file_attributes
          share_access creation_disposition st with
  | Returns (result, st') =>
      opens F E st' = opens F E st ++ [(e, mode)]
      /\ (if XSUCCEEDED (fst (fst done))
          then result = X_STATUS_SUCCESS
               /\ exists h, snd (fst done) = Some h
                   /\ (handle_ptr <> 0 ->
                       load_and_swap (guest_memory F (kernel F E st')) handle_ptr
                       = uint32 h)
          else result = fst (fst done)
               /\ (io_status_block_ptr = 0 ->
                   kernel F E st' = snd done))
  | Faults => XSUCCEEDED (fst (fst done)) = true /\ snd (fst done) = None
  end
  /\ (forall object_attributes_ptr open_options a f s c,
        NtOpenFile_shim F E N FileSystem_ResolvePath Device_ResolvePath
          is_read_only FileSystem_Open X_ANSI_STRING_Read X_ANSI_STRING_Zero
          handle_ptr desired_access object_attributes_ptr io_status_block_ptr
          open_options st
        = NtCreateFile_shim F E N FileSystem_ResolvePath Device_ResolvePath
            is_read_only FileSystem_Open X_ANSI_STRING_Read X_ANSI_STRING_Zero
            handle_ptr desired_access object_attributes_ptr io_status_block_ptr
            a f s c st).
Proof.
  intros Hroot Hres wants_write mode done.
  split; [|intros; reflexivity].
  unfold NtCreateFile.
  assert (Hr : negb (root_directory N object_attrs =? 0xFFFFFFFD)
               && negb (root_directory N object_attrs =? 0) = false).
  { destruct Hroot as [-> | ->]; reflexivity. }
  rewrite Hr. cbn [bind]. rewrite Hres.
  fold wants_write.
  assert (Hmode : (if nonzero
                        (Z.land (if wants_write && is_read_only e
                                 then FileAccess.X_GENERIC_READ
                                 else desired_access)
                                FileAccess.X_FILE_APPEND_DATA)
                   then READ_APPEND
                   else if wants_write then READ_WRITE else READ) = mode).
  { unfold mode.
    destruct wants_write eqn:Eww; cbn [andb].
    - destruct (is_read_only e); cbn [negb].
      + rewrite andb_false_r. reflexivity.
      + rewrite andb_true_r. reflexivity.
    - unfold wants_write in Eww. rewrite !orb_false_iff in Eww.
      destruct Eww as [_ E4]. rewrite E4. reflexivity. }
  rewrite Hmode. fold done.
  destruct done as [[result file] ks'] eqn:Hd. cbn [fst snd].
  destruct (XSUCCEEDED result) eqn:Hs.
  - destruct file as [h|]; cbn [bind]; [|split; reflexivity].
    rewrite XSUCCEEDED_SUCCESS. cbn [andb].
    destruct (nonzero handle_ptr) eqn:Hh; cbn [bind opens kernel].
    + split; [reflexivity|]. split; [reflexivity|].
      exists h. split; [reflexivity|]. intros _.
      apply load_and_swap_SHIM_SET_MEM_32.
    + split; [reflexivity|]. split; [reflexivity|].
      exists h. split; [reflexivity|]. intros Hne.
      apply nonzero_false in Hh. contradiction.
  - cbn [bind]. rewrite Hs. cbn [andb bind opens kernel].
    split; [reflexivity|]. split; [reflexivity|].
    intros ->. reflexivity.
Qed.

(** X29.  [NtQueryDirectoryFile] checks the buffer length first: with
    fewer than 72 bytes it returns [X_STATUS_INFO_LENGTH_MISMATCH] and
    writes nothing, not even the I/O status block.  Otherwise the status
    block holds the returned status and, as information, the buffer
    length when the query succeeded and zero when it did not; with no
    file at the handle the status is [X_STATUS_NO_SUCH_FILE] and only the
    status block is written. *)
Theorem NtQueryDirectoryFile_information
    file_handle event_handle apc_routine apc_context io_status_block_ptr
    file_info_ptr length file_name_ptr restart_scan (ks : KernelState F) :
  let r := NtQueryDirectoryFile F N I X_ANSI_STRING_Read XFile_QueryDirectory
             DirInfo_Write file_handle event_handle apc_routine apc_context
             io_status_block_ptr file_info_ptr length file_name_ptr
             restart_scan ks in
  (length < 72 -> r = (X_STATUS_INFO_LENGTH_MISMATCH, ks))
  /\ (72 <= length -> io_status_block_ptr <> 0 ->
      load_and_swap (guest_memory F (snd r)) io_status_block_ptr
      = uint32 (fst r)
      /\ load_and_swap (guest_memory F (snd r)) (io_status_block_ptr + 4)
         = if XSUCCEEDED (fst r) then uint32 length else 0)
  /\ (72 <= length -> files F ks file_handle = None ->
      fst r = X_STATUS_NO_SUCH_FILE
      /\ forall x, x < io_status_block_ptr \/ io_status_block_ptr + 8 <= x ->
           guest_memory F (snd r) x = guest_memory F ks x).
Proof.
  intros r. unfold r, NtQueryDirectoryFile.
  split; [|split].
  - intros Hl. apply Z.ltb_lt in Hl. rewrite Hl. reflexivity.
  - intros Hl Hio. apply Z.ltb_ge in Hl. rewrite Hl.
    assert (Hn : nonzero io_status_block_ptr = true)
      by (unfold nonzero; apply negb_true_iff, Z.eqb_neq; exact Hio).
    rewrite Hn.
    destruct (files F ks file_handle) as [f|].
    + destruct (XFile_QueryDirectory f length _ _) as [[result dir_info] f'].
      unfold XFAILED.
      destruct (XSUCCEEDED result) eqn:Hs; cbn [negb fst snd];
        match goal with
        | |- context [SHIM_SET_MEM_32 F (SHIM_SET_MEM_32 F ?k ?a ?x) (?a + 4) ?y] =>
            pose proof (status_block_written F k a x y) as (S1 & S2 & _)
        end; cbv zeta in S1, S2; rewrite S1, S2, ?Hs;
        split; reflexivity.
    + unfold XFAILED. rewrite XSUCCEEDED_NO_SUCH_FILE. cbn [negb fst snd].
      pose proof (status_block_written F ks io_status_block_ptr
                    X_STATUS_NO_SUCH_FILE 0) as (S1 & S2 & _).
      cbv zeta in S1, S2. rewrite S1, S2, XSUCCEEDED_NO_SUCH_FILE.
      split; reflexivity.
  - intros Hl Hf. apply Z.ltb_ge in Hl. rewrite Hl, Hf.
    unfold XFAILED. rewrite XSUCCEEDED_NO_SUCH_FILE. cbn [negb fst snd].
    split; [destruct (nonzero io_status_block_ptr); reflexivity|].
    intros x Hx.
    destruct (nonzero io_status_block_ptr); [|reflexivity].
    pose proof (status_block_written F ks io_status_block_ptr
                  X_STATUS_NO_SUCH_FILE 0) as (_ & _ & _ & _ & _ & S6).
    cbv zeta in S6. cbn [snd]. apply S6. exact Hx.
Qed.

End FileSystemCoverage.

Section VolumeCoverage.
Import xboxkrnl_io xboxkrnl_io_volume.
Context {XS : XStatus} {XFS : XFileStatus}.
Variables F V S A : Type.
Variable Device_QueryVolumeInfo : F -> Z -> Z * V.
Variable VolumeInfo_Write : V -> Memory -> Z -> Memory.
Variable Device_QuerySizeInfo : F -> Z -> Z * S.
Variable SizeInfo_Write : S -> Memory -> Z -> Memory.
Variable Device_QueryAttributeInfo : F -> Z -> Z * A.
Variable AttributeInfo_Write : A -> Memory -> Z -> Memory.

(** X30.  [NtQueryVolumeInformationFile] supports three information
    classes.  With a file at the handle, class 1, 3 or 5 returns the
    status of the device's query and any other class trips
    [assert_always]; the class is not looked at when the handle names no
    file, where the shim returns [X_STATUS_NO_SUCH_FILE].  Whenever the
    shim returns, the I/O status block holds the returned status and, as
    information, the buffer length when the status is a success and zero
    otherwise. *)
Theorem NtQueryVolumeInformationFile_classes
    file_handle io_status_block_ptr fs_info_ptr length fs_info_class
    (ks : KernelState F) :
  let call :=
    NtQueryVolumeInformationFile F V S A Device_QueryVolumeInfo VolumeInfo_Write
      Device_QuerySizeInfo SizeInfo_Write Device_QueryAttributeInfo
      AttributeInfo_Write file_handle io_status_block_ptr fs_info_ptr length
      fs_info_class ks in
  (forall file, files F ks file_handle = Some file ->
     (call = Faults
      <-> fs_info_class <> 1 /\ fs_info_class <> 3 /\ fs_info_class <> 5)
     /\ forall result ks', call = Returns (result, ks') ->
          result
          = if fs_info_class =? 1 then fst (Device_QueryVolumeInfo file length)
            else if fs_info_class =? 3 then fst (Device_QuerySizeInfo file length)
            else fst (Device_QueryAttributeInfo file length))
  /\ (files F ks file_handle = None ->
      exists ks', call = Returns (X_STATUS_NO_SUCH_FILE, ks')
        /\ forall x, x < io_status_block_ptr \/ io_status_block_ptr + 8 <= x ->
             guest_memory F ks' x = guest_memory F ks x)
  /\ (forall result ks', call = Returns (result, ks') ->
      io_status_block_ptr <> 0 ->
      load_and_swap (guest_memory F ks') io_status_block_ptr = uint32 result
      /\ load_and_swap (guest_memory F ks') (io_status_block_ptr + 4)
         = if XSUCCEEDED result then uint32 length else 0).
Proof.
  intros call.
  assert (Fin : forall result info ks0 r ks',
             Returns (result,
                      if nonzero io_status_block_ptr
                      then SHIM_SET_MEM_32 F
                             (SHIM_SET_MEM_32 F ks0 io_status_block_ptr result)
                             (io_status_block_ptr + 4)
                             (if XFAILED result then 0 else info)
                      else ks0) = Returns (r, ks') ->
             r = result
             /\ (io_status_block_ptr <> 0 ->
                 load_and_swap (guest_memory F ks') io_status_block_ptr
                 = uint32 result
                 /\ load_and_swap (guest_memory F ks') (io_status_block_ptr + 4)
                    = uint32 (if XFAILED result then 0 else info))).
  { intros result info ks0 r ks' E. injection E as <- <-.
    split; [reflexivity|]. intros Hio.
    assert (Hn : nonzero io_status_block_ptr = true)
      by (unfold nonzero; apply negb_true_iff, Z.eqb_neq; exact Hio).
    rewrite Hn.
    pose proof (status_block_written F ks0 io_status_block_ptr result
                  (if XFAILED result then 0 else info)) as (S1 & S2 & _).
    split; [exact S1 | exact S2]. }
  unfold call, NtQueryVolumeInformationFile.
  split; [|split].
  - intros file Hf. rewrite Hf.
    destruct (Z.eqb_spec fs_info_class 1) as [E1|N1].
    { destruct (Device_QueryVolumeInfo file length) as [result vi].
      cbn [fst].
      split.
      - split; [destruct (XSUCCEEDED result); discriminate|].
        intros [H _]. contradiction.
      - intros r ks' E.
        destruct (XSUCCEEDED result); cbn [bind] in E;
          apply Fin in E; apply E. }
    destruct (Z.eqb_spec fs_info_class 3) as [E3|N3].
    { destruct (Device_QuerySizeInfo file length) as [result vi].
      cbn [fst].
      split.
      - split; [destruct (XSUCCEEDED result); discriminate|].
        intros (_ & H & _). contradiction.
      - intros r ks' E.
        destruct (XSUCCEEDED result); cbn [bind] in E;
          apply Fin in E; apply E. }
    destruct (Z.eqb_spec fs_info_class 5) as [E5|N5].
    { destruct (Device_QueryAttributeInfo file length) as [result vi].
      cbn [fst].
      split.
      - split; [destruct (XSUCCEEDED result); discriminate|].
        intros (_ & _ & H). contradiction.
      - intros r ks' E.
        destruct (XSUCCEEDED result); cbn [bind] in E;
          apply Fin in E; apply E. }
    cbn [bind]. split; [|discriminate].
    split; [intros _; repeat split; assumption | reflexivity].
  - intros Hf. rewrite Hf. cbn [bind].
    eexists. split; [reflexivity|].
    intros x Hx. destruct (nonzero io_status_block_ptr); [|reflexivity].
    match goal with
    | |- context [SHIM_SET_MEM_32 F (SHIM_SET_MEM_32 F ?k ?a ?v) (?a + 4) ?y] =>
        pose proof (status_block_written F k a v y) as (_ & _ & _ & _ & _ & S6)
    end.
    apply S6. exact Hx.
  - intros result ks' E Hio.
    assert (G : forall r0 i0 ks0,
               ((i0 = 0 /\ XSUCCEEDED r0 = false)
                \/ (i0 = length /\ XSUCCEEDED r0 = true)) ->
               Returns (r0,
                        if nonzero io_status_block_ptr
                        then SHIM_SET_MEM_32 F
                               (SHIM_SET_MEM_32 F ks0 io_status_block_ptr r0)
                               (io_status_block_ptr + 4)
                               (if XFAILED r0 then 0 else i0)
                        else ks0) = Returns (result, ks') ->
               load_and_swap (guest_memory F ks') io_status_block_ptr
               = uint32 result
               /\ load_and_swap (guest_memory F ks') (io_status_block_ptr + 4)
                  = if XSUCCEEDED result then uint32 length else 0).
    { intros r0 i0 ks0 Hi E0. apply Fin in E0. destruct E0 as [-> E0].
      destruct (E0 Hio) as [S1 S2]. split; [exact S1|].
      rewrite S2. unfold XFAILED.
      destruct Hi as [[-> Hs] | [-> Hs]]; rewrite Hs; reflexivity. }
    destruct (files F ks file_handle) as [file|].
    + destruct (fs_info_class =? 1).
      { destruct (Device_QueryVolumeInfo file length) as [r0 vi].
        destruct (XSUCCEEDED r0) eqn:Hs; cbn [bind] in E;
          apply G in E; auto. }
      destruct (fs_info_class =? 3).
      { destruct (Device_QuerySizeInfo file length) as [r0 vi].
        destruct (XSUCCEEDED r0) eqn:Hs; cbn [bind] in E;
          apply G in E; auto. }
      destruct (fs_info_class =? 5); [|discriminate].
      destruct (Device_QueryAttributeInfo file length) as [r0 vi].
      destruct (XSUCCEEDED r0) eqn:Hs; cbn [bind] in E;
        apply G in E; auto.
    + cbn [bind] in E. apply G in E; [exact E|].
      left. split; [reflexivity | apply XSUCCEEDED_NO_SUCH_FILE].
Qed.

End VolumeCoverage.

(* ===================================================================== *)
(** ** The further properties at work *)
(* ===================================================================== *)

(** X1 at work: a record and the same record with [loop_count]
    assigned its old value. *)
Lemma XMA_CONTEXT_DATA_fields_cover_witness :
  wf (fresh_record 1 2)
  /\ wf (set loop_count 0 (fresh_record 1 2))
  /\ fresh_record 1 2 = set loop_count 0 (fresh_record 1 2).
Proof.
  assert (Hwf : wf (fresh_record 1 2)).
  { unfold fresh_record. repeat apply set_wf; try reflexivity.
    split; [reflexivity|]. repeat constructor; lia. }
  assert (Hwf' : wf (set loop_count 0 (fresh_record 1 2)))
    by (apply set_wf; [reflexivity | exact Hwf]).
  split; [exact Hwf|]. split; [exact Hwf'|].
  apply (XMA_CONTEXT_DATA_fields_cover (fresh_record 1 2)
           (set loop_count 0 (fresh_record 1 2)) (fun _ => Byte.x00) 0x10000
           Hwf Hwf').
  intros f Hf.
  assert (H : forallb (fun f => get f (fresh_record 1 2)
                                =? get f (set loop_count 0 (fresh_record 1 2)))
                      fields = true) by (vm_compute; reflexivity).
  rewrite forallb_forall in H. apply Z.eqb_eq. apply H. exact Hf.
Defined.

(** X2 at work: the largest input buffer. *)
Lemma buffer_sizes_fit_witness :
  get input_buffer_1_block_count (fresh_record 4095 31) = 0
  /\ 0 <= input_size (fresh_record 4095 31) <= 4095 * kBytesPerPacket
  /\ (input_size (fresh_record 4095 31) + 4) * 8
     < 2 ^ width input_buffer_read_offset.
Proof.
  split; [reflexivity|].
  exact (proj2 (proj2 (proj2 (buffer_sizes_fit (fresh_record 4095 31)))) eq_refl).
Defined.

(** X3 at work: the record after the one stored. *)
Lemma Store_frames_other_records_witness :
  wf (fresh_record 1 2)
  /\ load (Store (fresh_record 1 2) (fun _ => Byte.x00) 0x10000) 0x10040
     = load (fun _ => Byte.x00) 0x10040.
Proof.
  assert (Hwf : wf (fresh_record 1 2)).
  { unfold fresh_record. repeat apply set_wf; try reflexivity.
    split; [reflexivity|]. repeat constructor; lia. }
  split; [exact Hwf|].
  refine (proj1 (Store_frames_other_records (fresh_record 1 2)
                   (fun _ => Byte.x00) 0x10000 0x10040 Hwf _)).
  right. lia.
Defined.

(** X4 at work: the last slot of the pool. *)
Lemma Setup_lays_out_pool_witness :
  (319 < Z.to_nat kXmaContextCount)%nat
  /\ option_map guest_ptr (nth_error (xma_context_array_ example_system) 319)
     = Some (uint32 (xma_context_array_ptr (registers_ example_system)
                     + Z.of_nat 319 * kXmaContextSize)).
Proof.
  assert (H : (319 < Z.to_nat kXmaContextCount)%nat)
    by (apply Nat.ltb_lt; reflexivity).
  split; [exact H|].
  destruct (Setup_lays_out_pool tt (@AudioSystem_new unit 8 (flat_memory 0x10000)))
    as (_ & _ & _ & Hs & _).
  exact (Hs 319%nat H).
Defined.

(** X6 at work: the first allocation from a fresh pool, released. *)
Lemma Release_after_Allocate_witness :
  NoDup (map guest_ptr (xma_context_array_ example_system))
  /\ ~ all_in_use (xma_context_array_ example_system)
  /\ pool_state (ReleaseXmaContext (fst (AllocateXmaContext example_system))
                   (snd (AllocateXmaContext example_system)))
     = pool_state example_system.
Proof.
  assert (Hnd : NoDup (map guest_ptr (xma_context_array_ example_system)))
    by apply Setup_addresses_distinct.
  assert (Hfree : ~ all_in_use (xma_context_array_ example_system)).
  { intros H. unfold all_in_use in H. rewrite Forall_forall in H.
    specialize (H {| guest_ptr := example_slot 0; in_use := false; decoder := tt |}).
    assert (Hin : In {| guest_ptr := example_slot 0; in_use := false; decoder := tt |}
                     (xma_context_array_ example_system))
      by (left; reflexivity).
    specialize (H Hin). discriminate H. }
  split; [exact Hnd|]. split; [exact Hfree|].
  exact (proj1 (Release_after_Allocate example_system Hnd Hfree)).
Defined.

(** X7 at work: the pool of 320 slots, all allocated; context 5 is
    released. *)
Lemma Release_then_Allocate_exhausted_witness :
  length (xma_context_array_ example_exhausted_system) = 320%nat
  /\ NoDup (map guest_ptr (xma_context_array_ example_exhausted_system))
  /\ all_in_use (xma_context_array_ example_exhausted_system)
  /\ In {| guest_ptr := example_slot 5; in_use := true; decoder := tt |}
        (xma_context_array_ example_exhausted_system)
  /\ fst (AllocateXmaContext example_exhausted_system) = 0
  /\ fst (AllocateXmaContext
            (ReleaseXmaContext (example_slot 5) example_exhausted_system))
     = example_slot 5
  /\ fst (AllocateXmaContext
            (snd (AllocateXmaContext
                    (ReleaseXmaContext (example_slot 5)
                       example_exhausted_system))))
     = 0.
Proof.
  assert (Hnd : NoDup (map guest_ptr (xma_context_array_ example_exhausted_system))).
  { assert (E : map guest_ptr (xma_context_array_ example_exhausted_system)
                = map guest_ptr (xma_context_array_ example_system))
      by (vm_compute; reflexivity).
    rewrite E. apply Setup_addresses_distinct. }
  assert (Hfull : all_in_use (xma_context_array_ example_exhausted_system)).
  { assert (H : forallb (fun c : XMAContext unit => in_use c)
                        (xma_context_array_ example_exhausted_system) = true)
      by (vm_compute; reflexivity).
    rewrite forallb_forall in H. apply Forall_forall. exact H. }
  assert (Hin : In {| guest_ptr := example_slot 5; in_use := true; decoder := tt |}
                   (xma_context_array_ example_exhausted_system)).
  { apply (nth_error_In _ 5). vm_compute. reflexivity. }
  split; [vm_compute; reflexivity|].
  split; [exact Hnd|]. split; [exact Hfull|]. split; [exact Hin|].
  split; [vm_compute; reflexivity|].
  pose proof (Release_then_Allocate_exhausted example_exhausted_system
                {| guest_ptr := example_slot 5; in_use := true; decoder := tt |}
                Hnd Hfull Hin) as H.
  cbv zeta in H. destruct H as (H1 & _ & H2).
  split; [exact H1 | exact H2].
Defined.

(** X8 at work: a context lock register. *)
Lemma register_read_after_write_witness :
  Z.land 0x7FEA1A40 0xFFFF mod 4 = 0
  /\ Z.land 0x7FEA1A40 0xFFFF <> 0x1818
  /\ exists s1,
       WriteRegister 0x7FEA1A40 0x04000000 example_system = Returns s1
       /\ ReadRegister 0x7FEA1A40 s1 = Returns (uint32 0x04000000, s1).
Proof.
  assert (Ha : Z.land 0x7FEA1A40 0xFFFF mod 4 = 0) by reflexivity.
  assert (Hr : Z.land 0x7FEA1A40 0xFFFF <> 0x1818) by discriminate.
  split; [exact Ha|]. split; [exact Hr|].
  destruct (register_read_after_write 0x7FEA1A40 0x04000000 example_system Ha Hr
              (proj1 (Setup_state_ok _ _)))
    as (s1 & E1 & E2 & _).
  exists s1. split; assumption.
Defined.

(** X9 at work: a halfword address in the kick range. *)
Lemma register_access_alignment_witness :
  Z.land 0x7FEA1942 0xFFFF mod 4 <> 0
  /\ ReadRegister 0x7FEA1942 example_system = Faults
  /\ WriteRegister 0x7FEA1942 1 example_system = Faults.
Proof.
  assert (Hn : Z.land 0x7FEA1942 0xFFFF mod 4 <> 0) by discriminate.
  split; [exact Hn|].
  exact (proj2 (proj2 (register_access_alignment 0x7FEA1942 1 example_system
                         (proj1 (Setup_state_ok _ _)))) Hn).
Defined.

(** X10 at work: a clear command for all of contexts 0 to 31, which
    leaves [registers_] alone, and a write to register 0x1800, which
    replaces [xma_context_array_ptr]. *)
Lemma lock_and_clear_commands_inert_witness :
  Z.land 0x7FEA1A80 0xFFFF mod 4 = 0
  /\ ~ (0x1940 <= Z.land 0x7FEA1A80 0xFFFF <= 0x1940 + 9 * 4)
  /\ (exists s',
        WriteRegister 0x7FEA1A80 0xFFFFFFFF example_kick_system = Returns s'
        /\ memory_ s' = memory_ example_kick_system
        /\ decoder_fence_ s' = decoder_fence_ example_kick_system
        /\ registers_ s' = registers_ example_kick_system)
  /\ Z.land 0x7FEA1800 0xFFFF mod 4 = 0
  /\ ~ (0x1940 <= Z.land 0x7FEA1800 0xFFFF <= 0x1940 + 9 * 4)
  /\ exists s',
       WriteRegister 0x7FEA1800 0x00000200 example_kick_system = Returns s'
       /\ xma_context_array_ptr (registers_ example_kick_system) = 0x10000
       /\ xma_context_array_ptr (registers_ s') = 0x20000
       /\ next_context (registers_ s') = 1.
Proof.
  assert (Ha : Z.land 0x7FEA1A80 0xFFFF mod 4 = 0) by reflexivity.
  assert (Hr : ~ (0x1940 <= Z.land 0x7FEA1A80 0xFFFF <= 0x1940 + 9 * 4)).
  { change (Z.land 0x7FEA1A80 0xFFFF) with 0x1A80. lia. }
  assert (Ha' : Z.land 0x7FEA1800 0xFFFF mod 4 = 0) by reflexivity.
  assert (Hr' : ~ (0x1940 <= Z.land 0x7FEA1800 0xFFFF <= 0x1940 + 9 * 4)).
  { change (Z.land 0x7FEA1800 0xFFFF) with 0x1800. lia. }
  split; [exact Ha|]. split; [exact Hr|]. split.
  { destruct (lock_and_clear_commands_inert 0x7FEA1A80 0xFFFFFFFF
                example_kick_system Ha Hr)
      as (s' & E & Hm & _ & Hf & _ & _ & _ & _ & _ & Hreg).
    exists s'. split; [exact E|]. split; [exact Hm|]. split; [exact Hf|].
    apply Hreg; discriminate. }
  split; [exact Ha'|]. split; [exact Hr'|].
  destruct (lock_and_clear_commands_inert 0x7FEA1800 0x00000200
              example_kick_system Ha' Hr')
    as (s' & E & _ & _ & _ & _ & _ & _ & _ & Hreg & _).
  exists s'. split; [exact E|]. split; [reflexivity|].
  rewrite Hreg. split; reflexivity.
Defined.

(** X11 at work: context 33 kicked twice. *)
Lemma kick_twice_witness :
  records_disjoint example_kick_system
  /\ exists s1 s2,
       WriteRegister 0x7FEA1944 0x02000000 example_kick_system = Returns s1
       /\ WriteRegister 0x7FEA1944 0x02000000 s1 = Returns s2
       /\ context_data s2 example_failing_context
          = context_data s1 example_failing_context
       /\ decoder_fence_ s2 = 2%nat.
Proof.
  split; [exact example_records_disjoint|].
  destruct (kick_twice 0x7FEA1944 0x02000000 example_kick_system)
    as (s1 & s2 & E1 & E2 & Hc & Hf).
  - reflexivity.
  - change (Z.land 0x7FEA1944 0xFFFF) with 0x1944. lia.
  - reflexivity.
  - exact example_records_disjoint.
  - exists s1, s2. split; [exact E1|]. split; [exact E2|].
    split; [|exact Hf].
    apply (Hc 33%nat
             {| guest_ptr := example_slot 33; in_use := false; decoder := tt |}).
    reflexivity.
Defined.

(** X12 at work: the first registration on a fresh system. *)
Lemma clients_table_invariant_witness :
  clients_ok example_system
  /\ exists s',
       @RegisterClient unit nt_status example_CreateDriver 0x82000000 0x55
         example_system
       = Returns (0, Some 0%nat, s')
       /\ clients_ok s'
       /\ driver (nth 0 (clients_ s') null_client) <> 0
       /\ ~ In 0%nat (unused_clients_ s').
Proof.
  destruct (@clients_table_invariant unit nt_status) as (Hnew & Hsetup & Hreg & _).
  assert (Hok : clients_ok example_system)
    by (apply Hsetup, Hnew).
  split; [exact Hok|].
  assert (E : exists s',
             @RegisterClient unit nt_status example_CreateDriver 0x82000000 0x55
               example_system
             = Returns (0, Some 0%nat, s'))
    by (eexists; reflexivity).
  destruct E as [s' E]. exists s'. split; [exact E|].
  destruct (Hreg _ _ _ _ _ _ _ Hok E) as [Hok' Hi].
  split; [exact Hok'|].
  destruct (Hi 0%nat eq_refl) as (_ & Hd & Hn).
  split; assumption.
Defined.

(** X13 at work: the argument 0x55 of the first client, registered with
    a driver factory that signals the wait handle it is handed: the
    handle is signaled when [RegisterClient] returns. *)
Lemma RegisterClient_wraps_argument_witness :
  (0 < maximum_client_count_ example_system)%nat
  /\ (0 < length (client_wait_handles_ example_system))%nat
  /\ exists s',
       @RegisterClient unit nt_status signaling_CreateDriver 0x82000000 0x55
         example_system
       = Returns (0, Some 0%nat, s')
       /\ wrapped_callback_arg (nth 0 (clients_ s') null_client) = 0x20000
       /\ load_and_swap (bytes (memory_ s'))
            (TranslateVirtual (memory_ s')
               (wrapped_callback_arg (nth 0 (clients_ s') null_client)))
          = 0x55
       /\ WaitForSingleObject (client_wait_handles_ example_system) 0 = false
       /\ WaitForSingleObject (client_wait_handles_ s') 0 = true
       /\ WaitForSingleObject (client_wait_handles_ s') 1 = false.
Proof.
  assert (Hlt : (0 < maximum_client_count_ example_system)%nat)
    by (apply Nat.ltb_lt; reflexivity).
  assert (Hlh : (0 < length (client_wait_handles_ example_system))%nat)
    by (apply Nat.ltb_lt; reflexivity).
  split; [exact Hlt|]. split; [exact Hlh|].
  assert (E : exists s',
             @RegisterClient unit nt_status signaling_CreateDriver 0x82000000 0x55
               example_system
             = Returns (0, Some 0%nat, s'))
    by (eexists; reflexivity).
  destruct E as [s' E]. exists s'. split; [exact E|].
  destruct (@RegisterClient_wraps_argument unit nt_status signaling_CreateDriver
              0x82000000 0x55 example_system 0%nat s' Hlt Hlh E)
    as (_ & _ & _ & Hw & Hl & Hh & Ho).
  split; [exact Hw|]. split; [exact Hl|]. split; [reflexivity|].
  split; [exact Hh|].
  rewrite (Ho 1%nat) by discriminate. reflexivity.
Defined.


(** X16 at work: only the handle behind the eight client handles is
    signaled. *)
Lemma worker_without_client_signal_witness :
  (forall i, (i < maximum_client_count_ (@SetEvent unit 8 example_system))%nat ->
             WaitForSingleObject
               (client_wait_handles_ (@SetEvent unit 8 example_system)) i = false)
  /\ WaitForSingleObject (client_wait_handles_ (@SetEvent unit 8 example_system))
       (maximum_client_count_ (@SetEvent unit 8 example_system)) = true
  /\ worker_iteration idle_callback (@SetEvent unit 8 example_system)
     = Some (@SetEvent unit 8 example_system, [])
  /\ forall wakes,
       WorkerThreadMain submitting_callback wakes (@SetEvent unit 8 example_system)
       = (@SetEvent unit 8 example_system, []).
Proof.
  assert (Hq : forall i,
             (i < maximum_client_count_ (@SetEvent unit 8 example_system))%nat ->
             WaitForSingleObject
               (client_wait_handles_ (@SetEvent unit 8 example_system)) i = false).
  { intros i Hi.
    change (maximum_client_count_ (@SetEvent unit 8 example_system)) with 8%nat in Hi.
    do 8 (destruct i as [|i]; [reflexivity|]). lia. }
  assert (Hs : WaitForSingleObject
                 (client_wait_handles_ (@SetEvent unit 8 example_system))
                 (maximum_client_count_ (@SetEvent unit 8 example_system)) = true)
    by reflexivity.
  split; [exact Hq|]. split; [exact Hs|].
  split.
  - exact (proj1 (worker_without_client_signal idle_callback _ Hq) Hs).
  - exact (proj2 (proj2 (worker_without_client_signal submitting_callback _ Hq))).
Defined.

(** X17 at work: context 33, in use and kicked, with a block count for
    input buffer 1. *)
Lemma decoder_asserts_buffer_1_unused_witness :
  get input_buffer_1_block_count
    (load (bytes example_buffer_1_memory)
          (TranslatePhysical example_buffer_1_memory
             (guest_ptr example_failing_context))) <> 0
  /\ process_context 5 false example_buffer_1_memory example_failing_context
     = Some Faults
  /\ process_context 5 true example_buffer_1_memory example_failing_context
     = Some (Returns (example_failing_context, example_buffer_1_memory, [])).
Proof.
  assert (Hb : get input_buffer_1_block_count
                 (load (bytes example_buffer_1_memory)
                       (TranslatePhysical example_buffer_1_memory
                          (guest_ptr example_failing_context))) <> 0)
    by (vm_compute; discriminate).
  split; [exact Hb|].
  split.
  - apply (proj1 (decoder_asserts_buffer_1_unused 5 false example_buffer_1_memory
                    example_failing_context)).
    split; [vm_compute; reflexivity | exact Hb].
  - apply (proj2 (decoder_asserts_buffer_1_unused 5 true example_buffer_1_memory
                    example_failing_context)).
    reflexivity.
Defined.

(** X18 at work: a pass, with five trips of fuel for the inner loop,
    over a pool whose contexts 0 to 33 are in use; none has a valid flag
    set (context 33 has its record written, but has not been kicked). *)
Lemma decoder_pass_without_kick_witness :
  option_map in_use (nth_error (xma_context_array_ example_allocated_system) 33)
  = Some true
  /\ get input_buffer_0_block_count
       (load (bytes (memory_ example_allocated_system)) (example_slot 33)) = 1
  /\ (forall n c,
        nth_error (xma_context_array_ example_allocated_system) n = Some c ->
        (fun _ : nat => false) n = false -> in_use c = true ->
        get input_buffer_0_valid
          (load (bytes (memory_ example_allocated_system))
                (TranslatePhysical (memory_ example_allocated_system)
                   (guest_ptr c))) = 0
        /\ get input_buffer_1_valid
             (load (bytes (memory_ example_allocated_system))
                   (TranslatePhysical (memory_ example_allocated_system)
                      (guest_ptr c))) = 0)
  /\ exists s',
       DecoderThreadMain_pass 5 (fun _ => false) example_allocated_system
       = Some (Returns (s', []))
       /\ memory_ s' = memory_ example_allocated_system
       /\ xma_context_array_ s' = xma_context_array_ example_allocated_system.
Proof.
  assert (Hclear : forall n c,
             nth_error (xma_context_array_ example_allocated_system) n = Some c ->
             (fun _ : nat => false) n = false -> in_use c = true ->
             get input_buffer_0_valid
               (load (bytes (memory_ example_allocated_system))
                     (TranslatePhysical (memory_ example_allocated_system)
                        (guest_ptr c))) = 0
             /\ get input_buffer_1_valid
                  (load (bytes (memory_ example_allocated_system))
                        (TranslatePhysical (memory_ example_allocated_system)
                           (guest_ptr c))) = 0).
  { assert (H : forallb
                  (fun c : XMAContext unit =>
                     (get input_buffer_0_valid
                        (load (bytes (memory_ example_allocated_system))
                              (TranslatePhysical (memory_ example_allocated_system)
                                 (guest_ptr c))) =? 0)
                     && (get input_buffer_1_valid
                           (load (bytes (memory_ example_allocated_system))
                                 (TranslatePhysical (memory_ example_allocated_system)
                                    (guest_ptr c))) =? 0))
                  (xma_context_array_ example_allocated_system) = true)
      by (vm_compute; reflexivity).
    rewrite forallb_forall in H. intros n c Hc _ _.
    apply nth_error_In in Hc. specialize (H c Hc).
    apply andb_true_iff in H. destruct H as [H0 H1].
    apply Z.eqb_eq in H0. apply Z.eqb_eq in H1. split; assumption. }
  split; [vm_compute; reflexivity|].
  split; [vm_compute; reflexivity|].
  split; [exact Hclear|].
  destruct (decoder_pass_without_kick 5 (fun _ => false) example_allocated_system
              Hclear)
    as (s' & E & Hm & Hc & _).
  exists s'. split; [exact E|]. split; assumption.
Defined.

(** X19 at work: context 33 after a pass in which its decoder failed. *)
Lemma context_decoded_once_per_kick_witness :
  exists context' mo' evs,
    process_context 5 false example_kicked_memory example_failing_context
    = Some (Returns (context', mo', evs))
    /\ evs <> []
    /\ get input_buffer_0_valid
         (load (bytes mo') (TranslatePhysical mo' (guest_ptr context'))) = 0
    /\ process_context 5 false mo' context' = Some (Returns (context', mo', [])).
Proof.
  assert (E : exists context' mo' evs,
             process_context 5 false example_kicked_memory example_failing_context
             = Some (Returns (context', mo', evs))
             /\ evs <> []).
  { eexists _, _, _. split; [reflexivity | discriminate]. }
  destruct E as (context' & mo' & evs & E & Hne).
  exists context', mo', evs. split; [exact E|]. split; [exact Hne|].
  destruct (context_decoded_once_per_kick 5 example_kicked_memory
              example_failing_context context' mo' evs E) as [Hf Hs].
  split; [exact (proj1 (Hf eq_refl)) | apply Hs].
Defined.

(** X20 at work: two packets of 2048 bytes each into 31 blocks. *)
Lemma decode_windows_end_at_buffer_end_witness :
  (forall (d : Z) (m : Memory) (o offset size : Z),
      decode_result (@DecodePacket Z (ratio_decoder 2048) d m o offset size)
      <= size)
  /\ get output_buffer_write_offset (fresh_record 2 31)
     <= get output_buffer_block_count (fresh_record 2 31)
  /\ exists data' pending' evs m',
       @decode_loop Z (ratio_decoder 2048) 5 0x200000 0x300000
         (fun _ => Byte.x00) (fresh_record 2 31, 0)
       = Some (data', pending', evs, m')
       /\ decode_calls evs = 3
       /\ Forall (window_ends_at 0x300000 7936) evs.
Proof.
  assert (Hd : forall (d : Z) (m : Memory) (o offset size : Z),
             decode_result (@DecodePacket Z (ratio_decoder 2048) d m o offset size)
             <= size)
    by (intros; apply Z.le_min_l).
  assert (Hw : get output_buffer_write_offset (fresh_record 2 31)
               <= get output_buffer_block_count (fresh_record 2 31))
    by (vm_compute; discriminate).
  split; [exact Hd|]. split; [exact Hw|].
  assert (Hc : match @decode_loop Z (ratio_decoder 2048) 5 0x200000 0x300000
                       (fun _ => Byte.x00) (fresh_record 2 31, 0) with
               | Some (_, _, evs, _) => decode_calls evs
               | None => 0
               end = 3) by (vm_compute; reflexivity).
  destruct (@decode_loop Z (ratio_decoder 2048) 5 0x200000 0x300000
              (fun _ => Byte.x00) (fresh_record 2 31, 0))
    as [[[[data' pending'] evs] m']|] eqn:E; [|discriminate Hc].
  exists data', pending', evs, m'. split; [reflexivity|]. split; [exact Hc|].
  exact (proj1 (@decode_windows_end_at_buffer_end Z (ratio_decoder 2048) 5
                  0x200000 0x300000 Hd (fun _ => Byte.x00) (fresh_record 2 31) 0
                  data' pending' evs m' eq_refl Hw E)).
Defined.


(** X22 at work: two packets; the trace ends with the preparation of
    the second. *)
Lemma last_packet_is_prepared_not_decoded_witness :
  exists data' pending' evs m' before sample_rate channels,
    @decode_loop Z (ratio_decoder 2048) 5 0x200000 0x300000
      (fun _ => Byte.x00) (fresh_record 2 31, 0)
    = Some (data', pending', evs, m')
    /\ input_remaining data' = 0
    /\ pending' = 2048
    /\ evs = before ++ [EvPreparePacket (0x200000 + 2048) 2048
                                        sample_rate channels].
Proof.
  assert (P : match @decode_loop Z (ratio_decoder 2048) 5 0x200000 0x300000
                      (fun _ => Byte.x00) (fresh_record 2 31, 0) with
              | Some (data', pending', _, _) =>
                  input_remaining data' = 0 /\ pending' = 2048
              | None => False
              end) by (vm_compute; split; reflexivity).
  destruct (@decode_loop Z (ratio_decoder 2048) 5 0x200000 0x300000
              (fun _ => Byte.x00) (fresh_record 2 31, 0))
    as [[[[data' pending'] evs] m']|] eqn:E; [|contradiction].
  destruct P as [Hdone Hp].
  destruct (@last_packet_is_prepared_not_decoded Z (ratio_decoder 2048) 5
              0x200000 0x300000 (fun _ => Byte.x00) (fresh_record 2 31) 0 0
              data' pending' evs m' eq_refl eq_refl eq_refl)
    as (before & rate & ch & Hevs).
  - vm_compute. split; [discriminate | reflexivity].
  - exact E.
  - exact Hdone.
  - exists data', pending', evs, m', before, rate, ch.
    split; [reflexivity|]. split; [exact Hdone|]. split; [exact Hp|].
    exact Hevs.
Defined.

(** X23 at work: a read from a handle that names no file. *)
Lemma NtReadFile_invalid_handle_witness :
  xboxkrnl_io.files unit (xboxkrnl_io_read.kernel unit example_io) 0x99 = None
  /\ exists st',
       @xboxkrnl_io_read.NtReadFile nt_status unit example_Read
         0x99 0x20 0x82001000 0 0x5000 0x6000 16 0 example_io
       = Returns (0xC0000008, st')
       /\ xboxkrnl_io_read.reads unit st' = []
       /\ xboxkrnl_io_read.apc_queue unit st' = []
       /\ load_and_swap
            (xboxkrnl_io.guest_memory unit (xboxkrnl_io_read.kernel unit st'))
            0x5000 = 0xC0000008.
Proof.
  assert (Hf : xboxkrnl_io.files unit (xboxkrnl_io_read.kernel unit example_io) 0x99
               = None) by reflexivity.
  split; [exact Hf|].
  destruct (@NtReadFile_invalid_handle nt_status unit example_Read
              0x99 0x20 0x82001000 0 0x5000 0x6000 16 0 example_io (or_introl Hf))
    as (st' & E & Hr & Ha & _ & _ & _ & Hio).
  exists st'. split; [exact E|]. split; [exact Hr|]. split; [exact Ha|].
  refine (proj1 (Hio _)). discriminate.
Defined.

(** X24 at work: a read of 16 bytes without an event, with an APC
    routine whose address has bit 0 set. *)
Lemma NtReadFile_reads_once_witness :
  xboxkrnl_io.files unit (xboxkrnl_io_read.kernel unit example_io) 0x10 = Some tt
  /\ exists st',
       @xboxkrnl_io_read.NtReadFile nt_status unit example_Read
         0x10 0 0x82001001 0x77 0x5000 0x6000 16 0 example_io
       = Returns (0, st')
       /\ xboxkrnl_io_read.reads unit st' = [(0x10, 0x6000, 16, 2 ^ 64 - 1)]
       /\ xboxkrnl_io_read.apc_queue unit st' = [(0x82001000, 0x77, 0x5000, 0)]
       /\ load_and_swap
            (xboxkrnl_io.guest_memory unit (xboxkrnl_io_read.kernel unit st'))
            (0x5000 + 4) = 16.
Proof.
  assert (Hf : xboxkrnl_io.files unit (xboxkrnl_io_read.kernel unit example_io) 0x10
               = Some tt) by reflexivity.
  split; [exact Hf|].
  destruct (@NtReadFile_reads_once nt_status unit example_Read
              0x10 0 0x82001001 0x77 0x5000 0x6000 16 0 example_io tt Hf
              (or_introl eq_refl))
    as (st' & E & Hr & Ha & _ & _ & _ & Hio).
  exists st'. split; [exact E|]. split; [exact Hr|]. split; [exact Ha|].
  refine (proj2 (Hio _)). discriminate.
Defined.

(** X25 at work: a write through an event to a handle that names no
    file. *)
Lemma NtWriteFile_null_file_witness :
  0x20 <> 0
  /\ xboxkrnl_io.is_ref (xboxkrnl_io.events unit example_kernel 0x20) = true
  /\ xboxkrnl_io.files unit example_kernel 0x99 = None
  /\ @xboxkrnl_io.NtWriteFile nt_status unit example_Write
       0x99 0x20 0 0 0x5000 0x6000 16 0 example_kernel
     = Faults.
Proof.
  assert (H0 : 0x20 <> 0) by discriminate.
  split; [exact H0|]. split; [reflexivity|]. split; [reflexivity|].
  exact (@NtWriteFile_null_file nt_status unit example_Write
           0x99 0x20 0 0x5000 0x6000 16 0 example_kernel H0 eq_refl eq_refl).
Defined.

(** X26 at work: sixteen bytes written to the file at handle 0x10. *)
Lemma NtWriteFile_writes_once_witness :
  0x20 <> 0
  /\ xboxkrnl_io.files unit example_kernel 0x10 = Some tt
  /\ exists ks',
       @xboxkrnl_io.NtWriteFile nt_status unit example_Write
         0x10 0x20 0 0 0x5000 0x6000 16 0 example_kernel
       = Returns (0, ks')
       /\ xboxkrnl_io.writes unit ks' = [(0x10, 0x6000, 16, 2 ^ 64 - 1)]
       /\ xboxkrnl_io.events unit ks' 0x20 = Some true
       /\ load_and_swap (xboxkrnl_io.guest_memory unit ks') (0x5000 + 4) = 16.
Proof.
  assert (H0 : 0x20 <> 0) by discriminate.
  split; [exact H0|]. split; [reflexivity|].
  destruct (@NtWriteFile_writes_once nt_status unit example_Write
              0x10 0x20 0 0x5000 0x6000 16 0 example_kernel tt H0 eq_refl eq_refl)
    as (ks' & E & Hw & _ & He & Hio & _).
  exists ks'. split; [exact E|]. split; [exact Hw|]. split; [exact He|].
  refine (proj2 (Hio _)). discriminate.
Defined.

(** X27 at work: a create of a path that does not resolve. *)
Lemma NtCreateFile_missing_path_witness :
  example_ResolvePath 2 = None
  /\ exists st',
       @xboxkrnl_io_fs.NtCreateFile nt_status nt_file_status unit nat nat
         example_ResolvePath example_Device_ResolvePath example_read_only
         example_Open 0x5100 FileAccess.X_GENERIC_WRITE
         {| xboxkrnl_io_fs.root_directory := 0;
            xboxkrnl_io_fs.object_name_ptr := 0x7000;
            xboxkrnl_io_fs.object_name := 2%nat;
            xboxkrnl_io_fs.attributes := 0 |}
         2%nat 0x5000 0 0 0 FileDisposition.X_FILE_CREATE example_fs
       = Returns (0xC000000F, st')
       /\ xboxkrnl_io_fs.opens unit nat st' = []
       /\ load_and_swap
            (xboxkrnl_io.guest_memory unit (xboxkrnl_io_fs.kernel unit nat st'))
            0x5100
          = load_and_swap
              (xboxkrnl_io.guest_memory unit
                 (xboxkrnl_io_fs.kernel unit nat example_fs)) 0x5100.
Proof.
  split; [reflexivity|].
  destruct (@NtCreateFile_missing_path nt_status nt_file_status unit nat nat
              example_ResolvePath example_Device_ResolvePath example_read_only
              example_Open 0x5100 FileAccess.X_GENERIC_WRITE
              {| xboxkrnl_io_fs.root_directory := 0;
                 xboxkrnl_io_fs.object_name_ptr := 0x7000;
                 xboxkrnl_io_fs.object_name := 2%nat;
                 xboxkrnl_io_fs.attributes := 0 |}
              2%nat 0x5000 0 0 0 FileDisposition.X_FILE_CREATE example_fs
              (or_introl eq_refl) eq_refl)
    as (st' & E & Ho & _ & _ & _ & Hio).
  exists st'. split; [exact E|]. split; [exact Ho|].
  destruct (Hio ltac:(discriminate)) as (_ & _ & Hm).
  apply load_and_swap_frame. intros x Hx. apply Hm. lia.
Defined.

(** X28 at work: a read-only entry asked for with write and append
    access. *)
Lemma NtCreateFile_open_mode_witness :
  example_ResolvePath 1 = Some 7%nat
  /\ example_read_only 7 = true
  /\ exists st',
       @xboxkrnl_io_fs.NtCreateFile nt_status nt_file_status unit nat nat
         example_ResolvePath example_Device_ResolvePath example_read_only
         example_Open 0x5100
         (Z.lor FileAccess.X_GENERIC_WRITE FileAccess.X_FILE_APPEND_DATA)
         {| xboxkrnl_io_fs.root_directory := 0;
            xboxkrnl_io_fs.object_name_ptr := 0x7000;
            xboxkrnl_io_fs.object_name := 1%nat;
            xboxkrnl_io_fs.attributes := 0 |}
         1%nat 0x5000 0 0 0 FileDisposition.X_FILE_OPEN example_fs
       = Returns (0, st')
       /\ xboxkrnl_io_fs.opens unit nat st' = [(7%nat, READ_WRITE)]
       /\ load_and_swap
            (xboxkrnl_io.guest_memory unit (xboxkrnl_io_fs.kernel unit nat st'))
            0x5100 = 0x30.
Proof.
  split; [reflexivity|]. split; [reflexivity|].
  pose proof (@NtCreateFile_open_mode nt_status nt_file_status unit nat nat
              example_ResolvePath example_Device_ResolvePath example_read_only
              example_Open (fun _ _ => 0%nat) 0%nat 0x5100
              (Z.lor FileAccess.X_GENERIC_WRITE FileAccess.X_FILE_APPEND_DATA)
              {| xboxkrnl_io_fs.root_directory := 0;
                 xboxkrnl_io_fs.object_name_ptr := 0x7000;
                 xboxkrnl_io_fs.object_name := 1%nat;
                 xboxkrnl_io_fs.attributes := 0 |}
              1%nat 0x5000 0 0 0 FileDisposition.X_FILE_OPEN example_fs 7%nat
              (or_introl eq_refl) eq_refl) as H.
  cbv zeta in H. destruct H as [H _].
  assert (E : exists st',
             @xboxkrnl_io_fs.NtCreateFile nt_status nt_file_status unit nat nat
               example_ResolvePath example_Device_ResolvePath example_read_only
               example_Open 0x5100
               (Z.lor FileAccess.X_GENERIC_WRITE FileAccess.X_FILE_APPEND_DATA)
               {| xboxkrnl_io_fs.root_directory := 0;
                  xboxkrnl_io_fs.object_name_ptr := 0x7000;
                  xboxkrnl_io_fs.object_name := 1%nat;
                  xboxkrnl_io_fs.attributes := 0 |}
               1%nat 0x5000 0 0 0 FileDisposition.X_FILE_OPEN example_fs
             = Returns (0, st'))
    by (eexists; reflexivity).
  destruct E as [st' E]. rewrite E in H. destruct H as [Ho Hs].
  match type of Hs with
  | (if ?c then _ else _) => change c with true in Hs
  end.
  destruct Hs as (_ & h & Hh & Hl).
  change (Some 0x30 = Some h) in Hh. injection Hh as <-.
  exists st'. split; [exact E|]. split; [exact Ho|].
  apply Hl. discriminate.
Defined.

(** X29 at work: a directory query with a 16-byte buffer. *)
Lemma NtQueryDirectoryFile_information_witness :
  16 < 72
  /\ @xboxkrnl_io_fs.NtQueryDirectoryFile nt_status nt_file_status unit nat nat
       (fun _ _ => 0%nat) example_QueryDirectory example_InfoWrite
       0x10 0 0 0 0x5000 0x6000 16 0 0 example_kernel
     = (0xC0000004, example_kernel).
Proof.
  assert (H : 16 < 72) by reflexivity.
  split; [exact H|].
  exact (proj1 (@NtQueryDirectoryFile_information nt_status nt_file_status unit
                  nat nat (fun _ _ => 0%nat) example_QueryDirectory
                  example_InfoWrite 0x10 0 0 0 0x5000 0x6000 16 0 0
                  example_kernel) H).
Defined.

(** X30 at work: the label information class, which is not supported. *)
Lemma NtQueryVolumeInformationFile_classes_witness :
  xboxkrnl_io.files unit example_kernel 0x10 = Some tt
  /\ @xboxkrnl_io_volume.NtQueryVolumeInformationFile nt_status nt_file_status
       unit nat nat nat
       example_QueryVolumeInfo example_InfoWrite
       example_QueryRefused example_InfoWrite
       example_QueryRefused example_InfoWrite
       0x10 0x5000 0x6000 32 2 example_kernel
     = Faults
  /\ exists ks',
       @xboxkrnl_io_volume.NtQueryVolumeInformationFile nt_status nt_file_status
         unit nat nat nat
         example_QueryVolumeInfo example_InfoWrite
         example_QueryRefused example_InfoWrite
         example_QueryRefused example_InfoWrite
         0x99 0x5000 0x6000 32 2 example_kernel
       = Returns (0xC000000F, ks').
Proof.
  split; [reflexivity|].
  split.
  - apply (proj1 (proj1 (@NtQueryVolumeInformationFile_classes nt_status
                           nt_file_status unit nat nat nat
                           example_QueryVolumeInfo example_InfoWrite
                           example_QueryRefused example_InfoWrite
                           example_QueryRefused example_InfoWrite
                           0x10 0x5000 0x6000 32 2 example_kernel) tt eq_refl)).
    repeat split; discriminate.
  - destruct (proj1 (proj2 (@NtQueryVolumeInformationFile_classes nt_status
                           nt_file_status unit nat nat nat
                           example_QueryVolumeInfo example_InfoWrite
                           example_QueryRefused example_InfoWrite
                           example_QueryRefused example_InfoWrite
                           0x99 0x5000 0x6000 32 2 example_kernel)) eq_refl)
      as (ks' & E & _).
    exists ks'. exact E.
Defined.
